(** * generalised_parity_anode: a Neural ODE / Augmented Neural ODE experiment

    Shallow embedding of [experiments/generalised_parity/generalised_parity_anode.py].

    Conventions of the embedding.
    - Python integers are [Z]; scalars of numpy arrays and torch tensors are
      idealised as exact rationals [Q], so the dtype casts ([.float()],
      [torch.tensor(..)], [.detach().numpy()]) are identities.
    - A raised Python exception is [None] in the option monad.
    - The collaborators that live outside the repository (the adaptive ODE
      solver of torchdiffeq in its two flavours, autograd's backward pass, the
      Adam optimiser, the ELU activation) are the fields of the class
      [Torch]; the script is embedded once, for all of them.
    - The process environment (numpy's random stream, torch's parameter
      initialisation, the wall clock, uninitialised memory handed out by
      [np.empty], the file [results.npy]) is the record [Env]. *)

From Stdlib Require Import QArith ZArith Lia Lqa.
From stdpp Require Import base option list strings.

Local Open Scope Z_scope.

(** ** Tensors of rank two *)

(** A rank-two tensor carries its width, so that a batch of zero rows still
    has a shape, as it has in torch and numpy. *)
Record Tensor (A : Type) : Type := mkTensor {
  ncols : nat;
  rows : list (list A)
}.
Arguments mkTensor {A} _ _.
Arguments ncols {A} _.
Arguments rows {A} _.

Definition nrows {A} (t : Tensor A) : nat := length (rows t).

(** Every row has the declared width. *)
Definition rectangular {A} (t : Tensor A) : Prop :=
  Forall (fun r => length r = ncols t) (rows t).

Definition tmap {A B} (f : A -> B) (t : Tensor A) : Tensor B :=
  mkTensor (ncols t) (map (map f) (rows t)).

(** ** Python and numpy helpers *)

(** [range(lo, hi)] *)
Definition py_range (lo hi : Z) : list Z :=
  map (fun k => lo + Z.of_nat k) (seq 0 (Z.to_nat (hi - lo))).

(** Index resolution of numpy and Python sequences on an axis of length [n]:
    negative indices count from the end, anything else raises IndexError. *)
Definition np_index (n : nat) (i : Z) : option nat :=
  if decide (0 <= i < Z.of_nat n) then Some (Z.to_nat i)
  else if decide (- Z.of_nat n <= i < 0) then Some (Z.to_nat (i + Z.of_nat n))
  else None.

(** [arr[i] = v] on a one-dimensional array *)
Definition np_setitem (arr : list Q) (i : Z) (v : Q) : option (list Q) :=
  j ← np_index (length arr) i;
  Some (<[j := v]> arr).

(** [np.empty(n)]: [n] cells of whatever the allocator hands out. *)
Definition np_empty (garbage : nat -> Q) (n : Z) : option (list Q) :=
  if decide (n < 0) then None
  else Some (map garbage (seq 0 (Z.to_nat n))).

(** numpy's global random generator: a stream of draws from [0, 1) and the
    number of draws consumed so far. *)
Record NpRandom : Type := mkNpRandom {
  np_stream : nat -> Q;
  np_pos : nat
}.

(** [np.random.rand(n, d)], rows filled in order from the stream. *)
Definition np_random_rand (g : NpRandom) (n d : Z) : option (Tensor Q * NpRandom) :=
  if decide (n < 0 \/ d < 0) then None
  else
    let n' := Z.to_nat n in
    let d' := Z.to_nat d in
    Some (mkTensor d'
            (map (fun i => map (fun j => np_stream g (np_pos g + i * d' + j)%nat) (seq 0 d'))
                 (seq 0 n')),
          mkNpRandom (np_stream g) (np_pos g + n' * d')%nat).

(** [time.time()] *)
Record Clock : Type := mkClock {
  readings : nat -> Q;
  ticks : nat
}.

Definition time_time (c : Clock) : Q * Clock :=
  (readings c (ticks c), mkClock (readings c) (S (ticks c))).

(** ** torch helpers *)

(** [torch.zeros(n, e)] *)
Definition torch_zeros (n e : Z) : option (Tensor Q) :=
  if decide (n < 0 \/ e < 0) then None
  else Some (mkTensor (Z.to_nat e) (replicate (Z.to_nat n) (replicate (Z.to_nat e) 0%Q))).

(** [torch.cat((a, b), dim=1)] *)
Definition torch_cat1 {A} (a b : Tensor A) : option (Tensor A) :=
  if decide (nrows a = nrows b)
  then Some (mkTensor (ncols a + ncols b)%nat (zip_with app (rows a) (rows b)))
  else None.

(** [torch.arange(d)] followed by [.repeat(n, 1)] *)
Definition torch_arange (d : Z) : option (list nat) :=
  if decide (d < 0) then None else Some (seq 0 (Z.to_nat d)).

Definition repeat_rows (v : list nat) (n : Z) : option (Tensor nat) :=
  if decide (n < 0) then None
  else Some (mkTensor (length v) (replicate (Z.to_nat n) v)).

(** [input.gather(1, index)]: [out[i][j] = input[i][index[i][j]]]; the result
    has the shape of [index], which may have fewer rows than [input] but not
    more, and whose entries must be valid columns of [input]. *)
Definition gather1 (input : Tensor Q) (index : Tensor nat) : option (Tensor Q) :=
  if decide (nrows index <= nrows input)%nat then
    rs ← mapM (fun '(r, ix) => mapM (fun j : nat => r !! j) ix)
              (zip (rows input) (rows index));
    Some (mkTensor (ncols index) rs)
  else None.

Definition Qsum (l : list Q) : Q := foldr Qplus 0%Q l.

(** [nn.MSELoss()]: the mean of the squared differences over all entries.
    The script only ever compares two tensors of one shape; other shapes are
    an error here. (Over an empty batch torch yields nan, this model [0].) *)
Definition MSELoss (pred target : Tensor Q) : option Q :=
  if decide (ncols pred = ncols target /\ nrows pred = nrows target) then
    let sq := zip_with (fun rp rt => Qsum (zip_with (fun p t => (p - t) * (p - t))%Q rp rt))
                       (rows pred) (rows target) in
    Some (Qsum sq / inject_Z (Z.of_nat (nrows pred * ncols pred)))%Q
  else None.

(** [nn.Linear(in_features, out_features)]: [weight] has one row per output. *)
Record Linear : Type := mkLinear {
  in_features : nat;
  out_features : nat;
  weight : list (list Q);
  bias : list Q
}.

Definition dot (u v : list Q) : Q := Qsum (zip_with Qmult u v).

Definition Linear_forward (l : Linear) (x : Tensor Q) : option (Tensor Q) :=
  if decide (ncols x = in_features l) then
    Some (mkTensor (out_features l)
            (map (fun r => zip_with (fun w b => (dot r w + b)%Q) (weight l) (bias l))
                 (rows x)))
  else None.

(** The learnable parameters of the vector field, in registration order. *)
Definition Params : Type := Linear * Linear * Linear.

Definition Linear_add (a b : Linear) : Linear :=
  mkLinear (in_features a) (out_features a)
           (zip_with (zip_with Qplus) (weight a) (weight b))
           (zip_with Qplus (bias a) (bias b)).

Definition Params_add (p q : Params) : Params :=
  (Linear_add p.1.1 q.1.1, Linear_add p.1.2 q.1.2, Linear_add p.2 q.2).

(** Whether a computation ended without raising. *)
Definition succeeds {A} (o : option A) : bool :=
  match o with
  | Some _ => true
  | None => false
  end.

(** ** Programs that call the vector field *)

(** The solver and the backward pass see the vector field only through calls
    [func(t, x)]. Such a client is a finite tree: it ends with a value, it
    raises, or it makes one call and continues with the answer. *)
Inductive Script (A : Type) : Type :=
| Done (a : A)
| Raise
| Call (t : Q) (x : Tensor Q) (k : Tensor Q -> Script A).
Arguments Done {A} _.
Arguments Raise {A}.
Arguments Call {A} _ _ _.

(** ** The collaborators outside the repository *)

Class Torch : Type := {
  (** [nn.ELU] on one scalar *)
  elu : Q -> Q;
  (** [torchdiffeq.odeint(func, y0, t, rtol, atol)], as a client of [func] *)
  odeint_plain : Tensor Q -> list Q -> Q -> Q -> Script (list (Tensor Q));
  (** [torchdiffeq.odeint_adjoint(func, y0, t, rtol, atol)] *)
  odeint_adjoint : Tensor Q -> list Q -> Q -> Q -> Script (list (Tensor Q));
  (** the tolerances either solver uses when the caller passes none *)
  default_rtol : Q;
  default_atol : Q;
  (** [loss.backward()] for the loss of one forward pass: the gradient with
      respect to the parameters. Without the adjoint method it replays the
      recorded graph, with it it integrates backwards in time and calls the
      vector field again. Arguments: the adjoint flag, the parameters, the
      input batch, the time points, the tolerance, the selector and the
      target. *)
  backward : bool -> Params -> Tensor Q -> list Q -> Q -> Tensor nat -> Tensor Q
             -> Script Params;
  (** [optim.Adam(params, lr)] and its [step()] *)
  OptState : Type;
  Adam : Params -> Q -> OptState;
  Adam_step : OptState -> Params -> option Params -> Params * OptState
}.

(** ** Command-line configuration ([argparse]) *)

Record Args : Type := mkArgs {
  tol : Q;
  adjoint : bool;
  niters : Z;
  lr : Q;
  gpu : Z;
  extra_dim : Z;
  data_dimension : Z;
  scale_factor : Q;
  ntrain : Z;
  ntest : Z;
  experiment_no : Z
}.

(** The defaults of the parser; the tolerance is 1e-3, the learning rate 0.01. *)
Definition default_args : Args :=
  mkArgs (1 # 1000) false 1000 (1 # 100) 0 1 1 (-1) 50 10 1.

(** ** The process environment *)

(** The shared results array, indexed
    [augmented-or-not][train-or-test][data_dimension-1][experiment_no-1]. *)
Abbreviation Results := (list (list (list (list Q)))).

Record Env : Type := mkEnv {
  (** what [np.random.rand] will return, draw by draw *)
  env_np : nat -> Q;
  (** the initial values torch gives to the entries of the linear layers *)
  env_torch : nat -> Q;
  (** what [time.time()] will return, reading by reading *)
  env_clock : nat -> Q;
  (** the content of the k-th array allocated by [np.empty], cell by cell *)
  env_uninit : nat -> nat -> Q;
  (** the array stored in [results.npy], if the file exists *)
  env_results : option Results;
  (** what [torch.cuda.is_available()] returns *)
  env_cuda : bool
}.

(** ** Devices

    Tensors carry no device in this embedding: the device of a tensor is
    fixed by the line that creates it. The script moves some tensors to
    [device] (line 78) and leaves others where torch creates them, on the
    CPU; an operation on two tensors raises unless they are on one device. *)

Inductive Device : Type :=
| Cpu
| Cuda (index : Z).

(** Line 78: [torch.device('cuda:' + str(args.gpu) if torch.cuda.is_available() else 'cpu')] *)
Definition torch_device (cuda_is_available : bool) (gpu_index : Z) : Device :=
  if cuda_is_available then Cuda gpu_index else Cpu.

Definition same_device (a b : Device) : option unit :=
  match a, b with
  | Cpu, Cpu => Some tt
  | Cuda i, Cuda j => if decide (i = j) then Some tt else None
  | _, _ => None
  end.

(** ** The model *)

Record ODEfunc : Type := mkODEfunc {
  fc1 : Linear;
  fc2 : Linear;
  fc3 : Linear;
  nfe : Z
}.

Record ODEBlock : Type := mkODEBlock {
  odefunc : ODEfunc;
  integration_times : list Q;
  indices : Tensor nat
}.

Definition parameters (f : ODEfunc) : Params := (fc1 f, fc2 f, fc3 f).

(** The optimiser updates the parameters in place; the counter is not one. *)
Definition load_parameters (f : ODEfunc) (p : Params) : ODEfunc :=
  mkODEfunc p.1.1 p.1.2 p.2 (nfe f).

(** [nn.Linear(i, o)]: weight then bias, filled from torch's generator. *)
Definition Linear_init (g : nat -> Q) (pos i o : nat) : Linear * nat :=
  (mkLinear i o
     (map (fun r => map (fun c => g (pos + r * i + c)%nat) (seq 0 i)) (seq 0 o))
     (map (fun r => g (pos + o * i + r)%nat) (seq 0 o)),
   (pos + o * i + o)%nat).

(** [ODEfunc.__init__] *)
Definition ODEfunc_init (g : nat -> Q) (dim nhidden : nat) : ODEfunc :=
  let '(l1, p1) := Linear_init g 0 dim nhidden in
  let '(l2, p2) := Linear_init g p1 nhidden nhidden in
  let '(l3, _) := Linear_init g p2 nhidden dim in
  mkODEfunc l1 l2 l3 0.

(** [ODEBlock.__init__] *)
Definition ODEBlock_init (f : ODEfunc) (t0_ tN_ : Z) (ids : Tensor nat) : ODEBlock :=
  mkODEBlock f [inject_Z t0_; inject_Z tN_] ids.

(** The property [ODEBlock.nfe] and its setter. *)
Definition ODEBlock_nfe (b : ODEBlock) : Z := nfe (odefunc b).

Definition ODEBlock_set_nfe (b : ODEBlock) (value : Z) : ODEBlock :=
  mkODEBlock (mkODEfunc (fc1 (odefunc b)) (fc2 (odefunc b)) (fc3 (odefunc b)) value)
             (integration_times b) (indices b).

Section Script.
Context `{Torch}.

(** [ODEfunc.forward]: the counter goes up before the layers run. *)
Definition ODEfunc_forward (f : ODEfunc) (t : Q) (x : Tensor Q)
  : option (Tensor Q * ODEfunc) :=
  let f' := mkODEfunc (fc1 f) (fc2 f) (fc3 f) (nfe f + 1) in
  out ← Linear_forward (fc1 f) x;
  let out := tmap elu out in
  out ← Linear_forward (fc2 f) out;
  let out := tmap elu out in
  out ← Linear_forward (fc3 f) out;
  Some (out, f').

(** Running a client against the vector field: every call goes through
    [ODEfunc.forward], an exception of the client or of the field ends the
    run. *)
Fixpoint run_script {A} (s : Script A) (f : ODEfunc) : option (A * ODEfunc) :=
  match s with
  | Done a => Some (a, f)
  | Raise => None
  | Call t x k =>
      match ODEfunc_forward f t x with
      | Some (out, f') => run_script (k out) f'
      | None => None
      end
  end.

(** The number of calls the client makes when run against [f]. *)
Fixpoint calls {A} (s : Script A) (f : ODEfunc) : nat :=
  match s with
  | Done _ | Raise => 0
  | Call t x k =>
      match ODEfunc_forward f t x with
      | Some (out, f') => S (calls (k out) f')
      | None => 1
      end
  end.

(** The states the client passes to the vector field when run against [f]. *)
Fixpoint call_args {A} (s : Script A) (f : ODEfunc) : list (Tensor Q) :=
  match s with
  | Done _ | Raise => []
  | Call t x k =>
      x :: match ODEfunc_forward f t x with
           | Some (out, f') => call_args (k out) f'
           | None => []
           end
  end.

(** The import at the top of the script binds [odeint] to one of the two
    solvers; a call that passes no tolerance gets the solver's defaults. *)
Definition odeint (adj : bool) (y0 : Tensor Q) (t : list Q) (rtol atol : option Q)
  : Script (list (Tensor Q)) :=
  (if adj then odeint_adjoint else odeint_plain)
    y0 t (default default_rtol rtol) (default default_atol atol).

(** [ODEBlock.forward] *)
Definition ODEBlock_forward (args : Args) (b : ODEBlock) (x : Tensor Q)
  : option (Tensor Q * ODEBlock) :=
  '(out, f) ← run_script (odeint (adjoint args) x (integration_times b)
                                 (Some (tol args)) (Some (tol args)))
                         (odefunc b);
  y ← out !! 1%nat;
  out ← gather1 y (indices b);
  Some (out, mkODEBlock f (integration_times b) (indices b)).

End Script.

(** ** The shared results array *)

(** [results[a][s][d][e] = v]: three views, then one scalar store. *)
Definition results_setitem (r : Results) (a s d e : Z) (v : Q) : option Results :=
  i ← np_index (length r) a;
  r1 ← r !! i;
  j ← np_index (length r1) s;
  r2 ← r1 !! j;
  k ← np_index (length r2) d;
  r3 ← r2 !! k;
  l ← np_index (length r3) e;
  Some (<[i := <[j := <[k := <[l := v]> r3]> r2]> r1]> r).

(** The cell at four resolved positions. *)
Definition cell (r : Results) (i j k l : nat) : option Q :=
  r1 ← r !! i; r2 ← r1 !! j; r3 ← r2 !! k; r3 !! l.

(** The positions that [results[a][s][d][e]] resolves to. *)
Definition resolve_cell (r : Results) (a s d e : Z) : option (nat * nat * nat * nat) :=
  i ← np_index (length r) a;
  r1 ← r !! i;
  j ← np_index (length r1) s;
  r2 ← r1 !! j;
  k ← np_index (length r2) d;
  r3 ← r2 !! k;
  l ← np_index (length r3) e;
  Some (i, j, k, l).

Definition cell_at (r : Results) (p : nat * nat * nat * nat) : option Q :=
  cell r p.1.1.1 p.1.1.2 p.1.2 p.2.

(** ** What a run leaves behind *)

Inductive File : Type :=
| NpyArray (v : list Q)
| NpyResults (r : Results)
| TorchModel (m : ODEBlock).

Inductive Printed : Type :=
| PIter (itr : Z) (loss : Q)
| PTrainingComplete (itr : Z)
| PTime (t : Q)
| PTrainMSE (loss : Q)
| PNFE (n : Z)
| PTestMSE (loss : Q)
| PBlank
| PParameters (n : nat).

Record Outcome : Type := mkOutcome {
  (** the directory handed to [os.makedirs] *)
  out_dir : string;
  (** the files written, oldest first *)
  out_files : list (string * File);
  out_stdout : list Printed
}.

(** The last file written under a path. *)
Definition lookup_file (o : Outcome) (path : string) : option File :=
  snd <$> last (filter (fun pf => pf.1 = path) (out_files o)).

Definition file_paths (o : Outcome) : list string := fst <$> out_files o.

(** ** [count_parameters] *)

(** The number of entries of a weight matrix. *)
Definition numel {A} (t : list (list A)) : nat := sum_list (length <$> t).

(** [p.numel()] for the parameters of the model, in registration order; all
    of them require a gradient. *)
Definition parameter_numels (m : ODEBlock) : list nat :=
  [numel (weight (fc1 (odefunc m))); length (bias (fc1 (odefunc m)));
   numel (weight (fc2 (odefunc m))); length (bias (fc2 (odefunc m)));
   numel (weight (fc3 (odefunc m))); length (bias (fc3 (odefunc m)))].

Definition count_parameters (m : ODEBlock) : nat := sum_list (parameter_numels m).

(** ** Data generation *)

(** Lines 90-97 and 104-105: the training batch, its target and selector. *)
Definition train_data (args : Args) (g : NpRandom)
  : option (Tensor Q * Tensor Q * Tensor nat * NpRandom) :=
  '(z0, g) ← np_random_rand g (ntrain args) (data_dimension args);
  let z0 := tmap (fun x => x * 2 - 1)%Q z0 in
  let zN := tmap (fun x => x * scale_factor args)%Q z0 in
  zeros ← torch_zeros (ntrain args) (extra_dim args);
  z0 ← torch_cat1 z0 zeros;
  ids ← torch_arange (data_dimension args);
  ids ← repeat_rows ids (ntrain args);
  Some (z0, zN, ids, g).

(** Lines 163-173: the test batch, its target and selector. *)
Definition test_data (args : Args) (g : NpRandom)
  : option (Tensor Q * Tensor Q * Tensor nat * NpRandom) :=
  '(z0, g) ← np_random_rand g (ntest args) (data_dimension args);
  let z0 := tmap (fun x => x * 2 - 1)%Q z0 in
  let zN := tmap (fun x => x * scale_factor args)%Q z0 in
  zeros ← torch_zeros (ntest args) (extra_dim args);
  z0 ← torch_cat1 z0 zeros;
  ids ← torch_arange (data_dimension args);
  ids ← repeat_rows ids (ntest args);
  Some (z0, zN, ids, g).

(** [n] rows of [d] successive draws from the generator, each mapped from
    [0, 1) to [-1, 1) as [x * 2 - 1]. *)
Definition drawn_batch (g : NpRandom) (n d : nat) : Tensor Q :=
  mkTensor d
    (map (fun i => map (fun j => (np_stream g (np_pos g + i * d + j)%nat * 2 - 1)%Q)
                       (seq 0 d))
         (seq 0 n)).

(** A batch with [e] zero columns appended to every row. *)
Definition zero_padded (t : Tensor Q) (e : nat) : Tensor Q :=
  mkTensor (ncols t + e) ((fun r => r ++ replicate e 0%Q) <$> rows t).

(** The generator after [k] more draws. *)
Definition advance (g : NpRandom) (k : nat) : NpRandom :=
  mkNpRandom (np_stream g) (np_pos g + k).

(** The selector of [n] rows over the first [d] columns. *)
Definition selector (n d : nat) : Tensor nat :=
  mkTensor d (replicate n (seq 0 d)).

(** Lines 79-82 and 142-145. *)
Definition filename (args : Args) : string :=
  if decide (extra_dim args = 0) then "node./" else "anode./".

Definition first_index (args : Args) : Z :=
  if decide (extra_dim args = 0) then 0 else 1.

(** The paths of the five artifacts saved under [filename]. *)
Definition artifact_names : list string :=
  ["itr_arr.npy"; "nfe_arr.npy"; "loss_arr.npy"; "time_arr.npy"; "model.pth"].

Section Experiment.
Context `{Torch}.

(** ** Training *)

(** The variables of the script that the training loop reads and writes.
    [pred_z], [loss] and [itr] are unbound until the first iteration. *)
Record TrainState : Type := mkTrainState {
  model : ODEBlock;
  optimizer : OptState;
  grads : option Params;
  clock : Clock;
  pred_z : option (Tensor Q);
  loss : option Q;
  itr : option Z;
  itr_arr : list Q;
  loss_arr : list Q;
  nfe_arr : list Q;
  time_arr : list Q;
  stdout : list Printed
}.

(** Lines 120-122: reset the counter, read the clock, clear the gradients. *)
Definition begin_iteration (s : TrainState) : TrainState * Q :=
  let m := ODEBlock_set_nfe (model s) 0 in
  let '(iter_start_time, c) := time_time (clock s) in
  (mkTrainState m (optimizer s) None c (pred_z s) (loss s) (itr s)
                (itr_arr s) (loss_arr s) (nfe_arr s) (time_arr s) (stdout s),
   iter_start_time).

(** Gradients add up in the [.grad] fields until they are cleared. *)
Definition accumulate (old : option Params) (g : Params) : Params :=
  match old with
  | None => g
  | Some o => Params_add o g
  end.

(** Lines 125-129: forward pass, loss, backward pass, optimiser step, on the
    model, the optimiser and the pending gradients. The result is the
    prediction, the loss, the block and the optimiser after the step, and the
    gradients left in place. *)
Definition gradient_step (args : Args) (z0 zN : Tensor Q)
                         (m : ODEBlock) (opt : OptState) (gr : option Params)
  : option (Tensor Q * Q * ODEBlock * OptState * Params) :=
  '(pred, b) ← ODEBlock_forward args m z0;
  l ← MSELoss pred zN;
  '(g, f) ← run_script (backward (adjoint args) (parameters (odefunc b)) z0
                                 (integration_times b) (tol args) (indices b) zN)
                       (odefunc b);
  let g := accumulate gr g in
  let '(p, o) := Adam_step opt (parameters f) (Some g) in
  Some (pred, l, mkODEBlock (load_parameters f p) (integration_times b) (indices b), o, g).

(** The slot of the four arrays that iteration [itr] writes. *)
Definition slot (itr : Z) : Z := itr - 1.

(** One pass through the body of the loop, lines 120-137. *)
Definition train_iteration (args : Args) (z0 zN : Tensor Q)
                           (s : TrainState) (itr : Z) : option TrainState :=
  let '(s, iter_start_time) := begin_iteration s in
  '(pred, l, m, o, g) ← gradient_step args z0 zN (model s) (optimizer s) (grads s);
  let '(iter_end_time, c) := time_time (clock s) in
  ia ← np_setitem (itr_arr s) (slot itr) (inject_Z itr);
  la ← np_setitem (loss_arr s) (slot itr) l;
  na ← np_setitem (nfe_arr s) (slot itr) (inject_Z (ODEBlock_nfe m));
  ta ← np_setitem (time_arr s) (slot itr) (iter_end_time - iter_start_time)%Q;
  Some (mkTrainState m o (Some g) c (Some pred) (Some l) (Some itr)
                     ia la na ta (stdout s ++ [PIter itr l])).

(** A [for] loop whose body may raise. *)
Fixpoint for_each {S A} (body : S -> A -> option S) (l : list A) (s : S) : option S :=
  match l with
  | [] => Some s
  | a :: l => s ← body s a; for_each body l s
  end.

(** [optim.Adam(params, lr=lr)]: the constructor raises on a negative
    learning rate; what it builds otherwise is the collaborator's. *)
Definition optim_Adam (p : Params) (rate : Q) : option OptState :=
  if Qle_bool 0 rate then Some (Adam p rate) else None.

(** Lines 107-118: the model, the optimiser, the four arrays and the first
    clock reading. *)
Definition initial_state (args : Args) (env : Env) (ids : Tensor nat)
  : option TrainState :=
  let dim := data_dimension args + extra_dim args in
  let t0 := 0 in
  let tN := 1 in
  let nhidden := 20%nat in
  let feature_layer :=
    ODEBlock_init (ODEfunc_init (env_torch env) (Z.to_nat dim) nhidden) t0 tN ids in
  opt ← optim_Adam (parameters (odefunc feature_layer)) (lr args);
  ia ← np_empty (env_uninit env 0) (niters args);
  la ← np_empty (env_uninit env 1) (niters args);
  na ← np_empty (env_uninit env 2) (niters args);
  ta ← np_empty (env_uninit env 3) (niters args);
  let '(start_time, c) := time_time (mkClock (env_clock env) 0) in
  Some (mkTrainState feature_layer opt None c None None None ia la na ta []).

(** Lines 119-137. *)
Definition training_loop (args : Args) (z0 zN : Tensor Q) (s : TrainState)
  : option TrainState :=
  for_each (train_iteration args z0 zN) (py_range 1 (niters args + 1)) s.

(** Lines 78 and 88-140: data, model and the whole training. The
    concatenation of line 97 is the first operation that mixes a tensor on
    [device] with one on the CPU; the gathers of lines 60 and 177 mix the
    same two devices (the trajectory on [device], the selector on the CPU)
    and come after it. *)
Definition train (args : Args) (env : Env)
  : option (TrainState * Tensor Q * NpRandom) :=
  let device := torch_device (env_cuda env) (gpu args) in
  '(z0, zN, ids, g) ← train_data args (mkNpRandom (env_np env) 0);
  (* line 97: [z0] has been moved to [device], [zeros] is where it was made *)
  _ ← same_device device Cpu;
  s ← initial_state args env ids;
  s ← training_loop args z0 zN s;
  Some (s, zN, g).

(** The state after the first [k] passes through the loop body. *)
Definition state_after (args : Args) (z0 zN : Tensor Q) (s : TrainState) (k : nat)
  : option TrainState :=
  for_each (train_iteration args z0 zN) (py_range 1 (Z.of_nat k + 1)) s.

(** The calls of the vector field made by the forward pass on [m], and by
    the backward pass that follows it on [b]. *)
Definition forward_calls (args : Args) (z0 : Tensor Q) (m : ODEBlock) : nat :=
  calls (odeint (adjoint args) z0 (integration_times m)
                (Some (tol args)) (Some (tol args))) (odefunc m).

Definition backward_calls (args : Args) (z0 zN : Tensor Q) (b : ODEBlock) : nat :=
  calls (backward (adjoint args) (parameters (odefunc b)) z0
                  (integration_times b) (tol args) (indices b) zN) (odefunc b).

(** ** Reporting and evaluation *)

(** Lines 176-177: the prediction on the test batch. *)
Definition test_prediction (args : Args) (m : ODEBlock) (z0 : Tensor Q)
                           (ids : Tensor nat) : option (Tensor Q * ODEBlock) :=
  let t0 := 0 in
  let tN := 1 in
  '(out, f) ← run_script (odeint (adjoint args) z0 [inject_Z t0; inject_Z tN] None None)
                         (odefunc m);
  y ← out !! 1%nat;
  out ← gather1 y ids;
  Some (out, mkODEBlock f (integration_times m) (indices m)).

(** The prediction on the test batch as the specification words it: the
    vector field integrated over the time pair (0, 1) with absolute and
    relative tolerance both [tol], then the selector columns of the endpoint
    gathered; that is [ODEBlock.forward] with the selector of the test
    batch. To be compared with [test_prediction]. *)
Definition spec_test_prediction (args : Args) (m : ODEBlock) (z0 : Tensor Q)
                                (ids : Tensor nat) : option (Tensor Q * ODEBlock) :=
  '(out, f) ← run_script (odeint (adjoint args) z0 [inject_Z 0; inject_Z 1]
                                 (Some (tol args)) (Some (tol args)))
                         (odefunc m);
  y ← out !! 1%nat;
  out ← gather1 y ids;
  Some (out, mkODEBlock f (integration_times m) (indices m)).

(** The whole script. *)
Definition run (args : Args) (env : Env) : option Outcome :=
  let device := torch_device (env_cuda env) (gpu args) in
  '(s, zN, g) ← train args env;
  let '(end_time, c) := time_time (clock s) in
  results ← env_results env;
  last ← itr s;
  pred ← pred_z s;
  l ← MSELoss pred zN;
  (* line 149: [.numpy()] wants the loss, which is on [device], on the CPU *)
  _ ← same_device device Cpu;
  results ← results_setitem results (first_index args) 0
                            (data_dimension args - 1) (experiment_no args - 1) l;
  let saved :=
    [(filename args +:+ "itr_arr.npy", NpyArray (itr_arr s));
     (filename args +:+ "nfe_arr.npy", NpyArray (nfe_arr s));
     (filename args +:+ "loss_arr.npy", NpyArray (loss_arr s));
     (filename args +:+ "time_arr.npy", NpyArray (time_arr s));
     (filename args +:+ "model.pth", TorchModel (model s))] in
  '(z0, zN, ids, g) ← test_data args g;
  (* line 169, as line 97 *)
  _ ← same_device device Cpu;
  '(pred, m) ← test_prediction args (model s) z0 ids;
  l' ← MSELoss pred zN;
  (* line 180, as line 149 *)
  _ ← same_device device Cpu;
  results ← results_setitem results (first_index args) 1
                            (data_dimension args - 1) (experiment_no args - 1) l';
  Some (mkOutcome ("./" +:+ filename args)
                  (saved ++ [("results.npy", NpyResults results)])
                  (stdout s ++
                   [PBlank;
                    PTrainingComplete last;
                    PTime (end_time - readings (clock s) 0)%Q;
                    PTrainMSE l;
                    PNFE (ODEBlock_nfe (model s));
                    PParameters (count_parameters (model s));
                    PTestMSE l'])).

End Experiment.

(** The same environment with other leftovers in freshly allocated arrays. *)
Definition with_uninit (env : Env) (u : nat -> nat -> Q) : Env :=
  mkEnv (env_np env) (env_torch env) (env_clock env) u (env_results env) (env_cuda env).

(** ** A concrete instance

    Small rational stand-ins for the collaborators, used to run the script on
    concrete inputs: a fixed-step Euler scheme that halves its step when the
    relative tolerance is below 1e-5, a piecewise linear activation,
    a backward pass that returns the parameters as their own gradient (and,
    with the adjoint method, evaluates the vector field once more), and plain
    gradient descent for the optimiser. *)

Definition tzip (f : Q -> Q -> Q) (a b : Tensor Q) : Tensor Q :=
  mkTensor (ncols a) (zip_with (zip_with f) (rows a) (rows b)).

Definition euler_step (h : Q) (y k : Tensor Q) : Tensor Q :=
  tzip (fun u v => Qred (u + h * v)) y k.

Definition toy_odeint (y0 : Tensor Q) (t : list Q) (rtol atol : Q)
  : Script (list (Tensor Q)) :=
  match t with
  | [a; b] =>
      if Qle_bool (1 # 100000) rtol then
        Call a y0 (fun k1 => Done [y0; euler_step (b - a) y0 k1])
      else
        let h := ((b - a) / 2)%Q in
        Call a y0 (fun k1 =>
          let y1 := euler_step h y0 k1 in
          Call (a + h) y1 (fun k2 => Done [y0; euler_step h y1 k2]))
  | _ => Raise
  end.

Definition toy_elu (x : Q) : Q :=
  Qred (if Qle_bool 0 x then x else x / 2).

Definition toy_backward (adj : bool) (p : Params) (z0 : Tensor Q) (t : list Q)
                        (tol : Q) (ids : Tensor nat) (zN : Tensor Q) : Script Params :=
  if adj then Call 1 z0 (fun _ => Done p) else Done p.

Definition Linear_descend (rate : Q) (p g : Linear) : Linear :=
  mkLinear (in_features p) (out_features p)
           (zip_with (zip_with (fun w d => Qred (w - rate * d))) (weight p) (weight g))
           (zip_with (fun w d => Qred (w - rate * d)) (bias p) (bias g)).

Definition toy_step (rate : Q) (p : Params) (g : option Params) : Params * Q :=
  match g with
  | Some g => ((Linear_descend rate p.1.1 g.1.1,
                Linear_descend rate p.1.2 g.1.2,
                Linear_descend rate p.2 g.2), rate)
  | None => (p, rate)
  end.

#[local] Instance toy_torch : Torch := {|
  elu := toy_elu;
  odeint_plain := toy_odeint;
  odeint_adjoint := toy_odeint;
  default_rtol := 1 # 10000000;
  default_atol := 1 # 1000000000;
  backward := toy_backward;
  OptState := Q;
  Adam := fun _ rate => rate;
  Adam_step := toy_step
|}.

(** Two training samples of one data dimension, one extra dimension, three
    iterations, one test sample. *)
Definition toy_args : Args :=
  mkArgs (1 # 1000) false 3 (1 # 100) 0 1 1 (-1) 2 1 1.

Definition toy_results : Results :=
  replicate 2 (replicate 2 (replicate 2 (replicate 2 7%Q))).

Definition toy_env : Env :=
  mkEnv (fun k => Z.of_nat (k mod 4) # 4)
        (fun k => (Z.of_nat (k mod 3) - 1) # 8)
        (fun k => inject_Z (Z.of_nat (k * k)))
        (fun a k => inject_Z (Z.of_nat (100 + a + k)))
        (Some toy_results)
        false.

(** The same run with the adjoint method, without extra dimensions, and
    under a clock that runs twice as fast. *)
Definition toy_args_adjoint : Args :=
  mkArgs (1 # 1000) true 3 (1 # 100) 0 1 1 (-1) 2 1 1.

Definition toy_args_plain : Args :=
  mkArgs (1 # 1000) false 3 (1 # 100) 0 0 1 (-1) 2 1 1.

Definition toy_env_fast_clock : Env :=
  mkEnv (env_np toy_env) (env_torch toy_env)
        (fun k => inject_Z (Z.of_nat (2 * k * k)))
        (env_uninit toy_env) (env_results toy_env) (env_cuda toy_env).

(** The training batch and the state before the first iteration of the
    concrete run. *)
Definition toy_z0 (args : Args) : Tensor Q :=
  match train_data args (mkNpRandom (env_np toy_env) 0) with
  | Some (z0, _, _, _) => z0
  | None => mkTensor 0 []
  end.

Definition toy_zN (args : Args) : Tensor Q :=
  match train_data args (mkNpRandom (env_np toy_env) 0) with
  | Some (_, zN, _, _) => zN
  | None => mkTensor 0 []
  end.

Definition toy_ids (args : Args) : Tensor nat :=
  match train_data args (mkNpRandom (env_np toy_env) 0) with
  | Some (_, _, ids, _) => ids
  | None => mkTensor 0 []
  end.

Definition toy_model (args : Args) : ODEBlock :=
  ODEBlock_init
    (ODEfunc_init (env_torch toy_env)
                  (Z.to_nat (data_dimension args + extra_dim args)) 20)
    0 1 (toy_ids args).

Definition toy_state (args : Args) : TrainState :=
  default (mkTrainState (toy_model args) (1 # 100)%Q None (mkClock (env_clock toy_env) 1)
                        None None None [] [] [] [] [])
          (initial_state args toy_env (toy_ids args)).

(** ** Shapes of the model, and collaborators that respect them *)

(** A linear layer whose weight and bias have the sizes it declares. *)
Definition Linear_wf (l : Linear) : Prop :=
  length (weight l) = out_features l
  /\ length (bias l) = out_features l
  /\ Forall (fun r => length r = in_features l) (weight l).

(** A vector field with the layer sizes that [ODEfunc(dim, nhidden)] gives. *)
Definition ODEfunc_wf (f : ODEfunc) (dim nhidden : nat) : Prop :=
  Linear_wf (fc1 f) /\ Linear_wf (fc2 f) /\ Linear_wf (fc3 f)
  /\ in_features (fc1 f) = dim /\ out_features (fc1 f) = nhidden
  /\ in_features (fc2 f) = nhidden /\ out_features (fc2 f) = nhidden
  /\ in_features (fc3 f) = nhidden /\ out_features (fc3 f) = dim.

Definition Params_wf (p : Params) (dim nhidden : nat) : Prop :=
  ODEfunc_wf (mkODEfunc p.1.1 p.1.2 p.2 0) dim nhidden.

Section Conforming.
Context `{Torch}.

(** What the script relies on from its collaborators. The default
    tolerances of the solvers are positive. On a vector field of the right
    layer sizes, a rectangular batch of its width that is not empty, an
    increasing pair of times and positive tolerances, either solver returns a
    trajectory whose second point has the shape of the batch. On the same
    inputs, with the selector of the first [d] columns and a target of that
    shape, the backward pass returns gradients of the sizes of the
    parameters. The optimiser step keeps the sizes of the parameters. *)
Definition conforming : Prop :=
  (0 < default_rtol)%Q /\ (0 < default_atol)%Q
  /\ (forall adj f dim nhidden y0 t0 tN rtol atol,
         ODEfunc_wf f dim nhidden -> ncols y0 = dim -> rectangular y0 ->
         (0 < dim)%nat -> (0 < nrows y0)%nat ->
         (t0 < tN)%Q -> (0 < rtol)%Q -> (0 < atol)%Q ->
         exists traj f' y,
           run_script ((if adj : bool then odeint_adjoint else odeint_plain)
                         y0 [t0; tN] rtol atol) f = Some (traj, f')
           /\ traj !! 1%nat = Some y
           /\ ncols y = dim /\ nrows y = nrows y0 /\ rectangular y)
  /\ (forall adj f dim nhidden z0 t0 tN tol d zN,
         ODEfunc_wf f dim nhidden -> ncols z0 = dim -> rectangular z0 ->
         (0 < dim)%nat -> (0 < nrows z0)%nat ->
         (t0 < tN)%Q -> (0 < tol)%Q ->
         (d <= dim)%nat -> ncols zN = d -> nrows zN = nrows z0 ->
         exists g f',
           run_script (backward adj (parameters f) z0 [t0; tN] tol
                                (selector (nrows z0) d) zN) f = Some (g, f')
           /\ Params_wf g dim nhidden)
  /\ (forall o p g dim nhidden,
         Params_wf p dim nhidden -> Params_wf g dim nhidden ->
         Params_wf (Adam_step o p (Some g)).1 dim nhidden).

End Conforming.

(** The concrete configuration with [experiment_no = 0]. *)
Definition toy_args_last_slot : Args :=
  mkArgs (1 # 1000) false 3 (1 # 100) 0 1 1 (-1) 2 1 0.

(** * Properties *)

(** Membership in a list that is written out. *)
Ltac in_list :=
  repeat first [apply list_elem_of_here | apply list_elem_of_further].

(** A concrete computation yields a value: run it. *)
Ltac by_running o :=
  let E := fresh "E" in
  let R := fresh "R" in
  destruct o eqn:E;
  [ eauto
  | assert (succeeds o = true) as R by (vm_compute; reflexivity);
    rewrite E in R; discriminate R ].

(** ** Indexing and loops *)

Lemma np_index_nonneg (n : nat) (i : Z) :
  0 <= i < Z.of_nat n -> np_index n i = Some (Z.to_nat i).
Proof. intros Hi. unfold np_index. rewrite decide_True; auto. Qed.

Lemma np_index_lt (n : nat) (i : Z) (j : nat) :
  np_index n i = Some j -> (j < n)%nat.
Proof.
  unfold np_index. intros Hj.
  repeat case_decide; simplify_eq; lia.
Qed.

Lemma np_index_of_nonneg (n : nat) (i : Z) (j : nat) :
  0 <= i -> np_index n i = Some j -> j = Z.to_nat i /\ i < Z.of_nat n.
Proof.
  unfold np_index. intros Hi Hj.
  repeat case_decide; simplify_eq; lia.
Qed.

Lemma np_setitem_inv (arr : list Q) (i : Z) (v : Q) (arr' : list Q) :
  np_setitem arr i v = Some arr' ->
  exists j, np_index (length arr) i = Some j /\ arr' = <[j := v]> arr.
Proof.
  unfold np_setitem. intros Hs.
  destruct (np_index (length arr) i) as [j|] eqn:Hj; simplify_eq/=. eauto.
Qed.

Lemma np_empty_length (u : nat -> Q) (n : Z) (arr : list Q) :
  np_empty u n = Some arr -> 0 <= n /\ length arr = Z.to_nat n.
Proof.
  unfold np_empty. case_decide; intros; simplify_eq.
  rewrite length_map, length_seq. split; [lia | done].
Qed.

Lemma py_range_from_1 (n : nat) :
  py_range 1 (Z.of_nat n + 1) = (fun k => Z.of_nat (S k)) <$> seq 0 n.
Proof.
  unfold py_range. replace (Z.to_nat (Z.of_nat n + 1 - 1)) with n by lia.
  apply map_ext. intros k. lia.
Qed.

Lemma py_range_snoc (n : nat) :
  py_range 1 (Z.of_nat (S n) + 1) = py_range 1 (Z.of_nat n + 1) ++ [Z.of_nat (S n)].
Proof.
  rewrite !py_range_from_1. rewrite seq_S. simpl.
  by rewrite fmap_app.
Qed.

Lemma py_range_length (lo hi : Z) : length (py_range lo hi) = Z.to_nat (hi - lo).
Proof. unfold py_range. by rewrite length_map, length_seq. Qed.

Lemma for_each_app {S A} (body : S -> A -> option S) (l1 l2 : list A) (s : S) :
  for_each body (l1 ++ l2) s = for_each body l1 s ≫= for_each body l2.
Proof.
  revert s. induction l1 as [|a l1 IH]; intros s; simpl; [done|].
  destruct (body s a) as [s'|]; simpl; [apply IH | done].
Qed.

Lemma for_each_snoc {S A} (body : S -> A -> option S) (l : list A) (a : A) (s s' : S) :
  for_each body (l ++ [a]) s = Some s' ->
  exists sm, for_each body l s = Some sm /\ body sm a = Some s'.
Proof.
  rewrite for_each_app. intros Hs.
  destruct (for_each body l s) as [sm|]; simplify_eq/=.
  exists sm. split; [done|].
  destruct (body sm a); simplify_eq/=; done.
Qed.

(** ** Clients of the vector field *)

Section ScriptFacts.
Context `{Torch}.

Lemma ODEfunc_forward_inv (f : ODEfunc) (t : Q) (x out : Tensor Q) (f' : ODEfunc) :
  ODEfunc_forward f t x = Some (out, f') ->
  f' = mkODEfunc (fc1 f) (fc2 f) (fc3 f) (nfe f + 1)
  /\ ncols x = in_features (fc1 f)
  /\ ncols out = out_features (fc3 f).
Proof.
  unfold ODEfunc_forward, Linear_forward. intros Hf.
  repeat case_decide; simplify_option_eq; try done.
Qed.

Lemma run_script_counts {A} (s : Script A) (f : ODEfunc) (a : A) (f' : ODEfunc) :
  run_script s f = Some (a, f') ->
  f' = mkODEfunc (fc1 f) (fc2 f) (fc3 f) (nfe f + Z.of_nat (calls s f)).
Proof.
  revert f. induction s as [b| |t x k IH]; intros f; simpl.
  - intros [= <- <-]. destruct f; simpl. f_equal. lia.
  - done.
  - destruct (ODEfunc_forward f t x) as [[out f1]|] eqn:Hf; [|done].
    intros Hr. apply IH in Hr. apply ODEfunc_forward_inv in Hf as (-> & _ & _).
    simpl in Hr. rewrite Hr. f_equal. lia.
Qed.

Lemma run_script_widths {A} (s : Script A) (f : ODEfunc) (a : A) (f' : ODEfunc) :
  run_script s f = Some (a, f') ->
  Forall (fun x => ncols x = in_features (fc1 f)) (call_args s f).
Proof.
  revert f. induction s as [b| |t x k IH]; intros f; simpl; [constructor | done |].
  destruct (ODEfunc_forward f t x) as [[out f1]|] eqn:Hf; [|done].
  intros Hr. apply IH in Hr. apply ODEfunc_forward_inv in Hf as (-> & Hx & _).
  constructor; done.
Qed.

End ScriptFacts.

(** ** One iteration of the training loop *)

Section TrainingFacts.
Context `{Torch}.

Lemma ODEBlock_forward_inv (args : Args) (b : ODEBlock) (x out : Tensor Q) (b' : ODEBlock) :
  ODEBlock_forward args b x = Some (out, b') ->
  exists traj f y,
    run_script (odeint (adjoint args) x (integration_times b)
                       (Some (tol args)) (Some (tol args))) (odefunc b) = Some (traj, f)
    /\ traj !! 1%nat = Some y
    /\ gather1 y (indices b) = Some out
    /\ b' = mkODEBlock f (integration_times b) (indices b).
Proof.
  unfold ODEBlock_forward. intros Hf.
  destruct (run_script _ _) as [[traj f]|] eqn:Hr; simplify_eq/=.
  destruct (traj !! 1%nat) as [y|] eqn:Hy; simplify_eq/=.
  destruct (gather1 y (indices b)) as [o|] eqn:Hg; simplify_eq/=.
  by exists traj, f, y.
Qed.

Lemma gradient_step_inv (args : Args) (z0 zN : Tensor Q) (m : ODEBlock)
      (opt : OptState) (gr : option Params)
      (pred : Tensor Q) (l : Q) (m' : ODEBlock) (o : OptState) (g : Params) :
  gradient_step args z0 zN m opt gr = Some (pred, l, m', o, g) ->
  exists b g0 f,
    ODEBlock_forward args m z0 = Some (pred, b)
    /\ MSELoss pred zN = Some l
    /\ run_script (backward (adjoint args) (parameters (odefunc b)) z0
                            (integration_times b) (tol args) (indices b) zN)
                  (odefunc b) = Some (g0, f)
    /\ g = accumulate gr g0
    /\ o = (Adam_step opt (parameters f) (Some g)).2
    /\ m' = mkODEBlock (load_parameters f (Adam_step opt (parameters f) (Some g)).1)
                       (integration_times b) (indices b).
Proof.
  unfold gradient_step. intros Hg.
  destruct (ODEBlock_forward args m z0) as [[pred0 b]|] eqn:Hf; simplify_eq/=.
  destruct (MSELoss pred0 zN) as [l0|] eqn:Hl; simplify_eq/=.
  destruct (run_script _ _) as [[g0 f]|] eqn:Hb; simplify_eq/=.
  destruct (Adam_step _ _ _) as [p o0] eqn:Ha; simplify_eq/=.
  exists b, g0, f. rewrite Ha. done.
Qed.

(** What one pass through the loop body leaves in each variable. *)
Lemma train_iteration_inv (args : Args) (z0 zN : Tensor Q) (s s' : TrainState) (i : Z) :
  train_iteration args z0 zN s i = Some s' ->
  exists pred l m o g ji jl jn jt,
    gradient_step args z0 zN (ODEBlock_set_nfe (model s) 0) (optimizer s) None
      = Some (pred, l, m, o, g)
    /\ np_index (length (itr_arr s)) (slot i) = Some ji
    /\ np_index (length (loss_arr s)) (slot i) = Some jl
    /\ np_index (length (nfe_arr s)) (slot i) = Some jn
    /\ np_index (length (time_arr s)) (slot i) = Some jt
    /\ s' = mkTrainState m o (Some g)
              (mkClock (readings (clock s)) (S (S (ticks (clock s)))))
              (Some pred) (Some l) (Some i)
              (<[ji := inject_Z i]> (itr_arr s))
              (<[jl := l]> (loss_arr s))
              (<[jn := inject_Z (ODEBlock_nfe m)]> (nfe_arr s))
              (<[jt := (readings (clock s) (S (ticks (clock s)))
                        - readings (clock s) (ticks (clock s)))%Q]> (time_arr s))
              (stdout s ++ [PIter i l]).
Proof.
  unfold train_iteration, begin_iteration, time_time. simpl. intros Ht.
  destruct (gradient_step _ _ _ _ _ _) as [[[[[pred l] m] o] g]|] eqn:Hg; simplify_eq/=.
  destruct (np_setitem (itr_arr s) _ _) as [ia|] eqn:Hi; simplify_eq/=.
  destruct (np_setitem (loss_arr s) _ _) as [la|] eqn:Hl; simplify_eq/=.
  destruct (np_setitem (nfe_arr s) _ _) as [na|] eqn:Hn; simplify_eq/=.
  destruct (np_setitem (time_arr s) _ _) as [ta|] eqn:Hta; simplify_eq/=.
  apply np_setitem_inv in Hi as (ji & Hji & ->).
  apply np_setitem_inv in Hl as (jl & Hjl & ->).
  apply np_setitem_inv in Hn as (jn & Hjn & ->).
  apply np_setitem_inv in Hta as (jt & Hjt & ->).
  exists pred, l, m, o, g, ji, jl, jn, jt. done.
Qed.

End TrainingFacts.

(** ** The training loop *)

Section LoopFacts.
Context `{Torch}.
Variables (args : Args) (z0 zN : Tensor Q).

Lemma training_loop_state_after (s : TrainState) :
  training_loop args z0 zN s = state_after args z0 zN s (Z.to_nat (niters args)).
Proof.
  unfold training_loop, state_after, py_range.
  by replace (Z.to_nat (Z.of_nat (Z.to_nat (niters args)) + 1 - 1))
    with (Z.to_nat (niters args + 1 - 1)) by lia.
Qed.

Lemma state_after_0 (s : TrainState) : state_after args z0 zN s 0 = Some s.
Proof. done. Qed.

Lemma state_after_S (s : TrainState) (k : nat) :
  state_after args z0 zN s (S k)
  = state_after args z0 zN s k ≫= fun sk => train_iteration args z0 zN sk (Z.of_nat (S k)).
Proof.
  unfold state_after. rewrite py_range_snoc, for_each_app.
  destruct (for_each _ _ s) as [sk|]; simpl; [|done].
  by destruct (train_iteration args z0 zN sk _).
Qed.

Lemma state_after_S_inv (s s' : TrainState) (k : nat) :
  state_after args z0 zN s (S k) = Some s' ->
  exists sk, state_after args z0 zN s k = Some sk
             /\ train_iteration args z0 zN sk (Z.of_nat (S k)) = Some s'.
Proof.
  rewrite state_after_S. intros Hs.
  destruct (state_after args z0 zN s k) as [sk|]; simplify_eq/=. eauto.
Qed.

(** A run of [n] iterations has passed through a state after each [k <= n]. *)
Lemma state_after_prefix (s s' : TrainState) (n k : nat) :
  state_after args z0 zN s n = Some s' -> (k <= n)%nat ->
  exists sk, state_after args z0 zN s k = Some sk.
Proof.
  revert s'. induction n as [|n IH]; intros s' Hs Hk.
  - replace k with 0%nat by lia. eauto.
  - destruct (decide (k = S n)) as [->|]; [eauto|].
    apply state_after_S_inv in Hs as (sk & Hsk & _).
    eapply IH; [done | lia].
Qed.

(** The slot that iteration [k+1] writes is [k], and it must exist. *)
Lemma slot_resolves (n k j : nat) :
  np_index n (slot (Z.of_nat (S k))) = Some j -> j = k /\ (k < n)%nat.
Proof.
  unfold slot. intros Hj. apply np_index_of_nonneg in Hj; lia.
Qed.

(** Lengths, clock and the written prefix after [k] iterations. *)
Lemma state_after_shape (s s' : TrainState) (k : nat) :
  state_after args z0 zN s k = Some s' ->
  length (itr_arr s') = length (itr_arr s)
  /\ length (loss_arr s') = length (loss_arr s)
  /\ length (nfe_arr s') = length (nfe_arr s)
  /\ length (time_arr s') = length (time_arr s)
  /\ (0 < k -> k <= length (itr_arr s) /\ k <= length (loss_arr s)
               /\ k <= length (nfe_arr s) /\ k <= length (time_arr s))%nat
  /\ clock s' = mkClock (readings (clock s)) (ticks (clock s) + 2 * k)
  /\ take k (itr_arr s') = (fun i => inject_Z (Z.of_nat (S i))) <$> seq 0 k
  /\ take k (time_arr s')
     = (fun i => (readings (clock s) (ticks (clock s) + 2 * i + 1)
                  - readings (clock s) (ticks (clock s) + 2 * i))%Q) <$> seq 0 k
  /\ length (stdout s') = (length (stdout s) + k)%nat
  /\ (0 < k -> itr s' = Some (Z.of_nat k))%nat.
Proof.
  revert s'. induction k as [|k IH]; intros s' Hs.
  - rewrite state_after_0 in Hs. simplify_eq.
    repeat split; try done; try lia.
    destruct (clock s'); simpl. f_equal. lia.
  - apply state_after_S_inv in Hs as (sk & Hsk & Hit).
    destruct (IH _ Hsk) as (Li & Ll & Ln & Lt & Hle & Hc & Hti & Htt & Hso & _).
    apply train_iteration_inv in Hit
      as (pred & l & m & o & g & ji & jl & jn & jt & _ & Hji & Hjl & Hjn & Hjt & ->).
    apply slot_resolves in Hji as [-> Hki], Hjl as [-> Hkl],
                           Hjn as [-> Hkn], Hjt as [-> Hkt].
    cbn [itr_arr loss_arr nfe_arr time_arr clock stdout itr].
    rewrite !length_insert, length_app, seq_S, !fmap_app, Hc.
    cbn [readings ticks length fmap list_fmap].
    split_and!; try done; try lia.
    + f_equal. lia.
    + erewrite take_S_r; [|by apply list_lookup_insert_eq].
      rewrite take_insert_ge by lia. by rewrite Hti.
    + erewrite take_S_r; [|by apply list_lookup_insert_eq].
      rewrite take_insert_ge by lia. rewrite Htt.
      do 4 f_equal; lia.
Qed.

(** Later iterations leave the slots of earlier ones alone. *)
Lemma state_after_frame (s sk s' : TrainState) (k n : nat) :
  state_after args z0 zN s k = Some sk ->
  state_after args z0 zN s n = Some s' ->
  (k <= n)%nat ->
  take k (itr_arr s') = take k (itr_arr sk)
  /\ take k (loss_arr s') = take k (loss_arr sk)
  /\ take k (nfe_arr s') = take k (nfe_arr sk)
  /\ take k (time_arr s') = take k (time_arr sk).
Proof.
  intros Hsk. revert s'. induction n as [|n IH]; intros s' Hs Hk.
  - assert (k = 0)%nat as -> by lia. done.
  - destruct (decide (k = S n)) as [->|Hne].
    { rewrite Hsk in Hs. by simplify_eq. }
    apply state_after_S_inv in Hs as (sn & Hsn & Hit).
    destruct (IH _ Hsn) as (Hi & Hl & Hn & Ht); [lia|].
    apply train_iteration_inv in Hit
      as (pred & l & m & o & g & ji & jl & jn & jt & _ & Hji & Hjl & Hjn & Hjt & ->).
    apply slot_resolves in Hji as [-> _], Hjl as [-> _], Hjn as [-> _], Hjt as [-> _].
    simpl. rewrite !take_insert_ge by lia. done.
Qed.

End LoopFacts.

(** ** The shared results array *)

Lemma results_setitem_resolve (r : Results) (a s d e : Z) (v : Q) (r' : Results) :
  results_setitem r a s d e v = Some r' ->
  exists p, resolve_cell r a s d e = Some p
            /\ cell_at r' p = Some v
            /\ (forall q, q <> p -> cell_at r' q = cell_at r q)
            /\ (forall a' s' d' e', resolve_cell r' a' s' d' e' = resolve_cell r a' s' d' e').
Proof.
  unfold results_setitem, resolve_cell. intros Hs.
  destruct (np_index (length r) a) as [i|] eqn:Hi; simplify_eq/=.
  destruct (r !! i) as [r1|] eqn:H1; simplify_eq/=.
  destruct (np_index (length r1) s) as [j|] eqn:Hj; simplify_eq/=.
  destruct (r1 !! j) as [r2|] eqn:H2; simplify_eq/=.
  destruct (np_index (length r2) d) as [k|] eqn:Hk; simplify_eq/=.
  destruct (r2 !! k) as [r3|] eqn:H3; simplify_eq/=.
  destruct (np_index (length r3) e) as [l|] eqn:Hl; simplify_eq/=.
  apply np_index_lt in Hi as Hi', Hj as Hj', Hk as Hk', Hl as Hl'.
  exists (i, j, k, l). split_and!; [done | | |].
  - unfold cell_at, cell. simpl.
    rewrite list_lookup_insert_eq by done. simpl.
    rewrite list_lookup_insert_eq by done. simpl.
    rewrite list_lookup_insert_eq by done. simpl.
    by rewrite list_lookup_insert_eq.
  - intros [[[i' j'] k'] l'] Hne. unfold cell_at, cell. simpl.
    destruct (decide (i' = i)) as [->|]; [|by rewrite list_lookup_insert_ne].
    rewrite list_lookup_insert_eq, H1 by done. simpl.
    destruct (decide (j' = j)) as [->|]; [|by rewrite list_lookup_insert_ne].
    rewrite list_lookup_insert_eq, H2 by done. simpl.
    destruct (decide (k' = k)) as [->|]; [|by rewrite list_lookup_insert_ne].
    rewrite list_lookup_insert_eq, H3 by done. simpl.
    destruct (decide (l' = l)) as [->|]; [done | by rewrite list_lookup_insert_ne].
  - intros a' s' d' e'. rewrite length_insert.
    destruct (np_index (length r) a') as [i'|]; simpl; [|done].
    destruct (decide (i' = i)) as [->|]; [|by rewrite list_lookup_insert_ne].
    rewrite list_lookup_insert_eq, H1 by done. simpl. rewrite length_insert.
    destruct (np_index (length r1) s') as [j'|]; simpl; [|done].
    destruct (decide (j' = j)) as [->|]; [|by rewrite list_lookup_insert_ne].
    rewrite list_lookup_insert_eq, H2 by done. simpl. rewrite length_insert.
    destruct (np_index (length r2) d') as [k'|]; simpl; [|done].
    destruct (decide (k' = k)) as [->|]; [|by rewrite list_lookup_insert_ne].
    rewrite list_lookup_insert_eq, H3 by done. simpl. by rewrite length_insert.
Qed.

(** The first two positions of a resolved cell come from the first two
    indices alone. *)
Lemma resolve_cell_fst (r : Results) (a s d e : Z) (p : nat * nat * nat * nat) :
  resolve_cell r a s d e = Some p ->
  np_index (length r) a = Some p.1.1.1
  /\ exists r1, r !! p.1.1.1 = Some r1 /\ np_index (length r1) s = Some p.1.1.2.
Proof.
  unfold resolve_cell. intros Hp.
  destruct (np_index (length r) a) as [i|] eqn:Hi; simplify_eq/=.
  destruct (r !! i) as [r1|] eqn:H1; simplify_eq/=.
  destruct (np_index (length r1) s) as [j|] eqn:Hj; simplify_eq/=.
  destruct (r1 !! j) as [r2|] eqn:H2; simplify_eq/=.
  destruct (np_index (length r2) d) as [k|] eqn:Hk; simplify_eq/=.
  destruct (r2 !! k) as [r3|] eqn:H3; simplify_eq/=.
  destruct (np_index (length r3) e) as [l|] eqn:Hl; simplify_eq/=.
  eauto.
Qed.

(** ** The script as a whole *)

Section RunFacts.
Context `{Torch}.

Lemma train_inv (args : Args) (env : Env) (s : TrainState) (zN : Tensor Q) (g : NpRandom) :
  train args env = Some (s, zN, g) ->
  exists z0 ids s0,
    train_data args (mkNpRandom (env_np env) 0) = Some (z0, zN, ids, g)
    /\ initial_state args env ids = Some s0
    /\ training_loop args z0 zN s0 = Some s.
Proof.
  unfold train. intros Ht.
  destruct (train_data args _) as [[[[z0 zN0] ids] g0]|] eqn:Hd; simplify_eq/=.
  destruct (same_device _ _) as [[]|]; simplify_eq/=.
  destruct (initial_state args env ids) as [s0|] eqn:Hi; simplify_eq/=.
  destruct (training_loop args z0 zN0 s0) as [s1|] eqn:Hl; simplify_eq/=.
  by exists z0, ids, s0.
Qed.

Lemma initial_state_inv (args : Args) (env : Env) (ids : Tensor nat) (s0 : TrainState) :
  initial_state args env ids = Some s0 ->
  0 <= niters args
  /\ model s0 = ODEBlock_init
       (ODEfunc_init (env_torch env)
                     (Z.to_nat (data_dimension args + extra_dim args)) 20) 0 1 ids
  /\ optimizer s0 = Adam (parameters (odefunc (model s0))) (lr args)
  /\ clock s0 = mkClock (env_clock env) 1
  /\ itr s0 = None
  /\ stdout s0 = []
  /\ length (itr_arr s0) = Z.to_nat (niters args)
  /\ length (loss_arr s0) = Z.to_nat (niters args)
  /\ length (nfe_arr s0) = Z.to_nat (niters args)
  /\ length (time_arr s0) = Z.to_nat (niters args).
Proof.
  unfold initial_state, optim_Adam, time_time. intros Hs.
  destruct (Qle_bool 0 (lr args)); simplify_eq/=.
  destruct (np_empty (env_uninit env 0) _) as [ia|] eqn:Hia; simplify_eq/=.
  destruct (np_empty (env_uninit env 1) _) as [la|] eqn:Hla; simplify_eq/=.
  destruct (np_empty (env_uninit env 2) _) as [na|] eqn:Hna; simplify_eq/=.
  destruct (np_empty (env_uninit env 3) _) as [ta|] eqn:Hta; simplify_eq/=.
  apply np_empty_length in Hia as [? ?], Hla as [_ ?], Hna as [_ ?], Hta as [_ ?].
  done.
Qed.

(** Every step of a completed run, in the order of the script. *)
Lemma run_inv (args : Args) (env : Env) (o : Outcome) :
  run args env = Some o ->
  exists s zN g r0 last pred l r1 z0' zN' ids' g' pred' m' l' r2,
    train args env = Some (s, zN, g)
    /\ env_results env = Some r0
    /\ itr s = Some last
    /\ pred_z s = Some pred
    /\ MSELoss pred zN = Some l
    /\ results_setitem r0 (first_index args) 0
         (data_dimension args - 1) (experiment_no args - 1) l = Some r1
    /\ test_data args g = Some (z0', zN', ids', g')
    /\ test_prediction args (model s) z0' ids' = Some (pred', m')
    /\ MSELoss pred' zN' = Some l'
    /\ results_setitem r1 (first_index args) 1
         (data_dimension args - 1) (experiment_no args - 1) l' = Some r2
    /\ out_dir o = "./" +:+ filename args
    /\ out_files o =
         [(filename args +:+ "itr_arr.npy", NpyArray (itr_arr s));
          (filename args +:+ "nfe_arr.npy", NpyArray (nfe_arr s));
          (filename args +:+ "loss_arr.npy", NpyArray (loss_arr s));
          (filename args +:+ "time_arr.npy", NpyArray (time_arr s));
          (filename args +:+ "model.pth", TorchModel (model s));
          ("results.npy", NpyResults r2)]
    /\ out_stdout o =
         stdout s ++
         [PBlank;
          PTrainingComplete last;
          PTime (readings (clock s) (ticks (clock s)) - readings (clock s) 0)%Q;
          PTrainMSE l;
          PNFE (ODEBlock_nfe (model s));
          PParameters (count_parameters (model s));
          PTestMSE l'].
Proof.
  unfold run, time_time. intros Hr.
  destruct (train args env) as [[[s zN] g]|] eqn:Ht; simplify_eq/=.
  destruct (env_results env) as [r0|] eqn:Hr0; simplify_eq/=.
  destruct (itr s) as [last|] eqn:Hl; simplify_eq/=.
  destruct (pred_z s) as [pred|] eqn:Hp; simplify_eq/=.
  destruct (MSELoss pred zN) as [l|] eqn:Hm; simplify_eq/=.
  destruct (same_device _ _) as [[]|]; simplify_eq/=.
  destruct (results_setitem r0 _ _ _ _ _) as [r1|] eqn:H1; simplify_eq/=.
  destruct (test_data args g) as [[[[z0' zN'] ids'] g']|] eqn:Hd; simplify_eq/=.
  destruct (test_prediction args (model s) z0' ids') as [[pred' m']|] eqn:Htp; simplify_eq/=.
  destruct (MSELoss pred' zN') as [l'|] eqn:Hm'; simplify_eq/=.
  destruct (results_setitem r1 _ _ _ _ _) as [r2|] eqn:H2; simplify_eq/=.
  exists s, zN, g, r0, last, pred, l, r1, z0', zN', ids', g', pred', m', l', r2.
  done.
Qed.

End RunFacts.

(** ** The call counter *)

Section CounterFacts.
Context `{Torch}.

Lemma training_loop_step (args : Args) (z0 zN : Tensor Q) (s0 sN : TrainState) (k : nat) :
  training_loop args z0 zN s0 = Some sN ->
  (k < Z.to_nat (niters args))%nat ->
  exists sk sk',
    state_after args z0 zN s0 k = Some sk
    /\ train_iteration args z0 zN sk (Z.of_nat (S k)) = Some sk'
    /\ state_after args z0 zN s0 (S k) = Some sk'.
Proof.
  rewrite training_loop_state_after. intros HN Hk.
  destruct (state_after_prefix args z0 zN s0 sN _ (S k) HN) as [sk' Hsk']; [lia|].
  destruct (state_after_S_inv _ _ _ _ _ _ Hsk') as (sk & Hsk & Hit).
  by exists sk, sk'.
Qed.

(** C7. Each invocation of [ODEfunc.forward] adds one to the counter, the
    [nfe] property of the wrapper reads and writes the counter of the vector
    field it wraps, and in every iteration of the training loop the forward
    pass starts from a counter that has just been reset to zero. *)
Theorem nfe_counter
    (args : Args) (z0 zN : Tensor Q) (s0 sN : TrainState) (k : nat)
    (f f' : ODEfunc) (t : Q) (x out : Tensor Q) (b : ODEBlock) (value : Z) :
  ODEfunc_forward f t x = Some (out, f') ->
  training_loop args z0 zN s0 = Some sN ->
  (k < Z.to_nat (niters args))%nat ->
  nfe f' = nfe f + 1
  /\ ODEBlock_nfe b = nfe (odefunc b)
  /\ nfe (odefunc (ODEBlock_set_nfe b value)) = value
  /\ parameters (odefunc (ODEBlock_set_nfe b value)) = parameters (odefunc b)
  /\ exists sk sk' pred b',
       state_after args z0 zN s0 k = Some sk
       /\ train_iteration args z0 zN sk (Z.of_nat (S k)) = Some sk'
       /\ ODEBlock_nfe (model (begin_iteration sk).1) = 0
       /\ ODEBlock_forward args (model (begin_iteration sk).1) z0 = Some (pred, b')
       /\ pred_z sk' = Some pred.
Proof.
  intros Hf HN Hk.
  apply ODEfunc_forward_inv in Hf as (-> & _ & _).
  split_and!; try done.
  destruct (training_loop_step _ _ _ _ _ _ HN Hk) as (sk & sk' & Hsk & Hit & _).
  exists sk, sk'.
  destruct (train_iteration_inv _ _ _ _ _ _ Hit)
    as (pred & l & m & o & g & ji & jl & jn & jt & Hg & _ & _ & _ & _ & ->).
  apply gradient_step_inv in Hg as (b' & g0 & f0 & Hfw & _).
  exists pred, b'. split_and!; done.
Qed.

(** C10. The call count recorded for iteration [k+1] is the counter of the
    model as the optimiser step leaves it, and that is the number of calls
    made by the forward pass plus the number made by the backward pass. *)
Theorem nfe_arr_counts_forward_and_backward
    (args : Args) (z0 zN : Tensor Q) (s0 sN : TrainState) (k : nat) :
  training_loop args z0 zN s0 = Some sN ->
  (k < Z.to_nat (niters args))%nat ->
  exists sk sk' pred b,
    state_after args z0 zN s0 k = Some sk
    /\ state_after args z0 zN s0 (S k) = Some sk'
    /\ ODEBlock_forward args (model (begin_iteration sk).1) z0 = Some (pred, b)
    /\ nfe_arr sN !! k = Some (inject_Z (ODEBlock_nfe (model sk')))
    /\ ODEBlock_nfe (model sk')
       = Z.of_nat (forward_calls args z0 (model (begin_iteration sk).1)
                   + backward_calls args z0 zN b).
Proof.
  intros HN Hk.
  destruct (training_loop_step _ _ _ _ _ _ HN Hk) as (sk & sk' & Hsk & Hit & Hsk').
  rewrite training_loop_state_after in HN.
  destruct (state_after_frame args z0 zN s0 sk' sN (S k) _ Hsk' HN) as (_ & _ & Hn & _); [lia|].
  destruct (state_after_shape _ _ _ _ _ _ Hsk) as (_ & _ & Lk & _).
  destruct (train_iteration_inv _ _ _ _ _ _ Hit)
    as (pred & l & m & o & g & ji & jl & jn & jt & Hg & _ & _ & Hjn & _ & ->).
  apply slot_resolves in Hjn as [-> Hlt].
  apply gradient_step_inv in Hg as (b & g0 & f & Hfw & _ & Hbw & _ & _ & ->).
  eexists sk, _, pred, b. split_and!; [done | done | done | |].
  - rewrite <- (lookup_take_lt (nfe_arr sN) (S k) k) by lia.
    rewrite Hn. cbn [nfe_arr model].
    rewrite lookup_take_lt by lia.
    by apply list_lookup_insert_eq.
  - cbn [model]. unfold ODEBlock_nfe, forward_calls, backward_calls.
    cbn [odefunc load_parameters nfe].
    apply ODEBlock_forward_inv in Hfw as (traj & f1 & y & Hrun & _ & _ & ->).
    apply run_script_counts in Hrun, Hbw. cbn [odefunc] in Hbw.
    rewrite Hbw, Hrun. cbn [nfe begin_iteration time_time fst model ODEBlock_set_nfe odefunc
                            fc1 fc2 fc3 integration_times indices parameters].
    destruct (time_time (clock sk)). cbn. lia.
Qed.

End CounterFacts.

(** The counter protocol on the concrete run: its second iteration. *)
Lemma nfe_counter_witness :
  exists out f' sN sk sk' pred b',
    ODEfunc_forward (odefunc (toy_model toy_args)) 0 (toy_z0 toy_args) = Some (out, f')
    /\ training_loop toy_args (toy_z0 toy_args) (toy_zN toy_args) (toy_state toy_args)
       = Some sN
    /\ (1 < Z.to_nat (niters toy_args))%nat
    /\ nfe f' = nfe (odefunc (toy_model toy_args)) + 1
    /\ state_after toy_args (toy_z0 toy_args) (toy_zN toy_args) (toy_state toy_args) 1
       = Some sk
    /\ train_iteration toy_args (toy_z0 toy_args) (toy_zN toy_args) sk (Z.of_nat 2)
       = Some sk'
    /\ ODEBlock_nfe (model (begin_iteration sk).1) = 0
    /\ ODEBlock_forward toy_args (model (begin_iteration sk).1) (toy_z0 toy_args)
       = Some (pred, b')
    /\ pred_z sk' = Some pred.
Proof.
  assert (exists r, ODEfunc_forward (odefunc (toy_model toy_args)) 0 (toy_z0 toy_args)
                    = Some r) as ([out f'] & Hf)
    by by_running (ODEfunc_forward (odefunc (toy_model toy_args)) 0 (toy_z0 toy_args)).
  assert (exists sN, training_loop toy_args (toy_z0 toy_args) (toy_zN toy_args)
                                   (toy_state toy_args) = Some sN) as (sN & HN)
    by by_running (training_loop toy_args (toy_z0 toy_args) (toy_zN toy_args)
                                 (toy_state toy_args)).
  assert (1 < Z.to_nat (niters toy_args))%nat as Hk by (vm_compute; lia).
  destruct (nfe_counter toy_args _ _ _ _ 1%nat _ _ _ _ _ (toy_model toy_args) 0 Hf HN Hk)
    as (Hn & _ & _ & _ & sk & sk' & pred & b' & Hsk & Hit & H0 & Hfw & Hp).
  exists out, f', sN, sk, sk', pred, b'.
  exact (conj Hf (conj HN (conj Hk (conj Hn (conj Hsk (conj Hit (conj H0 (conj Hfw Hp)))))))).
Defined.

(** The recorded count on the concrete run with the adjoint method, second
    iteration. *)
Lemma nfe_arr_counts_forward_and_backward_witness :
  exists sN sk sk' pred b,
    training_loop toy_args_adjoint (toy_z0 toy_args_adjoint) (toy_zN toy_args_adjoint)
                  (toy_state toy_args_adjoint) = Some sN
    /\ (1 < Z.to_nat (niters toy_args_adjoint))%nat
    /\ state_after toy_args_adjoint (toy_z0 toy_args_adjoint) (toy_zN toy_args_adjoint)
                   (toy_state toy_args_adjoint) 1 = Some sk
    /\ state_after toy_args_adjoint (toy_z0 toy_args_adjoint) (toy_zN toy_args_adjoint)
                   (toy_state toy_args_adjoint) 2 = Some sk'
    /\ ODEBlock_forward toy_args_adjoint (model (begin_iteration sk).1)
                        (toy_z0 toy_args_adjoint) = Some (pred, b)
    /\ nfe_arr sN !! 1%nat = Some (inject_Z (ODEBlock_nfe (model sk')))
    /\ ODEBlock_nfe (model sk')
       = Z.of_nat (forward_calls toy_args_adjoint (toy_z0 toy_args_adjoint)
                                 (model (begin_iteration sk).1)
                   + backward_calls toy_args_adjoint (toy_z0 toy_args_adjoint)
                                    (toy_zN toy_args_adjoint) b).
Proof.
  assert (exists sN, training_loop toy_args_adjoint (toy_z0 toy_args_adjoint)
                       (toy_zN toy_args_adjoint) (toy_state toy_args_adjoint) = Some sN)
    as (sN & HN)
    by by_running (training_loop toy_args_adjoint (toy_z0 toy_args_adjoint)
                     (toy_zN toy_args_adjoint) (toy_state toy_args_adjoint)).
  assert (1 < Z.to_nat (niters toy_args_adjoint))%nat as Hk by (vm_compute; lia).
  destruct (nfe_arr_counts_forward_and_backward _ _ _ _ _ 1%nat HN Hk)
    as (sk & sk' & pred & b & Hsk & Hsk' & Hfw & Hn & Hc).
  exists sN, sk, sk', pred, b.
  exact (conj HN (conj Hk (conj Hsk (conj Hsk' (conj Hfw (conj Hn Hc)))))).
Defined.

(** On the concrete run the forward pass makes one call per iteration; with
    the adjoint method the backward pass makes one more, and the recorded
    counts include it. *)
Example nfe_arr_without_adjoint :
  nfe_arr <$> training_loop toy_args (toy_z0 toy_args) (toy_zN toy_args) (toy_state toy_args)
  = Some [1%Q; 1%Q; 1%Q].
Proof. vm_compute. reflexivity. Qed.

Example nfe_arr_with_adjoint :
  nfe_arr <$> training_loop toy_args_adjoint (toy_z0 toy_args_adjoint)
                            (toy_zN toy_args_adjoint) (toy_state toy_args_adjoint)
  = Some [2%Q; 2%Q; 2%Q].
Proof. vm_compute. reflexivity. Qed.

(** ** What the recorded sequences depend on *)

Section Determinism.
Context `{Torch}.
Variables (args : Args) (z0 zN : Tensor Q).

(** The model, the optimiser and the first three sequences after [k]
    iterations are a function of the model and the optimiser at the start:
    neither the clock nor the old content of the arrays enters. *)
Lemma state_after_deterministic (s1 s2 s1' s2' : TrainState) (k : nat) :
  model s1 = model s2 -> optimizer s1 = optimizer s2 ->
  state_after args z0 zN s1 k = Some s1' ->
  state_after args z0 zN s2 k = Some s2' ->
  model s1' = model s2'
  /\ optimizer s1' = optimizer s2'
  /\ take k (itr_arr s1') = take k (itr_arr s2')
  /\ take k (loss_arr s1') = take k (loss_arr s2')
  /\ take k (nfe_arr s1') = take k (nfe_arr s2').
Proof.
  intros Hm Ho. revert s1' s2'. induction k as [|k IH]; intros s1' s2' H1 H2.
  - rewrite state_after_0 in H1, H2. simplify_eq. by rewrite !take_0.
  - apply state_after_S_inv in H1 as (t1 & Ht1 & Hi1), H2 as (t2 & Ht2 & Hi2).
    destruct (IH _ _ Ht1 Ht2) as (Em & Eo & Ei & El & En).
    apply train_iteration_inv in Hi1
      as (pred1 & l1 & m1 & o1 & g1 & ji1 & jl1 & jn1 & jt1
          & Hg1 & Hji1 & Hjl1 & Hjn1 & _ & ->).
    apply train_iteration_inv in Hi2
      as (pred2 & l2 & m2 & o2 & g2 & ji2 & jl2 & jn2 & jt2
          & Hg2 & Hji2 & Hjl2 & Hjn2 & _ & ->).
    rewrite Em, Eo in Hg1. rewrite Hg1 in Hg2. simplify_eq.
    apply slot_resolves in Hji1 as [-> ?], Hjl1 as [-> ?], Hjn1 as [-> ?].
    apply slot_resolves in Hji2 as [-> ?], Hjl2 as [-> ?], Hjn2 as [-> ?].
    cbn [model optimizer itr_arr loss_arr nfe_arr].
    split_and!; [done | done | | |].
    all: erewrite !take_S_r by (by apply list_lookup_insert_eq).
    all: rewrite !take_insert_ge by lia; congruence.
Qed.

(** The last pass through the loop body of a training of at least one
    iteration. *)
Lemma last_iteration (s0 s : TrainState) :
  training_loop args z0 zN s0 = Some s ->
  0 < niters args ->
  exists sp pred b l,
    state_after args z0 zN s0 (Z.to_nat (niters args) - 1) = Some sp
    /\ ODEBlock_forward args (model (begin_iteration sp).1) z0 = Some (pred, b)
    /\ MSELoss pred zN = Some l
    /\ pred_z s = Some pred
    /\ loss s = Some l
    /\ loss_arr s !! (Z.to_nat (niters args) - 1)%nat = Some l.
Proof.
  rewrite training_loop_state_after. intros Hs Hn.
  destruct (Z.to_nat (niters args)) as [|n] eqn:En; [lia|].
  replace (S n - 1)%nat with n by lia.
  apply state_after_S_inv in Hs as (sp & Hsp & Hit).
  apply train_iteration_inv in Hit
    as (pred & l & m & o & g & ji & jl & jn & jt & Hg & _ & Hjl & _ & _ & ->).
  apply slot_resolves in Hjl as [-> Hlt].
  apply gradient_step_inv in Hg as (b & g0 & f & Hfw & Hl & _).
  exists sp, pred, b, l. cbn [pred_z loss loss_arr].
  split_and!; try done. by apply list_lookup_insert_eq.
Qed.

End Determinism.

(** Among the iterations [a+1 .. a+m] exactly one writes slot [j] if
    [a <= j < a+m], and none otherwise. *)
Lemma slot_written_once (a m j : nat) :
  length (filter (fun i => slot i = Z.of_nat j) ((fun k => Z.of_nat (S k)) <$> seq a m))
  = if decide (a <= j < a + m)%nat then 1%nat else 0%nat.
Proof.
  revert a. induction m as [|m IH]; intros a; simpl.
  - case_decide; [lia | done].
  - rewrite filter_cons. unfold slot at 1.
    case_decide as Hs; simpl; rewrite IH; repeat case_decide; lia.
Qed.

(** The files of a completed run, by path. *)
Lemma lookup_saved (dir : string) (a b c d : list Q) (m : ODEBlock) (r : Results)
      (o : Outcome) :
  dir = "node./" \/ dir = "anode./" ->
  out_files o =
    [(dir +:+ "itr_arr.npy", NpyArray a);
     (dir +:+ "nfe_arr.npy", NpyArray b);
     (dir +:+ "loss_arr.npy", NpyArray c);
     (dir +:+ "time_arr.npy", NpyArray d);
     (dir +:+ "model.pth", TorchModel m);
     ("results.npy", NpyResults r)] ->
  lookup_file o (dir +:+ "itr_arr.npy") = Some (NpyArray a)
  /\ lookup_file o (dir +:+ "nfe_arr.npy") = Some (NpyArray b)
  /\ lookup_file o (dir +:+ "loss_arr.npy") = Some (NpyArray c)
  /\ lookup_file o (dir +:+ "time_arr.npy") = Some (NpyArray d)
  /\ lookup_file o (dir +:+ "model.pth") = Some (TorchModel m)
  /\ lookup_file o "results.npy" = Some (NpyResults r)
  /\ file_paths o = ((fun n => dir +:+ n) <$> artifact_names) ++ ["results.npy"].
Proof.
  unfold lookup_file, file_paths. intros [-> | ->] ->; split_and!; reflexivity.
Qed.

Lemma filename_cases (args : Args) :
  filename args = "node./" \/ filename args = "anode./".
Proof. unfold filename. case_decide; auto. Qed.

(** ** Claims about the training loop and the reported losses *)

Section TrainingClaims.
Context `{Torch}.

(** C8. A training that completes has gone through the loop body for
    [itr = 1, ..., niters] and nothing else: the clock was read twice and one
    line printed per iteration, the four arrays have length [niters], the
    iteration array holds [1 .. niters] in order, each slot is the target of
    exactly one iteration, and nothing of what [np.empty] handed out is left
    in the arrays. *)
Theorem training_runs_niters_iterations
    (args : Args) (env : Env) (s : TrainState) (zN : Tensor Q) (g : NpRandom) :
  train args env = Some (s, zN, g) ->
  0 <= niters args
  /\ py_range 1 (niters args + 1)
     = (fun k => Z.of_nat (S k)) <$> seq 0 (Z.to_nat (niters args))
  /\ length (itr_arr s) = Z.to_nat (niters args)
  /\ length (loss_arr s) = Z.to_nat (niters args)
  /\ length (nfe_arr s) = Z.to_nat (niters args)
  /\ length (time_arr s) = Z.to_nat (niters args)
  /\ itr_arr s = (fun k => inject_Z (Z.of_nat (S k))) <$> seq 0 (Z.to_nat (niters args))
  /\ ticks (clock s) = (1 + 2 * Z.to_nat (niters args))%nat
  /\ length (stdout s) = Z.to_nat (niters args)
  /\ (forall j : nat, (j < Z.to_nat (niters args))%nat ->
        length (filter (fun i => slot i = Z.of_nat j) (py_range 1 (niters args + 1)))
        = 1%nat)
  /\ (forall u s' zN' g',
        train args (with_uninit env u) = Some (s', zN', g') ->
        itr_arr s' = itr_arr s /\ loss_arr s' = loss_arr s
        /\ nfe_arr s' = nfe_arr s /\ time_arr s' = time_arr s).
Proof.
  intros Ht.
  apply train_inv in Ht as (z0 & ids & s0 & Hd & Hi & Hl).
  apply initial_state_inv in Hi as Hi'.
  destruct Hi' as (Hn & Hm0 & Ho0 & Hc0 & _ & Hso0 & Li & Ll & Lf & Lt).
  assert (Z.of_nat (Z.to_nat (niters args)) = niters args) as Hnn by lia.
  rewrite training_loop_state_after in Hl.
  apply state_after_shape in Hl as Hsh.
  destruct Hsh as (Li' & Ll' & Lf' & Lt' & _ & Hc & Hti & Htt & Hso & _).
  rewrite Li in Li'. rewrite Ll in Ll'. rewrite Lf in Lf'. rewrite Lt in Lt'.
  split_and!; try done.
  - rewrite <- Hnn at 1. apply py_range_from_1.
  - rewrite <- Hti. symmetry. apply take_ge. lia.
  - rewrite Hc, Hc0. simpl. lia.
  - rewrite Hso, Hso0. done.
  - intros j Hj. rewrite <- Hnn at 1. rewrite py_range_from_1, slot_written_once.
    rewrite decide_True; [done | lia].
  - intros u s' zN' g' Ht'.
    apply train_inv in Ht' as (z0' & ids' & s0' & Hd' & Hi2 & Hl'). simpl in Hd'.
    rewrite Hd in Hd'. simplify_eq.
    apply initial_state_inv in Hi2 as (_ & Hm0' & Ho0' & Hc0' & _ & _ & Li2 & Ll2 & Lf2 & Lt2).
    simpl in Hm0', Hc0'.
    rewrite training_loop_state_after in Hl'.
    apply state_after_shape in Hl' as Hsh'.
    destruct Hsh' as (Li2' & Ll2' & Lf2' & Lt2' & _ & _ & Hti' & Htt' & _).
    assert (model s0' = model s0) as Em by congruence.
    assert (optimizer s0' = optimizer s0) as Eo by congruence.
    destruct (state_after_deterministic _ _ _ _ _ _ _ _ Em Eo Hl' Hl)
      as (_ & _ & Ei & El & En).
    rewrite !take_ge in Ei, El, En by lia.
    split_and!; try done.
    rewrite <- (take_ge (time_arr s') (Z.to_nat (niters args))) by lia.
    rewrite <- (take_ge (time_arr s) (Z.to_nat (niters args))) by lia.
    rewrite Htt, Htt', Hc0, Hc0'. done.
Qed.

(** C2. The training loss that a completed run prints and stores in the
    results array is computed from the prediction of the last iteration,
    which was made with the model as it stood before the last optimiser
    step, and it is the value in the last slot of the loss array. *)
Theorem final_train_loss_is_last_iteration_loss
    (args : Args) (env : Env) (o : Outcome) :
  run args env = Some o ->
  exists z0 zN ids g s0 s sp pred b l r p,
    train_data args (mkNpRandom (env_np env) 0) = Some (z0, zN, ids, g)
    /\ initial_state args env ids = Some s0
    /\ training_loop args z0 zN s0 = Some s
    /\ 1 <= niters args
    /\ state_after args z0 zN s0 (Z.to_nat (niters args) - 1) = Some sp
    /\ ODEBlock_forward args (model (begin_iteration sp).1) z0 = Some (pred, b)
    /\ MSELoss pred zN = Some l
    /\ loss_arr s !! (Z.to_nat (niters args) - 1)%nat = Some l
    /\ lookup_file o (filename args +:+ "loss_arr.npy") = Some (NpyArray (loss_arr s))
    /\ PTrainMSE l ∈ out_stdout o
    /\ lookup_file o "results.npy" = Some (NpyResults r)
    /\ resolve_cell r (first_index args) 0
                    (data_dimension args - 1) (experiment_no args - 1) = Some p
    /\ cell_at r p = Some l.
Proof.
  intros Hr.
  apply run_inv in Hr
    as (s & zN & g & r0 & last & pred & l & r1 & z0' & zN' & ids' & g' & pred' & m' & l' & r2
        & Ht & Hr0 & Hlast & Hp & Hm & H1 & Hd' & Htp & Hm' & H2 & Hdir & Hfiles & Hout).
  apply train_inv in Ht as (z0 & ids & s0 & Hd & Hi & Hl).
  apply initial_state_inv in Hi as Hi'.
  destruct Hi' as (Hn & _ & _ & _ & Hitr0 & _).
  assert (0 < niters args) as Hpos.
  { destruct (decide (niters args = 0)) as [E0|]; [|lia].
    rewrite training_loop_state_after, E0 in Hl. simpl in Hl.
    rewrite state_after_0 in Hl. simplify_eq; congruence. }
  destruct (last_iteration _ _ _ _ _ Hl Hpos) as (sp & pred0 & b & l0 & Hsp & Hfw & Hl0 & Hp0 & _ & Hla).
  rewrite Hp in Hp0. simplify_eq.
  destruct (lookup_saved _ _ _ _ _ _ _ _ (filename_cases args) Hfiles)
    as (_ & _ & Hfl & _ & _ & Hfr & _).
  apply results_setitem_resolve in H1 as (p0 & Hp0 & Hc0 & _ & Hsh1).
  apply results_setitem_resolve in H2 as (p1 & Hp1 & _ & Hc1 & Hsh2).
  eexists z0, zN, ids, g, s0, s, sp, _, b, _, r2, p0.
  split_and!; try done.
  - lia.
  - rewrite Hout. apply elem_of_app. right.
    in_list.
  - by rewrite Hsh2, Hsh1.
  - rewrite Hc1; [done|]. intros ->.
    apply resolve_cell_fst in Hp0 as (_ & a0 & _ & Hj0).
    apply resolve_cell_fst in Hp1 as (_ & a1 & _ & Hj1).
    apply np_index_of_nonneg in Hj0 as [Hj0 _]; [|lia].
    apply np_index_of_nonneg in Hj1 as [Hj1 _]; [|lia].
    rewrite Hj0 in Hj1. discriminate.
Qed.

(** C9, as the script has it. Two completed runs of one configuration on the
    same random stream and the same initial parameters save the same
    iteration, loss and call-count sequences. The duration sequence of each
    run is made of differences of that run's own clock readings. *)
Theorem metrics_determined_up_to_clock
    (args : Args) (e1 e2 : Env) (o1 o2 : Outcome) :
  env_np e1 = env_np e2 ->
  env_torch e1 = env_torch e2 ->
  run args e1 = Some o1 ->
  run args e2 = Some o2 ->
  let durations (e : Env) :=
    (fun k => (env_clock e (2 * k + 2) - env_clock e (2 * k + 1))%Q)
      <$> seq 0 (Z.to_nat (niters args)) in
  lookup_file o1 (filename args +:+ "itr_arr.npy")
  = lookup_file o2 (filename args +:+ "itr_arr.npy")
  /\ lookup_file o1 (filename args +:+ "loss_arr.npy")
     = lookup_file o2 (filename args +:+ "loss_arr.npy")
  /\ lookup_file o1 (filename args +:+ "nfe_arr.npy")
     = lookup_file o2 (filename args +:+ "nfe_arr.npy")
  /\ lookup_file o1 (filename args +:+ "time_arr.npy") = Some (NpyArray (durations e1))
  /\ lookup_file o2 (filename args +:+ "time_arr.npy") = Some (NpyArray (durations e2)).
Proof.
  intros Enp Eto Hr1 Hr2 durations.
  apply run_inv in Hr1
    as (s1 & zN1 & g1 & ? & ? & ? & ? & ? & ? & ? & ? & ? & ? & ? & ? & ra
        & Ht1 & _ & _ & _ & _ & _ & _ & _ & _ & _ & _ & Hf1 & _).
  apply run_inv in Hr2
    as (s2 & zN2 & g2 & ? & ? & ? & ? & ? & ? & ? & ? & ? & ? & ? & ? & rb
        & Ht2 & _ & _ & _ & _ & _ & _ & _ & _ & _ & _ & Hf2 & _).
  destruct (lookup_saved _ _ _ _ _ _ _ _ (filename_cases args) Hf1)
    as (-> & -> & -> & -> & _).
  destruct (lookup_saved _ _ _ _ _ _ _ _ (filename_cases args) Hf2)
    as (-> & -> & -> & -> & _).
  apply train_inv in Ht1 as (z0 & ids & t1 & Hd1 & Hi1 & Hl1).
  apply train_inv in Ht2 as (z0' & ids' & t2 & Hd2 & Hi2 & Hl2).
  rewrite <- Enp, Hd1 in Hd2. simplify_eq.
  apply initial_state_inv in Hi1 as (_ & Hm1 & Ho1 & Hc1 & _ & _ & Li1 & Ll1 & Lf1 & Lt1).
  apply initial_state_inv in Hi2 as (_ & Hm2 & Ho2 & Hc2 & _ & _ & Li2 & Ll2 & Lf2 & Lt2).
  rewrite training_loop_state_after in Hl1, Hl2.
  assert (model t1 = model t2) as Em by congruence.
  assert (optimizer t1 = optimizer t2) as Eo by congruence.
  destruct (state_after_deterministic _ _ _ _ _ _ _ _ Em Eo Hl1 Hl2)
    as (_ & _ & Ei & El & En).
  apply state_after_shape in Hl1 as (Li1' & Ll1' & Lf1' & Lt1' & _ & _ & _ & Htt1 & _).
  apply state_after_shape in Hl2 as (Li2' & Ll2' & Lf2' & Lt2' & _ & _ & _ & Htt2 & _).
  rewrite !take_ge in Ei, El, En by lia.
  rewrite take_ge in Htt1 by lia. rewrite take_ge in Htt2 by lia.
  rewrite Ei, El, En, Htt1, Htt2, Hc1, Hc2. unfold durations. simpl.
  split_and!; try done.
  - do 2 f_equal. apply list_fmap_ext. intros _ k _. f_equal; f_equal; lia.
  - do 2 f_equal. apply list_fmap_ext. intros _ k _. f_equal; f_equal; lia.
Qed.

End TrainingClaims.

(** The concrete run goes through three iterations. *)
Lemma training_runs_niters_iterations_witness :
  exists s zN g,
    train toy_args toy_env = Some (s, zN, g)
    /\ length (loss_arr s) = Z.to_nat (niters toy_args)
    /\ itr_arr s
       = (fun k => inject_Z (Z.of_nat (S k))) <$> seq 0 (Z.to_nat (niters toy_args))
    /\ ticks (clock s) = (1 + 2 * Z.to_nat (niters toy_args))%nat.
Proof.
  assert (exists r, train toy_args toy_env = Some r) as ([[s zN] g] & Ht)
    by by_running (train toy_args toy_env).
  destruct (training_runs_niters_iterations _ _ _ _ _ Ht)
    as (_ & _ & _ & Hl & _ & _ & Hi & Hc & _).
  exists s, zN, g.
  exact (conj Ht (conj Hl (conj Hi Hc))).
Defined.

(** The concrete run reports the loss of its third iteration. *)
Lemma final_train_loss_is_last_iteration_loss_witness :
  exists o s l r p,
    run toy_args toy_env = Some o
    /\ loss_arr s !! (Z.to_nat (niters toy_args) - 1)%nat = Some l
    /\ lookup_file o (filename toy_args +:+ "loss_arr.npy") = Some (NpyArray (loss_arr s))
    /\ PTrainMSE l ∈ out_stdout o
    /\ lookup_file o "results.npy" = Some (NpyResults r)
    /\ resolve_cell r (first_index toy_args) 0
                    (data_dimension toy_args - 1) (experiment_no toy_args - 1) = Some p
    /\ cell_at r p = Some l.
Proof.
  assert (exists o, run toy_args toy_env = Some o) as (o & Hr)
    by by_running (run toy_args toy_env).
  destruct (final_train_loss_is_last_iteration_loss _ _ _ Hr)
    as (z0 & zN & ids & g & s0 & s & sp & pred & b & l & r & p
        & _ & _ & _ & _ & _ & _ & _ & Hla & Hfl & Hpr & Hfr & Hp & Hc).
  exists o, s, l, r, p.
  exact (conj Hr (conj Hla (conj Hfl (conj Hpr (conj Hfr (conj Hp Hc)))))).
Defined.

(** On the concrete run a fresh forward pass with the parameters left by the
    last optimiser step would give another loss than the one reported. *)
Example fresh_forward_pass_gives_another_loss :
  (train toy_args toy_env
   ≫= fun '(s, zN, _) =>
        l ← loss s;
        '(p, _) ← ODEBlock_forward toy_args (model s) (toy_z0 toy_args);
        l' ← MSELoss p zN;
        Some (Qeq_bool l l'))
  = Some false.
Proof. vm_compute. reflexivity. Qed.

(** Two concrete runs that differ in the clock only. *)
Lemma metrics_determined_up_to_clock_witness :
  exists o1 o2,
    run toy_args toy_env = Some o1
    /\ run toy_args toy_env_fast_clock = Some o2
    /\ lookup_file o1 (filename toy_args +:+ "itr_arr.npy")
       = lookup_file o2 (filename toy_args +:+ "itr_arr.npy")
    /\ lookup_file o1 (filename toy_args +:+ "loss_arr.npy")
       = lookup_file o2 (filename toy_args +:+ "loss_arr.npy")
    /\ lookup_file o1 (filename toy_args +:+ "nfe_arr.npy")
       = lookup_file o2 (filename toy_args +:+ "nfe_arr.npy").
Proof.
  assert (exists o, run toy_args toy_env = Some o) as (o1 & H1)
    by by_running (run toy_args toy_env).
  assert (exists o, run toy_args toy_env_fast_clock = Some o) as (o2 & H2)
    by by_running (run toy_args toy_env_fast_clock).
  destruct (metrics_determined_up_to_clock toy_args toy_env toy_env_fast_clock o1 o2
              eq_refl eq_refl H1 H2) as (Hi & Hl & Hn & _).
  exists o1, o2.
  exact (conj H1 (conj H2 (conj Hi (conj Hl Hn)))).
Defined.

(** C9 as claimed fails: the same configuration, random stream and initial
    parameters under two clocks save two different duration sequences. *)
Lemma durations_differ_between_identical_runs :
  env_np toy_env = env_np toy_env_fast_clock
  /\ env_torch toy_env = env_torch toy_env_fast_clock
  /\ env_uninit toy_env = env_uninit toy_env_fast_clock
  /\ env_results toy_env = env_results toy_env_fast_clock
  /\ (run toy_args toy_env ≫= fun o => lookup_file o "anode./time_arr.npy")
     = Some (NpyArray [3%Q; 7%Q; 11%Q])
  /\ (run toy_args toy_env_fast_clock ≫= fun o => lookup_file o "anode./time_arr.npy")
     = Some (NpyArray [6%Q; 14%Q; 22%Q])
  /\ ~ Forall2 Qeq [3%Q; 7%Q; 11%Q] [6%Q; 14%Q; 22%Q].
Proof.
  split_and!; [reflexivity | reflexivity | reflexivity | reflexivity
              | vm_compute; reflexivity | vm_compute; reflexivity | ].
  intros Hq. inversion Hq as [|? ? ? ? H3 _]. vm_compute in H3. discriminate H3.
Qed.

(** ** Claims about the artifacts of a run *)

Lemma resolve_cell_inv (r : Results) (a s d e : Z) (p : nat * nat * nat * nat) :
  resolve_cell r a s d e = Some p ->
  exists r1 r2 r3,
    np_index (length r) a = Some p.1.1.1 /\ r !! p.1.1.1 = Some r1
    /\ np_index (length r1) s = Some p.1.1.2 /\ r1 !! p.1.1.2 = Some r2
    /\ np_index (length r2) d = Some p.1.2 /\ r2 !! p.1.2 = Some r3
    /\ np_index (length r3) e = Some p.2.
Proof.
  unfold resolve_cell. intros Hp.
  destruct (np_index (length r) a) as [i|] eqn:Hi; simplify_eq/=.
  destruct (r !! i) as [r1|] eqn:H1; simplify_eq/=.
  destruct (np_index (length r1) s) as [j|] eqn:Hj; simplify_eq/=.
  destruct (r1 !! j) as [r2|] eqn:H2; simplify_eq/=.
  destruct (np_index (length r2) d) as [k|] eqn:Hk; simplify_eq/=.
  destruct (r2 !! k) as [r3|] eqn:H3; simplify_eq/=.
  destruct (np_index (length r3) e) as [l|] eqn:Hl; simplify_eq/=.
  by exists r1, r2, r3.
Qed.

Lemma first_index_cases (args : Args) :
  (extra_dim args = 0 /\ first_index args = 0 /\ filename args = "node./")
  \/ (extra_dim args <> 0 /\ first_index args = 1 /\ filename args = "anode./").
Proof. unfold first_index, filename. case_decide; auto. Qed.

Section ArtifactClaims.
Context `{Torch}.

(** C5. A completed run saves the results array it loaded with two cells
    overwritten and every other cell, and the shape, as they were: the cell
    [first_index][0][data_dimension-1][experiment_no-1] holds the training
    loss and the cell [first_index][1][data_dimension-1][experiment_no-1] the
    test loss, where [first_index] is 0 without extra dimensions and 1 with
    them. *)
Theorem results_written_at_two_cells (args : Args) (env : Env) (o : Outcome) :
  run args env = Some o ->
  exists r0 r p0 p1 ltrain ltest,
    env_results env = Some r0
    /\ lookup_file o "results.npy" = Some (NpyResults r)
    /\ resolve_cell r0 (first_index args) 0
                    (data_dimension args - 1) (experiment_no args - 1) = Some p0
    /\ resolve_cell r0 (first_index args) 1
                    (data_dimension args - 1) (experiment_no args - 1) = Some p1
    /\ p0 <> p1
    /\ p0.1.1.1 = Z.to_nat (first_index args) /\ p1.1.1.1 = Z.to_nat (first_index args)
    /\ p0.1.1.2 = 0%nat /\ p1.1.1.2 = 1%nat
    /\ (1 <= data_dimension args ->
        p0.1.2 = Z.to_nat (data_dimension args - 1)
        /\ p1.1.2 = Z.to_nat (data_dimension args - 1))
    /\ (1 <= experiment_no args ->
        p0.2 = Z.to_nat (experiment_no args - 1)
        /\ p1.2 = Z.to_nat (experiment_no args - 1))
    /\ PTrainMSE ltrain ∈ out_stdout o
    /\ PTestMSE ltest ∈ out_stdout o
    /\ cell_at r p0 = Some ltrain
    /\ cell_at r p1 = Some ltest
    /\ (forall q, q <> p0 -> q <> p1 -> cell_at r q = cell_at r0 q)
    /\ (forall a s d e, resolve_cell r a s d e = resolve_cell r0 a s d e).
Proof.
  intros Hr.
  apply run_inv in Hr
    as (s & zN & g & r0 & last & pred & l & r1 & z0' & zN' & ids' & g' & pred' & m' & l' & r2
        & Ht & Hr0 & Hlast & Hp & Hm & H1 & Hd' & Htp & Hm' & H2 & Hdir & Hfiles & Hout).
  destruct (lookup_saved _ _ _ _ _ _ _ _ (filename_cases args) Hfiles)
    as (_ & _ & _ & _ & _ & Hfr & _).
  apply results_setitem_resolve in H1 as (p0 & Hp0 & Hc0 & Ho0 & Hsh1).
  apply results_setitem_resolve in H2 as (p1 & Hp1 & Hc1 & Ho1 & Hsh2).
  rewrite Hsh1 in Hp1.
  destruct (resolve_cell_inv _ _ _ _ _ _ Hp0)
    as (a1 & a2 & a3 & Hi0 & _ & Hj0 & _ & Hk0 & _ & Hl0).
  destruct (resolve_cell_inv _ _ _ _ _ _ Hp1)
    as (b1 & b2 & b3 & Hi1 & _ & Hj1 & _ & Hk1 & _ & Hl1).
  assert (0 <= first_index args) as Hfi
    by (destruct (first_index_cases args) as [(_ & -> & _)|(_ & -> & _)]; lia).
  apply np_index_of_nonneg in Hi0 as [Hi0 _]; [|done].
  apply np_index_of_nonneg in Hi1 as [Hi1 _]; [|done].
  apply np_index_of_nonneg in Hj0 as [Hj0 _]; [|lia].
  apply np_index_of_nonneg in Hj1 as [Hj1 _]; [|lia].
  assert (p0 <> p1) as Hne by (intros ->; rewrite Hj0 in Hj1; discriminate).
  exists r0, r2, p0, p1, l, l'.
  split_and!; try done.
  - intros HD. apply np_index_of_nonneg in Hk0 as [Hk0 _]; [|lia].
    apply np_index_of_nonneg in Hk1 as [Hk1 _]; [|lia]. done.
  - intros HE. apply np_index_of_nonneg in Hl0 as [Hl0 _]; [|lia].
    apply np_index_of_nonneg in Hl1 as [Hl1 _]; [|lia]. done.
  - rewrite Hout. apply elem_of_app. right.
    in_list.
  - rewrite Hout. apply elem_of_app. right.
    in_list.
  - rewrite Ho1; done.
  - intros q Hq0 Hq1. rewrite Ho1, Ho0; done.
  - intros a s' d e. by rewrite Hsh2, Hsh1.
Qed.

(** C6. A completed run without extra dimensions and a completed run with
    extra dimensions (in particular two runs that differ in [extra_dim]
    only) use different directories, share no file path but that of the
    results array, and write different cells of it: the first index is 0 for
    the former and 1 for the latter. *)
Theorem plain_and_augmented_runs_are_disjoint
    (a1 a2 : Args) (e1 e2 : Env) (o1 o2 : Outcome) :
  extra_dim a1 = 0 ->
  0 < extra_dim a2 ->
  run a1 e1 = Some o1 ->
  run a2 e2 = Some o2 ->
  out_dir o1 = "./node./"
  /\ out_dir o2 = "./anode./"
  /\ out_dir o1 <> out_dir o2
  /\ file_paths o1 = ((fun n => "node./" +:+ n) <$> artifact_names) ++ ["results.npy"]
  /\ file_paths o2 = ((fun n => "anode./" +:+ n) <$> artifact_names) ++ ["results.npy"]
  /\ (forall p, p ∈ file_paths o1 -> p ∈ file_paths o2 -> p = "results.npy")
  /\ first_index a1 = 0
  /\ first_index a2 = 1
  /\ (forall (r : Results) s1 d1 n1 s2 d2 n2 p1 p2,
        resolve_cell r (first_index a1) s1 d1 n1 = Some p1 ->
        resolve_cell r (first_index a2) s2 d2 n2 = Some p2 ->
        p1 <> p2).
Proof.
  intros E1 E2 H1 H2.
  apply run_inv in H1
    as (? & ? & ? & ? & ? & ? & ? & ? & ? & ? & ? & ? & ? & ? & ? & ra
        & _ & _ & _ & _ & _ & _ & _ & _ & _ & _ & Hd1 & Hf1 & _).
  apply run_inv in H2
    as (? & ? & ? & ? & ? & ? & ? & ? & ? & ? & ? & ? & ? & ? & ? & rb
        & _ & _ & _ & _ & _ & _ & _ & _ & _ & _ & Hd2 & Hf2 & _).
  destruct (first_index_cases a1) as [(_ & Fi1 & Fn1)|(? & _)]; [|done].
  destruct (first_index_cases a2) as [(? & _)|(_ & Fi2 & Fn2)]; [lia|].
  rewrite Fn1 in Hd1, Hf1. rewrite Fn2 in Hd2, Hf2.
  destruct (lookup_saved _ _ _ _ _ _ _ _ (or_introl eq_refl) Hf1) as (_ & _ & _ & _ & _ & _ & P1).
  destruct (lookup_saved _ _ _ _ _ _ _ _ (or_intror eq_refl) Hf2) as (_ & _ & _ & _ & _ & _ & P2).
  rewrite Hd1, Hd2, P1, P2, Fi1, Fi2.
  split_and!; try done.
  - intros p Hp1 Hp2. cbv in Hp1, Hp2.
    repeat (apply elem_of_cons in Hp1 as [-> | Hp1]; [|]);
      repeat (apply elem_of_cons in Hp2 as [Hp2 | Hp2]; [done || discriminate |]);
      try (by apply elem_of_nil in Hp2); by apply elem_of_nil in Hp1.
  - intros r s1 d1 n1 s2 d2 n2 p1 p2 Hp1 Hp2 ->.
    apply resolve_cell_fst in Hp1 as (Hi1 & _), Hp2 as (Hi2 & _).
    apply np_index_of_nonneg in Hi1 as [Hi1 _]; [|lia].
    apply np_index_of_nonneg in Hi2 as [Hi2 _]; [|lia].
    rewrite Hi1 in Hi2. discriminate.
Qed.

End ArtifactClaims.

(** The results array of the concrete run. *)
Lemma results_written_at_two_cells_witness :
  exists o r0 r p0 p1 ltrain ltest,
    run toy_args toy_env = Some o
    /\ env_results toy_env = Some r0
    /\ lookup_file o "results.npy" = Some (NpyResults r)
    /\ p0 <> p1
    /\ cell_at r p0 = Some ltrain
    /\ cell_at r p1 = Some ltest
    /\ (forall q, q <> p0 -> q <> p1 -> cell_at r q = cell_at r0 q).
Proof.
  assert (exists o, run toy_args toy_env = Some o) as (o & Hr)
    by by_running (run toy_args toy_env).
  destruct (results_written_at_two_cells _ _ _ Hr)
    as (r0 & r & p0 & p1 & ltrain & ltest & Hr0 & Hfr & _ & _ & Hne & _ & _ & _ & _ & _ & _
        & _ & _ & Hc0 & Hc1 & Hfr' & _).
  exists o, r0, r, p0, p1, ltrain, ltest.
  exact (conj Hr (conj Hr0 (conj Hfr (conj Hne (conj Hc0 (conj Hc1 Hfr')))))).
Defined.

(** The concrete run without and with an extra dimension. *)
Lemma plain_and_augmented_runs_are_disjoint_witness :
  exists o1 o2,
    extra_dim toy_args_plain = 0
    /\ 0 < extra_dim toy_args
    /\ run toy_args_plain toy_env = Some o1
    /\ run toy_args toy_env = Some o2
    /\ out_dir o1 <> out_dir o2
    /\ (forall p, p ∈ file_paths o1 -> p ∈ file_paths o2 -> p = "results.npy")
    /\ first_index toy_args_plain = 0
    /\ first_index toy_args = 1.
Proof.
  assert (exists o, run toy_args_plain toy_env = Some o) as (o1 & H1)
    by by_running (run toy_args_plain toy_env).
  assert (exists o, run toy_args toy_env = Some o) as (o2 & H2)
    by by_running (run toy_args toy_env).
  assert (extra_dim toy_args_plain = 0) as E1 by reflexivity.
  assert (0 < extra_dim toy_args) as E2 by reflexivity.
  destruct (plain_and_augmented_runs_are_disjoint _ _ _ _ _ _ E1 E2 H1 H2)
    as (_ & _ & Hd & _ & _ & Hp & F1 & F2 & _).
  exists o1, o2.
  exact (conj E1 (conj E2 (conj H1 (conj H2 (conj Hd (conj Hp (conj F1 F2))))))).
Defined.

(** ** Claims about the data and its shapes *)

Lemma drawn_batch_shape (g : NpRandom) (n d : nat) :
  ncols (drawn_batch g n d) = d
  /\ nrows (drawn_batch g n d) = n
  /\ rectangular (drawn_batch g n d).
Proof.
  unfold drawn_batch, nrows, rectangular. simpl.
  rewrite length_map, length_seq. split_and!; [done | done |].
  apply Forall_forall. intros r Hr. apply list_elem_of_In, in_map_iff in Hr as (i & <- & _).
  by rewrite length_map, length_seq.
Qed.

Lemma drawn_batch_range (g : NpRandom) (n d : nat) :
  (forall k, (0 <= np_stream g k)%Q /\ (np_stream g k < 1)%Q) ->
  Forall (Forall (fun x => (-1 <= x)%Q /\ (x < 1)%Q)) (rows (drawn_batch g n d)).
Proof.
  intros Hg. unfold drawn_batch. simpl.
  apply Forall_forall. intros r Hr. apply list_elem_of_In, in_map_iff in Hr as (i & <- & _).
  apply Forall_forall. intros x Hx. apply list_elem_of_In, in_map_iff in Hx as (j & <- & _).
  destruct (Hg (np_pos g + i * d + j)%nat) as [H0 H1]. split; lra.
Qed.

(** The data of lines 90-97 and 104-105, in closed form. *)
Lemma make_data_closed_form (g : NpRandom) (n d e : Z) (sf : Q) :
  0 <= n -> 0 <= d -> 0 <= e ->
  ('(z0, g') ← np_random_rand g n d;
   let z0 := tmap (fun x => x * 2 - 1)%Q z0 in
   let zN := tmap (fun x => x * sf)%Q z0 in
   zeros ← torch_zeros n e;
   z0 ← torch_cat1 z0 zeros;
   ids ← torch_arange d;
   ids ← repeat_rows ids n;
   Some (z0, zN, ids, g'))
  = Some (zero_padded (drawn_batch g (Z.to_nat n) (Z.to_nat d)) (Z.to_nat e),
          tmap (fun x => x * sf)%Q (drawn_batch g (Z.to_nat n) (Z.to_nat d)),
          selector (Z.to_nat n) (Z.to_nat d),
          advance g (Z.to_nat n * Z.to_nat d)).
Proof.
  intros Hn Hd He.
  assert (tmap (fun x => x * 2 - 1)%Q
            (mkTensor (Z.to_nat d)
               (map (fun i => map (fun j => np_stream g (np_pos g + i * Z.to_nat d + j)%nat)
                                  (seq 0 (Z.to_nat d))) (seq 0 (Z.to_nat n))))
          = drawn_batch g (Z.to_nat n) (Z.to_nat d)) as Hraw.
  { unfold tmap, drawn_batch. cbn [ncols rows]. f_equal.
    rewrite map_map. apply map_ext. intros i. apply map_map. }
  unfold np_random_rand. rewrite decide_False by lia. cbn [mbind option_bind].
  rewrite Hraw.
  unfold torch_zeros. rewrite decide_False by lia. cbn [mbind option_bind].
  unfold torch_cat1. rewrite decide_True.
  2:{ unfold nrows, drawn_batch. cbn [rows].
      by rewrite length_map, length_seq, length_replicate. }
  cbn [mbind option_bind ncols rows].
  unfold torch_arange. rewrite decide_False by lia. cbn [mbind option_bind].
  unfold repeat_rows. rewrite decide_False by lia. cbn [mbind option_bind].
  rewrite zip_with_replicate_r_eq.
  2:{ unfold drawn_batch. cbn [rows]. by rewrite length_map, length_seq. }
  unfold selector, zero_padded, advance. rewrite length_seq. reflexivity.
Qed.

Lemma gather1_shape (y : Tensor Q) (ids : Tensor nat) (out : Tensor Q) :
  gather1 y ids = Some out ->
  ncols out = ncols ids
  /\ nrows out = nrows ids
  /\ (rectangular ids -> rectangular out).
Proof.
  unfold gather1. case_decide as Hle; [|done]. intros Hg.
  destruct (mapM _ _) as [rs|] eqn:Hm; simplify_eq/=.
  apply mapM_Some_1 in Hm.
  split_and!; [done | |].
  - unfold nrows in *. simpl. rewrite <- (Forall2_length _ _ _ Hm), length_zip. lia.
  - unfold rectangular. simpl. intros Hr.
    apply Forall_forall. intros row Hrow.
    apply list_elem_of_lookup in Hrow as [i Hi].
    destruct (Forall2_lookup_r _ _ _ _ _ Hm Hi) as ([r ix] & Hz & Hrow).
    apply length_mapM in Hrow. rewrite <- Hrow.
    rewrite lookup_zip_with in Hz.
    destruct (rows y !! i) as [r'|]; simplify_eq/=.
    destruct (rows ids !! i) as [ix'|] eqn:Hix; simplify_eq/=.
    eapply Forall_lookup_1 in Hr; [|done]. done.
Qed.

(** C4. Training data: [ntrain] rows of [data_dimension] draws, mapped into
    [-1, 1); the target is that batch times [scale_factor] and keeps its
    width; only the input gets [extra_dim] zero columns appended. Test data:
    the same with [ntest] rows, made of the draws that follow those of the
    training batch in the generator's stream. *)
Theorem data_generation (args : Args) (g : NpRandom) :
  (forall k, (0 <= np_stream g k)%Q /\ (np_stream g k < 1)%Q) ->
  0 <= ntrain args -> 0 <= ntest args ->
  0 <= data_dimension args -> 0 <= extra_dim args ->
  let d := Z.to_nat (data_dimension args) in
  let e := Z.to_nat (extra_dim args) in
  let raw := drawn_batch g (Z.to_nat (ntrain args)) d in
  let g1 := advance g (Z.to_nat (ntrain args) * d) in
  let raw' := drawn_batch g1 (Z.to_nat (ntest args)) d in
  train_data args g
  = Some (zero_padded raw e, tmap (fun x => x * scale_factor args)%Q raw,
          selector (Z.to_nat (ntrain args)) d, g1)
  /\ test_data args g1
     = Some (zero_padded raw' e, tmap (fun x => x * scale_factor args)%Q raw',
             selector (Z.to_nat (ntest args)) d,
             advance g1 (Z.to_nat (ntest args) * d))
  /\ ncols raw = d /\ nrows raw = Z.to_nat (ntrain args) /\ rectangular raw
  /\ Forall (Forall (fun x => (-1 <= x)%Q /\ (x < 1)%Q)) (rows raw)
  /\ ncols (tmap (fun x => x * scale_factor args)%Q raw) = d
  /\ ncols (zero_padded raw e) = (d + e)%nat
  /\ ncols raw' = d /\ nrows raw' = Z.to_nat (ntest args) /\ rectangular raw'
  /\ Forall (Forall (fun x => (-1 <= x)%Q /\ (x < 1)%Q)) (rows raw')
  /\ ncols (tmap (fun x => x * scale_factor args)%Q raw') = d
  /\ ncols (zero_padded raw' e) = (d + e)%nat.
Proof.
  intros Hg Hn Hn' Hd He d e raw g1 raw'.
  destruct (drawn_batch_shape g (Z.to_nat (ntrain args)) d) as (Hc & Hr & Hrect).
  destruct (drawn_batch_shape g1 (Z.to_nat (ntest args)) d) as (Hc' & Hr' & Hrect').
  split_and!; try done.
  - unfold train_data. apply make_data_closed_form; lia.
  - unfold test_data. apply make_data_closed_form; lia.
  - by apply drawn_batch_range.
  - by apply drawn_batch_range.
Qed.

Lemma toy_stream_range (k : nat) :
  (0 <= env_np toy_env k)%Q /\ (env_np toy_env k < 1)%Q.
Proof.
  unfold toy_env, env_np, Qle, Qlt. simpl.
  pose proof (Nat.mod_upper_bound k 4). lia.
Qed.

(** The data of the concrete configuration. *)
Lemma data_generation_witness :
  (forall k, (0 <= env_np toy_env k)%Q /\ (env_np toy_env k < 1)%Q)
  /\ 0 <= ntrain toy_args /\ 0 <= ntest toy_args
  /\ 0 <= data_dimension toy_args /\ 0 <= extra_dim toy_args
  /\ train_data toy_args (mkNpRandom (env_np toy_env) 0)
     = Some (zero_padded (drawn_batch (mkNpRandom (env_np toy_env) 0)
                                      (Z.to_nat (ntrain toy_args))
                                      (Z.to_nat (data_dimension toy_args)))
                         (Z.to_nat (extra_dim toy_args)),
             tmap (fun x => x * scale_factor toy_args)%Q
                  (drawn_batch (mkNpRandom (env_np toy_env) 0)
                               (Z.to_nat (ntrain toy_args))
                               (Z.to_nat (data_dimension toy_args))),
             selector (Z.to_nat (ntrain toy_args)) (Z.to_nat (data_dimension toy_args)),
             advance (mkNpRandom (env_np toy_env) 0)
                     (Z.to_nat (ntrain toy_args) * Z.to_nat (data_dimension toy_args))).
Proof.
  assert (0 <= ntrain toy_args) as Hn by (cbn; lia).
  assert (0 <= ntest toy_args) as Hn' by (cbn; lia).
  assert (0 <= data_dimension toy_args) as Hd by (cbn; lia).
  assert (0 <= extra_dim toy_args) as He by (cbn; lia).
  exact (conj toy_stream_range (conj Hn (conj Hn' (conj Hd (conj He
           (proj1 (data_generation toy_args (mkNpRandom (env_np toy_env) 0)
                                   toy_stream_range Hn Hn' Hd He))))))).
Defined.

(** The training and the test batch of the concrete configuration: the test
    batch is made of the third draw, the training batch of the first two. *)
Example toy_batches :
  train_data toy_args (mkNpRandom (env_np toy_env) 0)
  ≫= (fun '(z0, zN, ids, g) =>
        test_data toy_args g
        ≫= fun '(z0', zN', ids', g') => Some (z0, zN, ids, z0', zN', ids', np_pos g'))
  = Some (mkTensor 2 [[-4 # 4; 0]; [-2 # 4; 0]]%Q, mkTensor 1 [[4 # 4]; [2 # 4]]%Q,
          mkTensor 1 [[0]; [0]]%nat,
          mkTensor 2 [[0 # 4; 0]]%Q, mkTensor 1 [[0 # 4]]%Q, mkTensor 1 [[0]]%nat, 3%nat).
Proof. vm_compute. reflexivity. Qed.

(** ** The test phase against the training pipeline *)

Section TestPhase.
Context `{Torch}.

(** The specification's pipeline is [ODEBlock.forward] on a block with the
    test selector. *)
Lemma spec_test_prediction_is_forward (args : Args) (m : ODEBlock) (z0 : Tensor Q)
      (ids : Tensor nat) :
  fst <$> ODEBlock_forward args (mkODEBlock (odefunc m) [inject_Z 0; inject_Z 1] ids) z0
  = fst <$> spec_test_prediction args m z0 ids.
Proof.
  unfold ODEBlock_forward, spec_test_prediction. cbn [odefunc integration_times indices].
  destruct (run_script _ _) as [[out f]|]; [|done]. cbn [mbind option_bind].
  destruct (out !! 1%nat) as [y|]; [|done]. cbn [mbind option_bind].
  by destruct (gather1 y ids).
Qed.

(** The script's test prediction never reads [tol]: it is the pipeline run
    with the tolerances the solver falls back to. *)
Lemma test_prediction_ignores_tol (args args' : Args) (m : ODEBlock) (z0 : Tensor Q)
      (ids : Tensor nat) :
  adjoint args = adjoint args' ->
  test_prediction args m z0 ids = test_prediction args' m z0 ids.
Proof. unfold test_prediction. by intros ->. Qed.

Lemma test_prediction_default_tolerances (args : Args) (m : ODEBlock) (z0 : Tensor Q)
      (ids : Tensor nat) :
  test_prediction args m z0 ids
  = ('(out, f) ← run_script ((if adjoint args then odeint_adjoint else odeint_plain)
                               z0 [inject_Z 0; inject_Z 1] default_rtol default_atol)
                            (odefunc m);
     y ← out !! 1%nat;
     out ← gather1 y ids;
     Some (out, mkODEBlock f (integration_times m) (indices m))).
Proof. reflexivity. Qed.

End TestPhase.

(** C1, where the script departs from it. On the concrete run (tolerance
    1e-3, solver defaults 1e-7 and 1e-9) the test prediction of the script,
    made on the trained model and the test batch, is not the one that the
    training pipeline gives on the same model and batch. *)
Theorem test_prediction_differs_from_training_pipeline :
  (train toy_args toy_env
   ≫= fun '(s, _, g) =>
        test_data toy_args g
        ≫= fun '(z0, _, ids, _) => fst <$> test_prediction toy_args (model s) z0 ids)
  = Some (mkTensor 1 [[59198715983808724051957336550185851665613
                       # 1677721600000000000000000000000000000000000]]%Q)
  /\ (train toy_args toy_env
      ≫= fun '(s, _, g) =>
           test_data toy_args g
           ≫= fun '(z0, _, ids, _) => fst <$> spec_test_prediction toy_args (model s) z0 ids)
     = Some (mkTensor 1 [[38423837552697366759 # 1024000000000000000000]]%Q)
  /\ ~ (59198715983808724051957336550185851665613
        # 1677721600000000000000000000000000000000000
        == 38423837552697366759 # 1024000000000000000000)%Q.
Proof.
  split_and!; [vm_compute; reflexivity | vm_compute; reflexivity |].
  unfold Qeq. simpl. lia.
Qed.

(** * Further properties of the script *)
(** ** Augmenting and un-augmenting *)

Lemma mapM_lookup_seq {A} (r : list A) (a d : nat) :
  (a + d <= length r)%nat ->
  mapM (fun j : nat => r !! j) (seq a d) = Some (take d (drop a r)).
Proof.
  revert a. induction d as [|d IH]; intros a Hle; [done|].
  destruct (lookup_lt_is_Some_2 r a) as [x Hx]; [lia|].
  cbn [seq mapM]. rewrite Hx. cbn [mbind option_bind].
  rewrite IH by lia. cbn [mbind option_bind mret option_ret].
  by rewrite (drop_S _ _ _ Hx).
Qed.

Lemma zip_replicate_r {A B} (l : list A) (n : nat) (v : B) :
  zip l (replicate n v) = (fun r => (r, v)) <$> take n l.
Proof.
  revert n. induction l as [|x l IH]; intros [|n]; simpl; try done.
  by rewrite IH.
Qed.

Lemma gather1_first_columns (y : Tensor Q) (n d : nat) :
  rectangular y ->
  (n <= nrows y)%nat ->
  (d <= ncols y)%nat ->
  gather1 y (selector n d) = Some (mkTensor d (take d <$> take n (rows y))).
Proof.
  intros Hrect Hn Hd. unfold gather1, selector, nrows in *. cbn [rows ncols].
  rewrite length_replicate, decide_True by done.
  rewrite zip_replicate_r.
  assert (mapM (fun '(r, ix) => mapM (fun j : nat => r !! j) ix)
               ((fun r : list Q => (r, seq 0 d)) <$> take n (rows y))
          = Some (take d <$> take n (rows y))) as ->; [|done].
  apply mapM_Some_2. apply Forall2_fmap.
  apply Forall_Forall2_diag. apply Forall_forall. intros r Hr. simpl.
  assert (length r = ncols y) as Hlen.
  { apply elem_of_take in Hr as (i & Hi & _).
    by eapply (Forall_lookup_1 _ _ _ _ Hrect). }
  rewrite mapM_lookup_seq by lia. done.
Qed.

(** X1. On a rectangular batch with at least [n] rows and [d] columns, the
    gather with the selector that the script builds ([arange(d)] repeated
    [n] times) returns the first [d] columns of the first [n] rows. *)
Theorem gather1_selector (y : Tensor Q) (n d : nat) :
  rectangular y ->
  (n <= nrows y)%nat ->
  (d <= ncols y)%nat ->
  gather1 y (selector n d) = Some (mkTensor d (take d <$> take n (rows y))).
Proof. exact (gather1_first_columns y n d). Qed.

Lemma zero_padded_rectangular (t : Tensor Q) (e : nat) :
  rectangular t -> rectangular (zero_padded t e).
Proof.
  unfold zero_padded, rectangular. cbn [rows ncols]. intros Hr.
  apply Forall_fmap. eapply Forall_impl; [exact Hr|].
  intros r Hlen. simpl. by rewrite length_app, length_replicate, Hlen.
Qed.

(** Un-augmenting an augmented batch gives the batch back. *)
Lemma unaugment_augmented (t : Tensor Q) (e : nat) :
  rectangular t ->
  gather1 (zero_padded t e) (selector (nrows t) (ncols t)) = Some t.
Proof.
  intros Hr.
  rewrite gather1_first_columns.
  - destruct t as [d rs]. unfold zero_padded, nrows, rectangular in *. cbn [rows ncols] in *.
    do 2 f_equal. rewrite take_ge by (by rewrite length_fmap).
    rewrite <- list_fmap_compose.
    rewrite <- (list_fmap_id rs) at 2.
    apply Forall_fmap_ext. eapply Forall_impl; [exact Hr|].
    intros r Hlen. simpl. by apply take_app_length'.
  - by apply zero_padded_rectangular.
  - unfold zero_padded, nrows. cbn [rows]. by rewrite length_fmap.
  - unfold zero_padded. cbn [ncols]. lia.
Qed.

Lemma train_data_inv (args : Args) (g : NpRandom)
      (r : Tensor Q * Tensor Q * Tensor nat * NpRandom) :
  train_data args g = Some r ->
  0 <= ntrain args /\ 0 <= data_dimension args /\ 0 <= extra_dim args.
Proof.
  unfold train_data, np_random_rand, torch_zeros. intros Hd.
  repeat case_decide; simplify_eq/=; lia.
Qed.

Lemma test_data_inv (args : Args) (g : NpRandom)
      (r : Tensor Q * Tensor Q * Tensor nat * NpRandom) :
  test_data args g = Some r ->
  0 <= ntest args /\ 0 <= data_dimension args /\ 0 <= extra_dim args.
Proof.
  unfold test_data, np_random_rand, torch_zeros. intros Hd.
  repeat case_decide; simplify_eq/=; lia.
Qed.

(** X2. On the training data of the script, the gather with the selector
    recovers from the augmented input [z0] exactly the batch that the target
    [zN] is [scale_factor] times of. *)
Theorem selector_recovers_training_batch
    (args : Args) (g : NpRandom) (z0 zN : Tensor Q) (ids : Tensor nat) (g' : NpRandom) :
  train_data args g = Some (z0, zN, ids, g') ->
  exists raw,
    gather1 z0 ids = Some raw
    /\ zN = tmap (fun x => x * scale_factor args)%Q raw
    /\ z0 = zero_padded raw (Z.to_nat (extra_dim args))
    /\ Z.of_nat (ncols raw) = data_dimension args
    /\ Z.of_nat (nrows raw) = ntrain args.
Proof.
  intros Hd. destruct (train_data_inv _ _ _ Hd) as (Hn & HD & HE).
  unfold train_data in Hd. rewrite make_data_closed_form in Hd by done. simplify_eq.
  destruct (drawn_batch_shape g (Z.to_nat (ntrain args)) (Z.to_nat (data_dimension args)))
    as (Hc & Hr & Hrect).
  eexists. split_and!; [| done | done | lia | lia].
  rewrite <- (unaugment_augmented _ (Z.to_nat (extra_dim args)) Hrect).
  by rewrite Hc, Hr.
Qed.

Lemma zero_padded_0 (t : Tensor Q) : zero_padded t 0 = t.
Proof.
  destruct t as [d rs]. unfold zero_padded. cbn [ncols rows replicate].
  rewrite Nat.add_0_r. f_equal.
  rewrite <- (list_fmap_id rs) at 2. apply list_fmap_ext. intros _ r _.
  apply app_nil_r.
Qed.

(** X3. With [extra_dim = 0] nothing is appended to the drawn batch, the
    target is [scale_factor] times the input itself, and the gather returns
    any endpoint of the shape of the input unchanged. *)
Theorem without_extra_dimensions_nothing_is_added_or_dropped
    (args : Args) (g : NpRandom) (z0 zN : Tensor Q) (ids : Tensor nat) (g' : NpRandom) :
  extra_dim args = 0 ->
  train_data args g = Some (z0, zN, ids, g') ->
  z0 = drawn_batch g (Z.to_nat (ntrain args)) (Z.to_nat (data_dimension args))
  /\ zN = tmap (fun x => x * scale_factor args)%Q z0
  /\ (forall y, rectangular y -> ncols y = ncols z0 -> nrows y = nrows z0 ->
                gather1 y ids = Some y).
Proof.
  intros HE Hd. destruct (train_data_inv _ _ _ Hd) as (Hn & HD & _).
  unfold train_data in Hd. rewrite make_data_closed_form in Hd by lia. simplify_eq.
  rewrite HE. change (Z.to_nat 0) with 0%nat. rewrite zero_padded_0.
  destruct (drawn_batch_shape g (Z.to_nat (ntrain args)) (Z.to_nat (data_dimension args)))
    as (Hc & Hr & Hrect).
  split_and!; [done | done |].
  intros y Hy Hyc Hyr. rewrite Hc in Hyc. rewrite Hr in Hyr.
  rewrite <- (zero_padded_0 y) at 1. rewrite <- Hyc, <- Hyr.
  rewrite unaugment_augmented by done. done.
Qed.

(** ** The vector field *)

Lemma Linear_init_wf (g : nat -> Q) (pos i o : nat) :
  Linear_wf (Linear_init g pos i o).1
  /\ in_features (Linear_init g pos i o).1 = i
  /\ out_features (Linear_init g pos i o).1 = o.
Proof.
  unfold Linear_wf, Linear_init. cbn [fst weight bias in_features out_features].
  rewrite !length_map, !length_seq. split_and!; try done.
  apply Forall_forall. intros r Hr. apply list_elem_of_In, in_map_iff in Hr as (k & <- & _).
  by rewrite length_map, length_seq.
Qed.

Lemma ODEfunc_init_wf (g : nat -> Q) (dim nhidden : nat) :
  ODEfunc_wf (ODEfunc_init g dim nhidden) dim nhidden.
Proof.
  unfold ODEfunc_wf, ODEfunc_init.
  destruct (Linear_init_wf g 0 dim nhidden) as (W1 & I1 & O1).
  destruct (Linear_init g 0 dim nhidden) as [l1 p1]. cbn [fst] in *.
  destruct (Linear_init_wf g p1 nhidden nhidden) as (W2 & I2 & O2).
  destruct (Linear_init g p1 nhidden nhidden) as [l2 p2]. cbn [fst] in *.
  destruct (Linear_init_wf g p2 nhidden dim) as (W3 & I3 & O3).
  destruct (Linear_init g p2 nhidden dim) as [l3 p3]. cbn [fst fc1 fc2 fc3] in *.
  done.
Qed.

Lemma ODEfunc_wf_layers (f f' : ODEfunc) (dim nhidden : nat) :
  parameters f' = parameters f -> ODEfunc_wf f dim nhidden -> ODEfunc_wf f' dim nhidden.
Proof.
  unfold parameters, ODEfunc_wf. intros Hp. injection Hp as -> -> ->. done.
Qed.

Lemma Linear_forward_shape (l : Linear) (x : Tensor Q) :
  Linear_wf l -> ncols x = in_features l ->
  exists out, Linear_forward l x = Some out
              /\ ncols out = out_features l /\ nrows out = nrows x /\ rectangular out.
Proof.
  intros (Hw & Hb & _) Hx. unfold Linear_forward. rewrite decide_True by done.
  eexists. split; [done|]. unfold nrows, rectangular. cbn [ncols rows].
  rewrite length_map. split_and!; [done | done |].
  apply Forall_forall. intros r Hr. apply list_elem_of_In, in_map_iff in Hr as (r0 & <- & _).
  rewrite length_zip_with. lia.
Qed.

Lemma tmap_shape {A B} (f : A -> B) (t : Tensor A) :
  ncols (tmap f t) = ncols t /\ nrows (tmap f t) = nrows t
  /\ (rectangular t -> rectangular (tmap f t)).
Proof.
  unfold tmap, nrows, rectangular. cbn [ncols rows]. rewrite length_map.
  split_and!; [done | done |]. intros Hr.
  change (map (map f) (rows t)) with (map f <$> rows t).
  apply Forall_fmap. eapply Forall_impl; [exact Hr|]. intros r Hlen. simpl.
  by rewrite length_map.
Qed.

Section VectorField.
Context `{Torch}.

Lemma ODEfunc_forward_wf (f : ODEfunc) (dim nhidden : nat) (t : Q) (x : Tensor Q) :
  ODEfunc_wf f dim nhidden -> ncols x = dim ->
  exists out,
    ODEfunc_forward f t x = Some (out, mkODEfunc (fc1 f) (fc2 f) (fc3 f) (nfe f + 1))
    /\ ncols out = dim /\ nrows out = nrows x /\ rectangular out.
Proof.
  intros (W1 & W2 & W3 & I1 & O1 & I2 & O2 & I3 & O3) Hx. unfold ODEfunc_forward.
  destruct (Linear_forward_shape (fc1 f) x W1) as (o1 & -> & c1 & r1 & _); [congruence|].
  cbn [mbind option_bind].
  destruct (tmap_shape elu o1) as (tc1 & tr1 & _).
  destruct (Linear_forward_shape (fc2 f) (tmap elu o1) W2) as (o2 & -> & c2 & r2 & _);
    [congruence|].
  cbn [mbind option_bind].
  destruct (tmap_shape elu o2) as (tc2 & tr2 & _).
  destruct (Linear_forward_shape (fc3 f) (tmap elu o2) W3) as (o3 & -> & c3 & r3 & rect3);
    [congruence|].
  cbn [mbind option_bind].
  exists o3. split_and!; [done | congruence | congruence | done].
Qed.

(** X4. A vector field with the parameters of [ODEfunc(dim, nhidden)]
    maps a batch of width [dim] to a rectangular batch of the same shape,
    counting the call, and raises on a batch of any other width. *)
Theorem vector_field_keeps_the_shape
    (gen : nat -> Q) (dim nhidden : nat) (f : ODEfunc) (t : Q) (x : Tensor Q) :
  parameters f = parameters (ODEfunc_init gen dim nhidden) ->
  ncols x = dim ->
  (exists out,
     ODEfunc_forward f t x = Some (out, mkODEfunc (fc1 f) (fc2 f) (fc3 f) (nfe f + 1))
     /\ ncols out = ncols x /\ nrows out = nrows x /\ rectangular out)
  /\ (forall t' x', ncols x' <> dim -> ODEfunc_forward f t' x' = None).
Proof.
  intros Hp Hx.
  pose proof (ODEfunc_wf_layers _ _ _ _ Hp (ODEfunc_init_wf gen dim nhidden)) as Hf.
  split.
  - destruct (ODEfunc_forward_wf f dim nhidden t x Hf Hx) as (out & Ho & Hc & Hr & Hrect).
    exists out. split_and!; [done | congruence | done | done].
  - intros t' x' Hne. unfold ODEfunc_forward, Linear_forward.
    destruct Hf as (_ & _ & _ & I1 & _). rewrite decide_False by congruence. done.
Qed.

End VectorField.

Lemma vector_field_keeps_the_shape_witness :
  exists out,
    ODEfunc_forward (odefunc (toy_model toy_args)) 0 (toy_z0 toy_args)
    = Some (out, mkODEfunc (fc1 (odefunc (toy_model toy_args)))
                           (fc2 (odefunc (toy_model toy_args)))
                           (fc3 (odefunc (toy_model toy_args)))
                           (nfe (odefunc (toy_model toy_args)) + 1))
    /\ ncols out = ncols (toy_z0 toy_args)
    /\ nrows out = nrows (toy_z0 toy_args)
    /\ rectangular out.
Proof.
  assert (ncols (toy_z0 toy_args) = 2%nat) as Hx by (vm_compute; reflexivity).
  exact (proj1 (vector_field_keeps_the_shape (env_torch toy_env) 2 20
                  (odefunc (toy_model toy_args)) 0 (toy_z0 toy_args) eq_refl Hx)).
Defined.
(** ** The parameter count *)

Lemma Linear_init_numel (g : nat -> Q) (pos i o : nat) :
  numel (weight (Linear_init g pos i o).1) = (o * i)%nat
  /\ length (bias (Linear_init g pos i o).1) = o.
Proof.
  unfold numel, Linear_init. cbn [fst weight bias].
  rewrite length_map, length_seq. split; [|done].
  change (map ?f ?l) with (f <$> l).
  rewrite (sum_list_fmap_same i).
  - by rewrite length_fmap, length_seq.
  - apply Forall_fmap, Forall_forall. intros k _. simpl.
    by rewrite length_map, length_seq.
Qed.

(** X5. [count_parameters] of a freshly built model is the sum of the
    sizes of three weight matrices and three bias vectors; with the 20
    hidden units of the script that is [41 * dim + 440]. *)
Theorem count_parameters_of_new_model
    (gen : nat -> Q) (dim nhidden : nat) (t0 tN : Z) (ids : Tensor nat) :
  count_parameters (ODEBlock_init (ODEfunc_init gen dim nhidden) t0 tN ids)
  = ((nhidden * dim + nhidden) + (nhidden * nhidden + nhidden) + (dim * nhidden + dim))%nat
  /\ count_parameters (ODEBlock_init (ODEfunc_init gen dim 20) t0 tN ids)
     = (41 * dim + 440)%nat.
Proof.
  assert (forall h, count_parameters (ODEBlock_init (ODEfunc_init gen dim h) t0 tN ids)
                    = ((h * dim + h) + (h * h + h) + (dim * h + dim))%nat) as Hgen.
  { intros h. unfold count_parameters, parameter_numels, ODEBlock_init, ODEfunc_init.
    destruct (Linear_init_numel gen 0 dim h) as (W1 & B1).
    destruct (Linear_init gen 0 dim h) as [l1 p1]. cbn [fst] in *.
    destruct (Linear_init_numel gen p1 h h) as (W2 & B2).
    destruct (Linear_init gen p1 h h) as [l2 p2]. cbn [fst] in *.
    destruct (Linear_init_numel gen p2 h dim) as (W3 & B3).
    destruct (Linear_init gen p2 h dim) as [l3 p3]. cbn [fst odefunc fc1 fc2 fc3] in *.
    rewrite W1, B1, W2, B2, W3, B3. unfold sum_list. cbn [sum_list_with id]. lia. }
  split; [apply Hgen|]. rewrite Hgen. lia.
Qed.

(** ** What a run needs, and what it prints *)

Lemma np_index_of_neg (n : nat) (i : Z) (j : nat) :
  i < 0 -> np_index n i = Some j -> Z.of_nat j = i + Z.of_nat n.
Proof.
  unfold np_index. intros Hi Hj. repeat case_decide; simplify_eq; lia.
Qed.

Section RunExtras.
Context `{Torch}.

(** X6. A run completes only if [niters >= 1], the sample counts and the
    dimensions are not negative, [results.npy] exists and the two cells the
    run writes exist in it. *)
Theorem completed_run_had_valid_configuration (args : Args) (env : Env) (o : Outcome) :
  run args env = Some o ->
  1 <= niters args
  /\ 0 <= ntrain args /\ 0 <= ntest args
  /\ 0 <= data_dimension args /\ 0 <= extra_dim args
  /\ exists r0 p0 p1,
       env_results env = Some r0
       /\ resolve_cell r0 (first_index args) 0
                       (data_dimension args - 1) (experiment_no args - 1) = Some p0
       /\ resolve_cell r0 (first_index args) 1
                       (data_dimension args - 1) (experiment_no args - 1) = Some p1.
Proof.
  intros Hr.
  apply run_inv in Hr
    as (s & zN & g & r0 & last & pred & l & r1 & z0' & zN' & ids' & g' & pred' & m' & l' & r2
        & Ht & Hr0 & Hlast & Hp & Hm & H1 & Hd' & Htp & Hm' & H2 & _).
  apply train_inv in Ht as (z0 & ids & s0 & Hd & Hi & Hl).
  apply initial_state_inv in Hi as Hi'.
  destruct Hi' as (Hn & _ & _ & _ & Hitr0 & _).
  apply train_data_inv in Hd as (? & ? & ?).
  apply test_data_inv in Hd' as (? & _ & _).
  apply results_setitem_resolve in H1 as (p0 & Hp0 & _ & _ & Hsh1).
  apply results_setitem_resolve in H2 as (p1 & Hp1 & _).
  rewrite Hsh1 in Hp1.
  split_and!; try done.
  - destruct (decide (niters args = 0)) as [E0|]; [|lia].
    rewrite training_loop_state_after, E0 in Hl. simpl in Hl.
    rewrite state_after_0 in Hl. simplify_eq; congruence.
  - by exists r0, p0, p1.
Qed.

(** X8. With [experiment_no <= 0] a completed run has not failed on the
    index [experiment_no - 1]: it has counted from the end of the last axis
    and stored the training loss there (for [experiment_no = 0], in the last
    slot). *)
Theorem nonpositive_experiment_no_counts_from_the_end
    (args : Args) (env : Env) (o : Outcome) :
  run args env = Some o ->
  experiment_no args <= 0 ->
  exists r0 r p0 r1 r2 r3 l,
    env_results env = Some r0
    /\ lookup_file o "results.npy" = Some (NpyResults r)
    /\ resolve_cell r0 (first_index args) 0
                    (data_dimension args - 1) (experiment_no args - 1) = Some p0
    /\ r0 !! p0.1.1.1 = Some r1 /\ r1 !! p0.1.1.2 = Some r2 /\ r2 !! p0.1.2 = Some r3
    /\ Z.of_nat p0.2 = Z.of_nat (length r3) + experiment_no args - 1
    /\ PTrainMSE l ∈ out_stdout o
    /\ cell_at r p0 = Some l.
Proof.
  intros Hr Hexp.
  apply run_inv in Hr
    as (s & zN & g & r0 & last & pred & l & r1 & z0' & zN' & ids' & g' & pred' & m' & l' & r2
        & Ht & Hr0 & Hlast & Hp & Hm & H1 & Hd' & Htp & Hm' & H2 & Hdir & Hfiles & Hout).
  destruct (lookup_saved _ _ _ _ _ _ _ _ (filename_cases args) Hfiles)
    as (_ & _ & _ & _ & _ & Hfr & _).
  apply results_setitem_resolve in H1 as (p0 & Hp0 & Hc0 & _ & Hsh1).
  apply results_setitem_resolve in H2 as (p1 & Hp1 & _ & Hc1 & _).
  rewrite Hsh1 in Hp1.
  destruct (resolve_cell_inv _ _ _ _ _ _ Hp0)
    as (a1 & a2 & a3 & _ & Ha1 & Hj0 & Ha2 & _ & Ha3 & Hl0).
  destruct (resolve_cell_inv _ _ _ _ _ _ Hp1)
    as (b1 & b2 & b3 & _ & _ & Hj1 & _).
  apply np_index_of_neg in Hl0; [|lia].
  apply np_index_of_nonneg in Hj0 as [Hj0 _]; [|lia].
  apply np_index_of_nonneg in Hj1 as [Hj1 _]; [|lia].
  exists r0, r2, p0, a1, a2, a3, l. split_and!; try done.
  - lia.
  - rewrite Hout. apply elem_of_app. right.
    in_list.
  - rewrite Hc1; [done|]. intros ->. rewrite Hj0 in Hj1. discriminate.
Qed.

(** X9. The count printed after training, the counter of the saved model
    and the last entry of the saved call-count array are one number. *)
Theorem printed_nfe_is_last_recorded_count (args : Args) (env : Env) (o : Outcome) :
  run args env = Some o ->
  exists n na m,
    PNFE n ∈ out_stdout o
    /\ lookup_file o (filename args +:+ "nfe_arr.npy") = Some (NpyArray na)
    /\ na !! (Z.to_nat (niters args) - 1)%nat = Some (inject_Z n)
    /\ lookup_file o (filename args +:+ "model.pth") = Some (TorchModel m)
    /\ ODEBlock_nfe m = n.
Proof.
  intros Hr.
  apply run_inv in Hr
    as (s & zN & g & r0 & last & pred & l & r1 & z0' & zN' & ids' & g' & pred' & m' & l' & r2
        & Ht & Hr0 & Hlast & Hp & Hm & H1 & Hd' & Htp & Hm' & H2 & Hdir & Hfiles & Hout).
  destruct (lookup_saved _ _ _ _ _ _ _ _ (filename_cases args) Hfiles)
    as (_ & Hfn & _ & _ & Hfm & _).
  apply train_inv in Ht as (z0 & ids & s0 & Hd & Hi & Hl).
  apply initial_state_inv in Hi as (Hn & _ & _ & _ & Hitr0 & _).
  rewrite training_loop_state_after in Hl.
  destruct (Z.to_nat (niters args)) as [|k] eqn:Ek.
  { rewrite state_after_0 in Hl. simplify_eq; congruence. }
  apply state_after_S_inv in Hl as (sp & Hsp & Hit).
  apply train_iteration_inv in Hit
    as (pr & lo & m & op & gr & ji & jl & jn & jt & _ & _ & _ & Hjn & _ & ->).
  apply slot_resolves in Hjn as [-> Hlt].
  cbn [model nfe_arr] in *.
  eexists (ODEBlock_nfe m), _, m. split_and!; try done.
  - rewrite Hout. apply elem_of_app. right.
    in_list.
  - replace (S k - 1)%nat with k by lia. by apply list_lookup_insert_eq.
Qed.

End RunExtras.

(** ** The transcript and the timing of a run *)

Section Transcript.
Context `{Torch}.

Lemma state_after_stdout (args : Args) (z0 zN : Tensor Q) (s s' : TrainState) (k : nat) :
  state_after args z0 zN s k = Some s' ->
  stdout s' = stdout s ++ imap (fun i l => PIter (Z.of_nat (S i)) l) (take k (loss_arr s')).
Proof.
  revert s'. induction k as [|k IH]; intros s' Hs.
  - rewrite state_after_0 in Hs. simplify_eq. by rewrite take_0, app_nil_r.
  - apply state_after_S_inv in Hs as (sk & Hsk & Hit).
    apply state_after_shape in Hsk as Hsh. destruct Hsh as (_ & Ll & _).
    apply train_iteration_inv in Hit
      as (pred & l & m & o & g & ji & jl & jn & jt & _ & _ & Hjl & _ & _ & ->).
    apply slot_resolves in Hjl as [-> Hlt].
    cbn [stdout loss_arr].
    erewrite take_S_r by (by apply list_lookup_insert_eq).
    rewrite take_insert_ge by lia.
    rewrite imap_app, (IH _ Hsk), <- app_assoc. do 2 f_equal.
    cbn [imap]. rewrite length_take_le by lia. by rewrite Nat.add_0_r.
Qed.

(** X10. The output of a completed run is, in this order and with nothing
    else: one line per iteration, with the iteration number and the entry of
    the saved loss array for it; the blank line of line 146;
    [Training complete after niters iters.]; the time; the training loss;
    the count; the number of parameters of the saved model; the test
    loss. *)
Theorem transcript_of_a_run (args : Args) (env : Env) (o : Outcome) :
  run args env = Some o ->
  exists la m t l n l',
    lookup_file o (filename args +:+ "loss_arr.npy") = Some (NpyArray la)
    /\ lookup_file o (filename args +:+ "model.pth") = Some (TorchModel m)
    /\ length la = Z.to_nat (niters args)
    /\ out_stdout o
       = imap (fun i x => PIter (Z.of_nat (S i)) x) la
         ++ [PBlank; PTrainingComplete (niters args); PTime t; PTrainMSE l; PNFE n;
             PParameters (count_parameters m); PTestMSE l'].
Proof.
  intros Hr.
  apply run_inv in Hr
    as (s & zN & g & r0 & last & pred & l & r1 & z0' & zN' & ids' & g' & pred' & m' & l' & r2
        & Ht & Hr0 & Hlast & Hp & Hm & H1 & Hd' & Htp & Hm' & H2 & Hdir & Hfiles & Hout).
  destruct (lookup_saved _ _ _ _ _ _ _ _ (filename_cases args) Hfiles)
    as (_ & _ & Hfl & _ & Hfm & _).
  apply train_inv in Ht as (z0 & ids & s0 & Hd & Hi & Hl).
  apply initial_state_inv in Hi as (Hn & _ & _ & _ & Hitr0 & Hso0 & _ & Ll0 & _).
  rewrite training_loop_state_after in Hl.
  apply state_after_shape in Hl as Hsh.
  destruct Hsh as (_ & Ll & _ & _ & _ & _ & _ & _ & _ & Hitr).
  apply state_after_stdout in Hl as Hso.
  rewrite Hso0, take_ge in Hso by lia. cbn [app] in Hso.
  assert (last = niters args) as ->.
  { destruct (decide (0 < Z.to_nat (niters args))%nat) as [Hpos|Hz].
    - rewrite (Hitr Hpos) in Hlast. simplify_eq. lia.
    - assert (Z.to_nat (niters args) = 0%nat) as E0 by lia.
      rewrite E0, state_after_0 in Hl. simplify_eq; congruence. }
  eexists _, _, _, _, _, _. split_and!; [exact Hfl | exact Hfm | lia |].
  by rewrite Hout, Hso.
Qed.

End Transcript.

Lemma clock_monotone (c : nat -> Q) (i j : nat) :
  (forall k, (c k <= c (S k))%Q) -> (i <= j)%nat -> (c i <= c j)%Q.
Proof.
  intros Hc Hij. induction Hij as [|j _ IH]; [apply Qle_refl|].
  eapply Qle_trans; [exact IH | apply Hc].
Qed.

Lemma durations_sum (c : nat -> Q) (b n : nat) :
  (forall k, (c k <= c (S k))%Q) ->
  (Qsum ((fun i => c (1 + 2 * i + 1)%nat - c (1 + 2 * i)%nat)%Q <$> seq b n)
   <= c (1 + 2 * (b + n))%nat - c (1 + 2 * b)%nat)%Q.
Proof.
  intros Hc. revert b. induction n as [|n IH]; intros b.
  - cbn [seq fmap list_fmap Qsum foldr]. replace (b + 0)%nat with b by lia. lra.
  - cbn [seq fmap list_fmap Qsum foldr].
    specialize (IH (S b)). unfold Qsum in IH.
    replace (S b + n)%nat with (b + S n)%nat in IH by lia.
    pose proof (Hc (1 + 2 * b + 1)%nat) as H1.
    replace (S (1 + 2 * b + 1)) with (1 + 2 * S b)%nat in H1 by lia.
    lra.
Qed.

Section Timing.
Context `{Torch}.

(** X11. Under a clock that never runs backwards every saved duration is
    non-negative and the durations add up to at most the total time that
    the run prints. *)
Theorem durations_under_a_monotone_clock (args : Args) (env : Env) (o : Outcome) :
  (forall k, (env_clock env k <= env_clock env (S k))%Q) ->
  run args env = Some o ->
  exists ta total,
    lookup_file o (filename args +:+ "time_arr.npy") = Some (NpyArray ta)
    /\ PTime total ∈ out_stdout o
    /\ Forall (fun d => (0 <= d)%Q) ta
    /\ (Qsum ta <= total)%Q.
Proof.
  intros Hc Hr.
  apply run_inv in Hr
    as (s & zN & g & r0 & last & pred & l & r1 & z0' & zN' & ids' & g' & pred' & m' & l' & r2
        & Ht & Hr0 & Hlast & Hp & Hm & H1 & Hd' & Htp & Hm' & H2 & Hdir & Hfiles & Hout).
  destruct (lookup_saved _ _ _ _ _ _ _ _ (filename_cases args) Hfiles)
    as (_ & _ & _ & Hft & _).
  apply train_inv in Ht as (z0 & ids & s0 & Hd & Hi & Hl).
  apply initial_state_inv in Hi as (Hn & _ & _ & Hc0 & _ & _ & _ & _ & _ & Lt0).
  rewrite training_loop_state_after in Hl.
  apply state_after_shape in Hl as (_ & _ & _ & Lt & _ & Hcl & _ & Htt & _).
  rewrite take_ge in Htt by lia. rewrite Hc0 in Htt, Hcl. cbn [readings ticks] in Htt, Hcl.
  eexists _, _. split_and!; [done | | |].
  - rewrite Hout. apply elem_of_app. right.
    in_list.
  - rewrite Htt. apply Forall_fmap, Forall_forall. intros i _.
    unfold compose. cbn beta.
    pose proof (Hc (1 + 2 * i)%nat) as Hi.
    replace (S (1 + 2 * i)) with (1 + 2 * i + 1)%nat in Hi by lia. lra.
  - rewrite Htt, Hcl. cbn [readings ticks].
    pose proof (durations_sum (env_clock env) 0 (Z.to_nat (niters args)) Hc) as Hs.
    pose proof (clock_monotone (env_clock env) 0 1 Hc ltac:(lia)) as H01.
    rewrite Nat.add_0_l in Hs.
    change (1 + 2 * 0)%nat with 1%nat in Hs. lra.
Qed.

End Timing.

Section Bookkeeping.
Context `{Torch}.

Lemma train_iteration_progress (args : Args) (z0 zN : Tensor Q) (s : TrainState) (k : nat)
      (r : Tensor Q * Q * ODEBlock * OptState * Params) :
  (k < length (itr_arr s))%nat -> (k < length (loss_arr s))%nat ->
  (k < length (nfe_arr s))%nat -> (k < length (time_arr s))%nat ->
  gradient_step args z0 zN (ODEBlock_set_nfe (model s) 0) (optimizer s) None = Some r ->
  is_Some (train_iteration args z0 zN s (Z.of_nat (S k))).
Proof.
  intros Li Ll Ln Lt Hg. unfold train_iteration, begin_iteration, time_time.
  cbn [model optimizer grads clock itr_arr loss_arr nfe_arr time_arr stdout].
  rewrite Hg. destruct r as [[[[pred l] m] o] g]. cbn [mbind option_bind].
  unfold np_setitem, slot.
  rewrite !np_index_nonneg by lia. cbn [mbind option_bind]. eauto.
Qed.

(** X12. Within the [niters] iterations the loop goes on exactly when the
    forward pass, the loss, the backward pass and the optimiser step go
    through: writing the four arrays never raises. *)
Theorem loop_stops_only_on_pipeline_errors
    (args : Args) (env : Env) (ids : Tensor nat) (z0 zN : Tensor Q)
    (s0 sk : TrainState) (k : nat) :
  initial_state args env ids = Some s0 ->
  state_after args z0 zN s0 k = Some sk ->
  (k < Z.to_nat (niters args))%nat ->
  is_Some (state_after args z0 zN s0 (S k))
  <-> is_Some (gradient_step args z0 zN (ODEBlock_set_nfe (model sk) 0)
                             (optimizer sk) None).
Proof.
  intros Hi Hsk Hk.
  apply initial_state_inv in Hi as (_ & _ & _ & _ & _ & _ & Li & Ll & Ln & Lt).
  apply state_after_shape in Hsk as Hsh.
  destruct Hsh as (Li' & Ll' & Ln' & Lt' & _).
  rewrite state_after_S, Hsk. cbn [mbind option_bind].
  split.
  - intros [s' Hs']. apply train_iteration_inv in Hs'
      as (pred & l & m & o & g & _ & _ & _ & _ & Hg & _). rewrite Hg. eauto.
  - intros [r Hr]. eapply train_iteration_progress; [lia | lia | lia | lia | done].
Qed.

End Bookkeeping.

(** ** When a run completes *)

Lemma MSELoss_is_Some (p t : Tensor Q) :
  ncols p = ncols t -> nrows p = nrows t -> exists l, MSELoss p t = Some l.
Proof. intros Hc Hr. unfold MSELoss. rewrite decide_True by done. eauto. Qed.

Lemma results_setitem_is_Some (r : Results) (a s d e : Z) (v : Q)
      (p : nat * nat * nat * nat) :
  resolve_cell r a s d e = Some p -> exists r', results_setitem r a s d e v = Some r'.
Proof.
  unfold resolve_cell, results_setitem. intros Hp.
  destruct (np_index (length r) a) as [i|]; simplify_eq/=.
  destruct (r !! i) as [r1|]; simplify_eq/=.
  destruct (np_index (length r1) s) as [j|]; simplify_eq/=.
  destruct (r1 !! j) as [r2|]; simplify_eq/=.
  destruct (np_index (length r2) d) as [k|]; simplify_eq/=.
  destruct (r2 !! k) as [r3|]; simplify_eq/=.
  destruct (np_index (length r3) e) as [l|]; simplify_eq/=.
  eauto.
Qed.

Section Completion.
Context `{Torch}.

Lemma initial_state_is_Some (args : Args) (env : Env) (ids : Tensor nat) :
  (0 <= lr args)%Q -> 0 <= niters args ->
  exists s0, initial_state args env ids = Some s0.
Proof.
  intros Hlr Hn. unfold initial_state, optim_Adam, np_empty, time_time.
  apply Qle_bool_iff in Hlr. rewrite Hlr. cbn [mbind option_bind].
  rewrite !decide_False by lia. cbn [mbind option_bind]. eauto.
Qed.

Lemma run_script_layers {A} (s : Script A) (f : ODEfunc) (a : A) (f' : ODEfunc) :
  run_script s f = Some (a, f') -> parameters f' = parameters f.
Proof. intros Hr. apply run_script_counts in Hr. by rewrite Hr. Qed.

(** The forward pass of the block goes through when the collaborators
    conform. *)
Lemma ODEBlock_forward_conforming
      (args : Args) (z0 : Tensor Q) (m : ODEBlock) (dim nhidden n d : nat) (a b : Q) :
  conforming ->
  (0 < tol args)%Q ->
  ODEfunc_wf (odefunc m) dim nhidden ->
  integration_times m = [a; b] -> (a < b)%Q ->
  indices m = selector n d ->
  ncols z0 = dim -> nrows z0 = n -> rectangular z0 ->
  (0 < dim)%nat -> (0 < n)%nat -> (d <= dim)%nat ->
  exists out m', ODEBlock_forward args m z0 = Some (out, m').
Proof.
  intros (_ & _ & Hsol & _) Htol Hwf Ht Hab Hi Hc Hr Hrect Hdim Hn Hd.
  destruct (Hsol (adjoint args) (odefunc m) dim nhidden z0 a b (tol args) (tol args)
                 Hwf Hc Hrect Hdim ltac:(lia) Hab Htol Htol)
    as (traj & f1 & y & Hrun & Hy & Hyc & Hyr & Hyrect).
  assert (gather1 y (selector n d)
          = Some (mkTensor d (take d <$> take n (rows y)))) as Hg
    by (apply gather1_first_columns; [done | lia | lia]).
  unfold ODEBlock_forward, odeint. rewrite Ht, Hi. cbn [default from_option id].
  rewrite Hrun. cbn [mbind option_bind]. rewrite Hy. cbn [mbind option_bind].
  rewrite Hg. cbn [mbind option_bind]. eauto.
Qed.

(** One gradient step goes through when the collaborators conform. *)
Lemma gradient_step_conforming
      (args : Args) (z0 zN : Tensor Q) (m : ODEBlock) (opt : OptState)
      (dim nhidden n d : nat) (a b : Q) :
  conforming ->
  (0 < tol args)%Q ->
  ODEfunc_wf (odefunc m) dim nhidden ->
  integration_times m = [a; b] -> (a < b)%Q ->
  indices m = selector n d ->
  ncols z0 = dim -> nrows z0 = n -> rectangular z0 ->
  (0 < dim)%nat -> (0 < n)%nat ->
  (d <= dim)%nat -> ncols zN = d -> nrows zN = n ->
  exists pred l m' o g,
    gradient_step args z0 zN m opt None = Some (pred, l, m', o, g)
    /\ ODEfunc_wf (odefunc m') dim nhidden
    /\ integration_times m' = [a; b]
    /\ indices m' = selector n d
    /\ MSELoss pred zN = Some l.
Proof.
  intros (_ & _ & Hsol & Hbw & Hst) Htol Hwf Ht Hab Hi Hc Hr Hrect Hdim Hn Hd HcN HrN.
  destruct (Hsol (adjoint args) (odefunc m) dim nhidden z0 a b (tol args) (tol args)
                 Hwf Hc Hrect Hdim ltac:(lia) Hab Htol Htol)
    as (traj & f1 & y & Hrun & Hy & Hyc & Hyr & Hyrect).
  assert (gather1 y (selector n d)
          = Some (mkTensor d (take d <$> take n (rows y)))) as Hg
    by (apply gather1_first_columns; [done | lia | lia]).
  destruct (MSELoss_is_Some (mkTensor d (take d <$> take n (rows y))) zN) as [l Hl].
  { by rewrite HcN. }
  { unfold nrows in *. cbn [rows]. rewrite length_fmap, length_take_le; lia. }
  pose proof (ODEfunc_wf_layers _ _ _ _ (run_script_layers _ _ _ _ Hrun) Hwf) as Hwf1.
  destruct (Hbw (adjoint args) f1 dim nhidden z0 a b (tol args) d zN
                Hwf1 Hc Hrect Hdim ltac:(lia) Hab Htol Hd HcN ltac:(lia))
    as (g0 & f2 & Hrun2 & Hg0).
  rewrite Hr in Hrun2.
  pose proof (ODEfunc_wf_layers _ _ _ _ (run_script_layers _ _ _ _ Hrun2) Hwf1) as Hwf2.
  unfold gradient_step, ODEBlock_forward, odeint. rewrite Ht, Hi. cbn [default from_option id].
  rewrite Hrun. cbn [mbind option_bind]. rewrite Hy. cbn [mbind option_bind].
  rewrite Hg. cbn [mbind option_bind]. rewrite Hl. cbn [mbind option_bind].
  cbn [odefunc integration_times indices]. rewrite Hrun2. cbn [mbind option_bind accumulate].
  destruct (Adam_step opt (parameters f2) (Some g0)) as [p o] eqn:Ha.
  eexists _, _, _, _, _. split; [done|]. cbn [odefunc integration_times indices].
  split_and!; try done.
  pose proof (Hst opt (parameters f2) g0 dim nhidden) as Hp. rewrite Ha in Hp.
  eapply ODEfunc_wf_layers; [|apply Hp; [|exact Hg0]].
  - done.
  - eapply ODEfunc_wf_layers; [|exact Hwf2]. done.
Qed.

(** The loop goes through, keeping the shape of the model. *)
Lemma training_conforming
      (args : Args) (z0 zN : Tensor Q) (s0 : TrainState)
      (dim nhidden n d : nat) (a b : Q) (k : nat) :
  conforming ->
  (0 < tol args)%Q ->
  ODEfunc_wf (odefunc (model s0)) dim nhidden ->
  integration_times (model s0) = [a; b] -> (a < b)%Q ->
  indices (model s0) = selector n d ->
  ncols z0 = dim -> nrows z0 = n -> rectangular z0 ->
  (0 < dim)%nat -> (0 < n)%nat ->
  (d <= dim)%nat -> ncols zN = d -> nrows zN = n ->
  (k <= length (itr_arr s0))%nat -> (k <= length (loss_arr s0))%nat ->
  (k <= length (nfe_arr s0))%nat -> (k <= length (time_arr s0))%nat ->
  exists sk,
    state_after args z0 zN s0 k = Some sk
    /\ ODEfunc_wf (odefunc (model sk)) dim nhidden
    /\ integration_times (model sk) = [a; b]
    /\ indices (model sk) = selector n d
    /\ (0 < k -> exists pred l, pred_z sk = Some pred /\ MSELoss pred zN = Some l)%nat.
Proof.
  intros Hconf Htol Hwf Ht Hab Hi Hc Hr Hrect Hdim Hn Hd HcN HrN.
  induction k as [|k IH]; intros Li Ll Ln Lt.
  - exists s0. rewrite state_after_0. split_and!; try done. lia.
  - destruct IH as (sk & Hsk & Hwfk & Htk & Hik & _); [lia..|].
    destruct (state_after_shape _ _ _ _ _ _ Hsk) as (Li' & Ll' & Ln' & Lt' & _).
    destruct (gradient_step_conforming args z0 zN (ODEBlock_set_nfe (model sk) 0)
                (optimizer sk) dim nhidden n d a b Hconf Htol)
      as (pred & l & m' & o & g & Hg & Hwf' & Ht' & Hi' & Hl); try done.
    destruct (train_iteration_progress args z0 zN sk k (pred, l, m', o, g)) as [s' Hs'];
      [lia | lia | lia | lia | exact Hg |].
    exists s'. rewrite state_after_S, Hsk. cbn [mbind option_bind].
    split; [done|].
    apply train_iteration_inv in Hs'
      as (pred1 & l1 & m1 & o1 & g1 & ? & ? & ? & ? & Hg1 & _ & _ & _ & _ & ->).
    rewrite Hg in Hg1. simplify_eq. cbn [model pred_z].
    split_and!; try done. intros _. eauto.
Qed.

(** With CUDA available the script raises: line 97 concatenates a tensor
    on the GPU with one on the CPU. *)
Lemma run_with_cuda_raises (args : Args) (env : Env) :
  env_cuda env = true -> run args env = None.
Proof.
  intros Hc. unfold run, train. rewrite Hc. cbn [torch_device].
  destruct (train_data _ _) as [[[[z0 zN] ids] g]|]; reflexivity.
Qed.

(** A negative learning rate is refused when the optimiser is built. *)
Lemma run_with_negative_lr_raises (args : Args) (env : Env) :
  (lr args < 0)%Q -> run args env = None.
Proof.
  intros Hlr.
  assert (forall ids, initial_state args env ids = None) as Hi.
  { intros ids. unfold initial_state, optim_Adam.
    destruct (Qle_bool 0 (lr args)) eqn:E; [|reflexivity].
    apply Qle_bool_iff in E. lra. }
  unfold run, train.
  destruct (train_data _ _) as [[[[z0 zN] ids] g]|]; [|reflexivity].
  cbn [mbind option_bind].
  destruct (same_device _ _) as [[]|]; [|reflexivity].
  cbn [mbind option_bind]. rewrite Hi. reflexivity.
Qed.

(** X7. On a machine without CUDA and with collaborators that respect the
    shapes, every configuration with a positive tolerance, a learning rate
    that is not negative, [niters >= 1], at least one training and one test
    sample, [data_dimension >= 1], [extra_dim >= 0] and a results array that
    has the two cells runs to completion. (With CUDA the script mixes
    tensors of two devices and raises; a negative learning rate is refused
    by the optimiser.) *)
Theorem run_completes (args : Args) (env : Env) (r0 : Results)
        (p0 p1 : nat * nat * nat * nat) :
  conforming ->
  env_cuda env = false ->
  (0 < tol args)%Q ->
  (0 <= lr args)%Q ->
  1 <= niters args ->
  1 <= ntrain args -> 1 <= ntest args ->
  1 <= data_dimension args -> 0 <= extra_dim args ->
  env_results env = Some r0 ->
  resolve_cell r0 (first_index args) 0
               (data_dimension args - 1) (experiment_no args - 1) = Some p0 ->
  resolve_cell r0 (first_index args) 1
               (data_dimension args - 1) (experiment_no args - 1) = Some p1 ->
  exists o, run args env = Some o.
Proof.
  intros Hconf Hcpu Htol Hlr Hn Htr Hte HD HE Hr0 Hp0 Hp1.
  assert (inject_Z 0 < inject_Z 1)%Q as H01 by (unfold Qlt; simpl; lia).
  set (d := Z.to_nat (data_dimension args)).
  set (e := Z.to_nat (extra_dim args)).
  set (dim := Z.to_nat (data_dimension args + extra_dim args)).
  assert (dim = d + e)%nat as Hdim by (unfold dim, d, e; lia).
  (* the training data *)
  set (g0 := mkNpRandom (env_np env) 0).
  assert (train_data args g0
          = Some (zero_padded (drawn_batch g0 (Z.to_nat (ntrain args)) d) e,
                  tmap (fun x => x * scale_factor args)%Q
                       (drawn_batch g0 (Z.to_nat (ntrain args)) d),
                  selector (Z.to_nat (ntrain args)) d,
                  advance g0 (Z.to_nat (ntrain args) * d))) as Hdata
    by (unfold train_data; apply make_data_closed_form; lia).
  destruct (drawn_batch_shape g0 (Z.to_nat (ntrain args)) d) as (Rc & Rr & Rrect).
  (* the training *)
  destruct (initial_state_is_Some args env (selector (Z.to_nat (ntrain args)) d))
    as [s0 Hs0]; [done | lia |].
  apply initial_state_inv in Hs0 as Hi0.
  destruct Hi0 as (_ & Hm0 & _ & _ & _ & _ & Li & Ll & Lf & Lt).
  destruct (training_conforming args
              (zero_padded (drawn_batch g0 (Z.to_nat (ntrain args)) d) e)
              (tmap (fun x => x * scale_factor args)%Q
                    (drawn_batch g0 (Z.to_nat (ntrain args)) d))
              s0 dim 20%nat (Z.to_nat (ntrain args)) d (inject_Z 0) (inject_Z 1)
              (Z.to_nat (niters args)) Hconf Htol)
    as (s & Hs & Hwf & Hts & His & Hpred); try lia.
  { rewrite Hm0. apply ODEfunc_init_wf. }
  { by rewrite Hm0. }
  { exact H01. }
  { by rewrite Hm0. }
  { unfold zero_padded. cbn [ncols]. lia. }
  { unfold zero_padded, nrows in *. cbn [rows]. by rewrite length_fmap. }
  { by apply zero_padded_rectangular. }
  { by destruct (tmap_shape (fun x => x * scale_factor args)%Q
                   (drawn_batch g0 (Z.to_nat (ntrain args)) d)) as (-> & _). }
  { by destruct (tmap_shape (fun x => x * scale_factor args)%Q
                   (drawn_batch g0 (Z.to_nat (ntrain args)) d)) as (_ & -> & _). }
  destruct Hpred as (pred & l & Hpz & Hl); [lia|].
  destruct (state_after_shape _ _ _ _ _ _ Hs) as (_ & _ & _ & _ & _ & _ & _ & _ & _ & Hitr).
  (* the results array *)
  destruct (results_setitem_is_Some _ _ _ _ _ l _ Hp0) as [r1 H1].
  destruct (results_setitem_resolve _ _ _ _ _ _ _ H1) as (_ & _ & _ & _ & Hsh).
  rewrite <- Hsh in Hp1.
  (* the test data *)
  set (g1 := advance g0 (Z.to_nat (ntrain args) * d)).
  assert (test_data args g1
          = Some (zero_padded (drawn_batch g1 (Z.to_nat (ntest args)) d) e,
                  tmap (fun x => x * scale_factor args)%Q
                       (drawn_batch g1 (Z.to_nat (ntest args)) d),
                  selector (Z.to_nat (ntest args)) d,
                  advance g1 (Z.to_nat (ntest args) * d))) as Hdata'
    by (unfold test_data; apply make_data_closed_form; lia).
  destruct (drawn_batch_shape g1 (Z.to_nat (ntest args)) d) as (Tc & Tr & Trect).
  (* the test prediction *)
  destruct Hconf as (Hrtol & Hatol & Hsol & _).
  destruct (Hsol (adjoint args) (odefunc (model s)) dim 20%nat
                 (zero_padded (drawn_batch g1 (Z.to_nat (ntest args)) d) e)
                 (inject_Z 0) (inject_Z 1) default_rtol default_atol Hwf)
    as (traj & f1 & y & Hrun & Hy & Hyc & Hyr & Hyrect);
    [| | lia | | exact H01 | exact Hrtol | exact Hatol |].
  { unfold zero_padded. cbn [ncols]. lia. }
  { by apply zero_padded_rectangular. }
  { unfold zero_padded, nrows in *. cbn [rows]. rewrite length_fmap. lia. }
  assert (nrows y = Z.to_nat (ntest args)) as Hyr'.
  { rewrite Hyr. unfold zero_padded, nrows in *. cbn [rows]. by rewrite length_fmap. }
  assert (gather1 y (selector (Z.to_nat (ntest args)) d)
          = Some (mkTensor d (take d <$> take (Z.to_nat (ntest args)) (rows y)))) as Hg
    by (apply gather1_first_columns; [done | lia | lia]).
  destruct (MSELoss_is_Some (mkTensor d (take d <$> take (Z.to_nat (ntest args)) (rows y)))
              (tmap (fun x => x * scale_factor args)%Q
                    (drawn_batch g1 (Z.to_nat (ntest args)) d))) as [l' Hl'].
  { by destruct (tmap_shape (fun x => x * scale_factor args)%Q
                   (drawn_batch g1 (Z.to_nat (ntest args)) d)) as (-> & _). }
  { destruct (tmap_shape (fun x => x * scale_factor args)%Q
                (drawn_batch g1 (Z.to_nat (ntest args)) d)) as (_ & -> & _).
    unfold nrows in *. cbn [rows]. rewrite length_fmap, length_take_le; lia. }
  destruct (results_setitem_is_Some _ _ _ _ _ l' _ Hp1) as [r2 H2].
  (* the script *)
  unfold run, train. fold g0. rewrite Hdata. cbn [mbind option_bind].
  rewrite Hcpu. cbn [torch_device same_device mbind option_bind].
  rewrite Hs0. cbn [mbind option_bind].
  rewrite training_loop_state_after, Hs. cbn [mbind option_bind].
  unfold time_time. rewrite Hr0. cbn [mbind option_bind].
  rewrite Hitr by lia. cbn [mbind option_bind].
  rewrite Hpz. cbn [mbind option_bind]. rewrite Hl. cbn [mbind option_bind].
  rewrite H1. cbn [mbind option_bind].
  fold g1. rewrite Hdata'. cbn [mbind option_bind].
  unfold test_prediction, odeint. cbn [default from_option id].
  rewrite Hrun. cbn [mbind option_bind]. rewrite Hy. cbn [mbind option_bind].
  rewrite Hg. cbn [mbind option_bind]. rewrite Hl'. cbn [mbind option_bind].
  rewrite H2. cbn [mbind option_bind]. eauto.
Qed.

End Completion.

(** ** The widths of the state and of the prediction *)

Section ShapeClaims.
Context `{Torch}.

(** C3. For [extra_dim >= 0] and [data_dimension >= 1] the training batch
    handed to the integrator, and through it to the vector field, has width
    [data_dimension + extra_dim]; the vector field is built for that width
    and accepts no other; whatever [ODEBlock.forward] returns on that batch
    has width [data_dimension], one row per sample; and [ODEBlock.forward]
    does return such a prediction, on every model of the layer sizes of line
    107, when the collaborators respect the shapes, the tolerance is
    positive and there is a sample. *)
Theorem widths_of_state_and_prediction (args : Args) (g : NpRandom) :
  0 <= extra_dim args ->
  1 <= data_dimension args ->
  0 <= ntrain args ->
  exists z0 zN ids g',
    train_data args g = Some (z0, zN, ids, g')
    /\ Z.of_nat (ncols z0) = data_dimension args + extra_dim args
    /\ Z.of_nat (nrows z0) = ntrain args
    /\ rectangular z0
    /\ (forall gen,
          let f := ODEfunc_init gen (Z.to_nat (data_dimension args + extra_dim args)) 20 in
          ODEfunc_wf f (ncols z0) 20
          /\ in_features (fc1 f) = ncols z0 /\ out_features (fc3 f) = ncols z0)
    /\ (forall f t x out f',
          in_features (fc1 f) = ncols z0 ->
          ODEfunc_forward f t x = Some (out, f') -> ncols x = ncols z0)
    /\ (forall b out b',
          indices b = ids ->
          ODEBlock_forward args b z0 = Some (out, b') ->
          Z.of_nat (ncols out) = data_dimension args
          /\ Z.of_nat (nrows out) = ntrain args
          /\ rectangular out
          /\ Forall (fun x => ncols x = in_features (fc1 (odefunc b)))
                    (call_args (odeint (adjoint args) z0 (integration_times b)
                                       (Some (tol args)) (Some (tol args)))
                               (odefunc b)))
    /\ (conforming -> (0 < tol args)%Q -> 1 <= ntrain args ->
        forall b nhidden t0 tN,
          ODEfunc_wf (odefunc b) (ncols z0) nhidden ->
          integration_times b = [t0; tN] -> (t0 < tN)%Q ->
          indices b = ids ->
          exists out b',
            ODEBlock_forward args b z0 = Some (out, b')
            /\ Z.of_nat (ncols out) = data_dimension args
            /\ Z.of_nat (nrows out) = ntrain args
            /\ rectangular out).
Proof.
  intros He Hd Hn.
  eexists _, _, _, _. split.
  { unfold train_data. apply make_data_closed_form; lia. }
  destruct (drawn_batch_shape g (Z.to_nat (ntrain args)) (Z.to_nat (data_dimension args)))
    as (Hc & Hr & Hrect).
  set (z0 := zero_padded (drawn_batch g (Z.to_nat (ntrain args))
                                      (Z.to_nat (data_dimension args)))
                         (Z.to_nat (extra_dim args))).
  set (ids := selector (Z.to_nat (ntrain args)) (Z.to_nat (data_dimension args))).
  assert (ncols z0 = Z.to_nat (data_dimension args + extra_dim args)) as Hw.
  { unfold z0, zero_padded. cbn [ncols]. rewrite Hc. lia. }
  assert (nrows z0 = Z.to_nat (ntrain args)) as Hh.
  { unfold z0, zero_padded, nrows in *. cbn [rows]. by rewrite length_fmap. }
  assert (rectangular z0) as Hz by (by apply zero_padded_rectangular).
  assert (forall b out b',
            indices b = ids ->
            ODEBlock_forward args b z0 = Some (out, b') ->
            Z.of_nat (ncols out) = data_dimension args
            /\ Z.of_nat (nrows out) = ntrain args
            /\ rectangular out
            /\ Forall (fun x => ncols x = in_features (fc1 (odefunc b)))
                      (call_args (odeint (adjoint args) z0 (integration_times b)
                                         (Some (tol args)) (Some (tol args)))
                                 (odefunc b))) as Hshape.
  { intros b out b' Hids Hf.
    apply ODEBlock_forward_inv in Hf as (traj & f & y & Hrun & _ & Hg & _).
    apply gather1_shape in Hg as (Hoc & Hor & Hrec). rewrite Hids in *.
    unfold ids, selector, nrows in *. cbn [ncols rows] in *.
    rewrite length_replicate in Hor.
    split_and!; [lia | lia | |].
    + apply Hrec. unfold rectangular. cbn [rows ncols].
      apply Forall_forall. intros r Hr'. apply elem_of_replicate in Hr' as [-> _].
      by rewrite length_seq.
    + by apply run_script_widths in Hrun. }
  split_and!.
  - lia.
  - lia.
  - exact Hz.
  - intros gen. cbn zeta. rewrite Hw. split; [apply ODEfunc_init_wf|].
    destruct (ODEfunc_init_wf gen (Z.to_nat (data_dimension args + extra_dim args)) 20)
      as (_ & _ & _ & H1 & _ & _ & _ & _ & H3).
    done.
  - intros f t x out f' Hin Hf. apply ODEfunc_forward_inv in Hf as (_ & Hx & _). congruence.
  - exact Hshape.
  - intros Hconf Htol Hn1 b nhidden t0 tN Hwf Ht Hlt Hids.
    destruct (ODEBlock_forward_conforming args z0 b (ncols z0) nhidden
                (Z.to_nat (ntrain args)) (Z.to_nat (data_dimension args)) t0 tN
                Hconf Htol Hwf Ht Hlt Hids eq_refl Hh Hz)
      as (out & b' & Hf); [lia | lia | lia |].
    exists out, b'. split; [exact Hf|].
    destruct (Hshape b out b' Hids Hf) as (H1 & H2 & H3 & _). done.
Qed.

End ShapeClaims.

(** ** The concrete collaborators conform *)

Lemma zip_with_rows_length {A} (f : A -> A -> A) (a b : list (list A)) (n : nat) :
  Forall (fun r => length r = n) a -> Forall (fun r => length r = n) b ->
  Forall (fun r => length r = n) (zip_with (zip_with f) a b).
Proof.
  intros Ha Hb. apply Forall_forall. intros r Hr.
  apply list_elem_of_lookup in Hr as [i Hi].
  apply lookup_zip_with_Some in Hi as (x & y & -> & Hx & Hy).
  rewrite length_zip_with.
  rewrite (Forall_lookup_1 _ _ _ _ Ha Hx), (Forall_lookup_1 _ _ _ _ Hb Hy). lia.
Qed.

Lemma euler_step_shape (h : Q) (y k : Tensor Q) :
  ncols k = ncols y -> nrows k = nrows y -> rectangular y -> rectangular k ->
  ncols (euler_step h y k) = ncols y
  /\ nrows (euler_step h y k) = nrows y
  /\ rectangular (euler_step h y k).
Proof.
  unfold euler_step, tzip, nrows, rectangular. cbn [ncols rows].
  intros Hc Hr Hy Hk. rewrite length_zip_with. split_and!; [done | lia |].
  apply zip_with_rows_length; [done | by rewrite <- Hc].
Qed.

Lemma Linear_descend_wf (rate : Q) (p g : Linear) :
  Linear_wf p -> Linear_wf g ->
  in_features g = in_features p -> out_features g = out_features p ->
  Linear_wf (Linear_descend rate p g).
Proof.
  intros (Pw & Pb & Pr) (Gw & Gb & Gr) Hi Ho.
  unfold Linear_wf, Linear_descend. cbn [weight bias in_features out_features].
  rewrite !length_zip_with. split_and!; [lia | lia |].
  apply zip_with_rows_length; [done | by rewrite <- Hi].
Qed.

Lemma toy_conforming : @conforming toy_torch.
Proof.
  split_and!.
  - done.
  - done.
  - intros adj f dim nhidden y0 t0 tN rtol atol Hwf Hc Hrect _ _ _ _ _.
    assert (exists traj f' y,
               run_script (toy_odeint y0 [t0; tN] rtol atol) f = Some (traj, f')
               /\ traj !! 1%nat = Some y
               /\ ncols y = dim /\ nrows y = nrows y0 /\ rectangular y) as Hgoal.
    { unfold toy_odeint.
      destruct (ODEfunc_forward_wf f dim nhidden t0 y0 Hwf Hc)
        as (k1 & Hk1 & Kc & Kr & Krect).
      destruct (Qle_bool (1 # 100000) rtol).
      - cbn [run_script]. rewrite Hk1.
        destruct (euler_step_shape (tN - t0) y0 k1) as (Ec & Er & Erect);
          [congruence | done | done | done |].
        eexists _, _, _. split_and!; [done | done | congruence | done | done].
      - cbn [run_script]. rewrite Hk1.
        destruct (euler_step_shape ((tN - t0) / 2) y0 k1) as (Ec & Er & Erect);
          [congruence | done | done | done |].
        set (y1 := euler_step ((tN - t0) / 2) y0 k1) in *.
        destruct (ODEfunc_forward_wf
                    (mkODEfunc (fc1 f) (fc2 f) (fc3 f) (nfe f + 1)) dim nhidden
                    (t0 + (tN - t0) / 2)%Q y1) as (k2 & Hk2 & K2c & K2r & K2rect);
          [by eapply ODEfunc_wf_layers | congruence |].
        rewrite Hk2.
        destruct (euler_step_shape ((tN - t0) / 2) y1 k2) as (E2c & E2r & E2rect);
          [congruence | done | done | done |].
        eexists _, _, _. split_and!; [done | done | congruence | congruence | done]. }
    destruct adj; exact Hgoal.
  - intros adj f dim nhidden z0 t0 tN tol d zN Hwf Hc Hrect _ _ _ _ _ _ _.
    change (backward adj (parameters f) z0 [t0; tN] tol (selector (nrows z0) d) zN)
      with (toy_backward adj (parameters f) z0 [t0; tN] tol (selector (nrows z0) d) zN).
    unfold toy_backward. destruct adj.
    + destruct (ODEfunc_forward_wf f dim nhidden 1 z0 Hwf Hc) as (k1 & Hk1 & _).
      cbn [run_script]. rewrite Hk1. eexists _, _. split; [done|].
      by eapply ODEfunc_wf_layers.
    + cbn [run_script]. eexists _, _. split; [done|].
      by eapply ODEfunc_wf_layers.
  - intros o p g dim nhidden Hp Hg.
    change (Adam_step o p (Some g)) with (toy_step o p (Some g)).
    unfold toy_step, Params_wf, ODEfunc_wf in *. cbn [fst snd fc1 fc2 fc3] in *.
    destruct Hp as (P1 & P2 & P3 & ? & ? & ? & ? & ? & ?).
    destruct Hg as (G1 & G2 & G3 & ? & ? & ? & ? & ? & ?).
    split_and!; try (apply Linear_descend_wf; [done | done | congruence | congruence]);
      done.
Qed.

(** ** The same on concrete inputs *)

(** The shapes on the concrete configuration: one data dimension, one extra
    dimension, two training samples; the forward pass of the model as line
    107 builds it returns a prediction of width one with two rows. *)
Lemma widths_of_state_and_prediction_witness :
  exists z0 zN ids g' out b',
    0 <= extra_dim toy_args
    /\ 1 <= data_dimension toy_args
    /\ 0 <= ntrain toy_args
    /\ train_data toy_args (mkNpRandom (env_np toy_env) 0) = Some (z0, zN, ids, g')
    /\ Z.of_nat (ncols z0) = data_dimension toy_args + extra_dim toy_args
    /\ rectangular z0
    /\ ODEBlock_forward toy_args
         (ODEBlock_init
            (ODEfunc_init (env_torch toy_env)
                          (Z.to_nat (data_dimension toy_args + extra_dim toy_args)) 20)
            0 1 ids)
         z0 = Some (out, b')
    /\ Z.of_nat (ncols out) = data_dimension toy_args
    /\ Z.of_nat (nrows out) = ntrain toy_args
    /\ rectangular out.
Proof.
  assert (0 <= extra_dim toy_args) as He by (cbn; lia).
  assert (1 <= data_dimension toy_args) as Hd by (cbn; lia).
  assert (0 <= ntrain toy_args) as Hn by (cbn; lia).
  assert (1 <= ntrain toy_args) as Hn1 by (cbn; lia).
  assert (0 < tol toy_args)%Q as Htol by (unfold Qlt; cbn; lia).
  assert (inject_Z 0 < inject_Z 1)%Q as H01 by (unfold Qlt; cbn; lia).
  destruct (widths_of_state_and_prediction toy_args (mkNpRandom (env_np toy_env) 0) He Hd Hn)
    as (z0 & zN & ids & g' & Ht & Hc & _ & Hr & Hf & _ & _ & Hex).
  destruct (Hex toy_conforming Htol Hn1
                (ODEBlock_init
                   (ODEfunc_init (env_torch toy_env)
                                 (Z.to_nat (data_dimension toy_args + extra_dim toy_args)) 20)
                   0 1 ids)
                20%nat (inject_Z 0) (inject_Z 1)
                (proj1 (Hf (env_torch toy_env))) eq_refl H01 eq_refl)
    as (out & b' & Hfw & Hoc & Hor & Hrect).
  exists z0, zN, ids, g', out, b'.
  exact (conj He (conj Hd (conj Hn (conj Ht (conj Hc (conj Hr
           (conj Hfw (conj Hoc (conj Hor Hrect))))))))).
Defined.


Lemma gather1_selector_witness :
  rectangular (mkTensor 3 [[1; 2; 3]; [4; 5; 6]]%Q)
  /\ gather1 (mkTensor 3 [[1; 2; 3]; [4; 5; 6]]%Q) (selector 1 2)
     = Some (mkTensor 2 (take 2 <$> take 1 (rows (mkTensor 3 [[1; 2; 3]; [4; 5; 6]]%Q)))).
Proof.
  assert (rectangular (mkTensor 3 [[1; 2; 3]; [4; 5; 6]]%Q)) as Hr
    by (repeat constructor).
  split; [exact Hr|].
  apply (gather1_selector (mkTensor 3 [[1; 2; 3]; [4; 5; 6]]%Q) 1 2 Hr); cbn; lia.
Defined.

Lemma selector_recovers_training_batch_witness :
  exists z0 zN ids g' raw,
    train_data toy_args (mkNpRandom (env_np toy_env) 0) = Some (z0, zN, ids, g')
    /\ gather1 z0 ids = Some raw
    /\ zN = tmap (fun x => x * scale_factor toy_args)%Q raw
    /\ z0 = zero_padded raw (Z.to_nat (extra_dim toy_args)).
Proof.
  assert (exists r, train_data toy_args (mkNpRandom (env_np toy_env) 0) = Some r)
    as ([[[z0 zN] ids] g'] & Hd)
    by by_running (train_data toy_args (mkNpRandom (env_np toy_env) 0)).
  destruct (selector_recovers_training_batch _ _ _ _ _ _ Hd) as (raw & Hg & HN & H0 & _).
  exists z0, zN, ids, g', raw.
  exact (conj Hd (conj Hg (conj HN H0))).
Defined.

Lemma without_extra_dimensions_nothing_is_added_or_dropped_witness :
  exists z0 zN ids g',
    extra_dim toy_args_plain = 0
    /\ train_data toy_args_plain (mkNpRandom (env_np toy_env) 0) = Some (z0, zN, ids, g')
    /\ zN = tmap (fun x => x * scale_factor toy_args_plain)%Q z0
    /\ (forall y, rectangular y -> ncols y = ncols z0 -> nrows y = nrows z0 ->
                  gather1 y ids = Some y).
Proof.
  assert (exists r, train_data toy_args_plain (mkNpRandom (env_np toy_env) 0) = Some r)
    as ([[[z0 zN] ids] g'] & Hd)
    by by_running (train_data toy_args_plain (mkNpRandom (env_np toy_env) 0)).
  assert (extra_dim toy_args_plain = 0) as He by reflexivity.
  destruct (without_extra_dimensions_nothing_is_added_or_dropped _ _ _ _ _ _ He Hd)
    as (_ & HN & Hg).
  exists z0, zN, ids, g'.
  exact (conj He (conj Hd (conj HN Hg))).
Defined.

Lemma completed_run_had_valid_configuration_witness :
  exists o,
    run toy_args toy_env = Some o
    /\ 1 <= niters toy_args
    /\ 0 <= ntrain toy_args /\ 0 <= ntest toy_args
    /\ 0 <= data_dimension toy_args /\ 0 <= extra_dim toy_args.
Proof.
  assert (exists o, run toy_args toy_env = Some o) as (o & Hr)
    by by_running (run toy_args toy_env).
  destruct (completed_run_had_valid_configuration _ _ _ Hr)
    as (H1 & H2 & H3 & H4 & H5 & _).
  exists o.
  exact (conj Hr (conj H1 (conj H2 (conj H3 (conj H4 H5))))).
Defined.

Lemma nonpositive_experiment_no_counts_from_the_end_witness :
  exists o r p0 (r3 : list Q) l,
    run toy_args_last_slot toy_env = Some o
    /\ experiment_no toy_args_last_slot <= 0
    /\ lookup_file o "results.npy" = Some (NpyResults r)
    /\ Z.of_nat p0.2 = Z.of_nat (length r3) + experiment_no toy_args_last_slot - 1
    /\ cell_at r p0 = Some l.
Proof.
  assert (exists o, run toy_args_last_slot toy_env = Some o) as (o & Hr)
    by by_running (run toy_args_last_slot toy_env).
  assert (experiment_no toy_args_last_slot <= 0) as He by (cbn; lia).
  destruct (nonpositive_experiment_no_counts_from_the_end _ _ _ Hr He)
    as (r0 & r & p0 & r1 & r2 & r3 & l & _ & Hf & _ & _ & _ & _ & Hp & _ & Hc).
  exists o, r, p0, r3, l.
  exact (conj Hr (conj He (conj Hf (conj Hp Hc)))).
Defined.

Lemma printed_nfe_is_last_recorded_count_witness :
  exists o n na,
    run toy_args_adjoint toy_env = Some o
    /\ PNFE n ∈ out_stdout o
    /\ lookup_file o (filename toy_args_adjoint +:+ "nfe_arr.npy") = Some (NpyArray na)
    /\ na !! (Z.to_nat (niters toy_args_adjoint) - 1)%nat = Some (inject_Z n).
Proof.
  assert (exists o, run toy_args_adjoint toy_env = Some o) as (o & Hr)
    by by_running (run toy_args_adjoint toy_env).
  destruct (printed_nfe_is_last_recorded_count _ _ _ Hr)
    as (n & na & m & Hp & Hf & Hl & _).
  exists o, n, na.
  exact (conj Hr (conj Hp (conj Hf Hl))).
Defined.

Lemma transcript_of_a_run_witness :
  exists o la m t l n l',
    run toy_args toy_env = Some o
    /\ lookup_file o (filename toy_args +:+ "loss_arr.npy") = Some (NpyArray la)
    /\ lookup_file o (filename toy_args +:+ "model.pth") = Some (TorchModel m)
    /\ out_stdout o
       = imap (fun i x => PIter (Z.of_nat (S i)) x) la
         ++ [PBlank; PTrainingComplete (niters toy_args); PTime t; PTrainMSE l; PNFE n;
             PParameters (count_parameters m); PTestMSE l'].
Proof.
  assert (exists o, run toy_args toy_env = Some o) as (o & Hr)
    by by_running (run toy_args toy_env).
  destruct (transcript_of_a_run _ _ _ Hr) as (la & m & t & l & n & l' & Hf & Hm & _ & Ho).
  exists o, la, m, t, l, n, l'.
  exact (conj Hr (conj Hf (conj Hm Ho))).
Defined.

Lemma toy_clock_monotone (k : nat) : (env_clock toy_env k <= env_clock toy_env (S k))%Q.
Proof.
  unfold toy_env, env_clock. rewrite <- Zle_Qle. nia.
Qed.

Lemma durations_under_a_monotone_clock_witness :
  exists o ta total,
    (forall k, (env_clock toy_env k <= env_clock toy_env (S k))%Q)
    /\ run toy_args toy_env = Some o
    /\ lookup_file o (filename toy_args +:+ "time_arr.npy") = Some (NpyArray ta)
    /\ Forall (fun d => (0 <= d)%Q) ta
    /\ (Qsum ta <= total)%Q.
Proof.
  assert (exists o, run toy_args toy_env = Some o) as (o & Hr)
    by by_running (run toy_args toy_env).
  destruct (durations_under_a_monotone_clock _ _ _ toy_clock_monotone Hr)
    as (ta & total & Hf & _ & Hp & Hs).
  exists o, ta, total.
  exact (conj toy_clock_monotone (conj Hr (conj Hf (conj Hp Hs)))).
Defined.

Lemma loop_stops_only_on_pipeline_errors_witness :
  exists s0 sk,
    initial_state toy_args toy_env (toy_ids toy_args) = Some s0
    /\ state_after toy_args (toy_z0 toy_args) (toy_zN toy_args) s0 1 = Some sk
    /\ (1 < Z.to_nat (niters toy_args))%nat
    /\ (is_Some (state_after toy_args (toy_z0 toy_args) (toy_zN toy_args) s0 2)
        <-> is_Some (gradient_step toy_args (toy_z0 toy_args) (toy_zN toy_args)
                                   (ODEBlock_set_nfe (model sk) 0) (optimizer sk) None)).
Proof.
  assert (exists s0, initial_state toy_args toy_env (toy_ids toy_args) = Some s0)
    as (s0 & H0)
    by by_running (initial_state toy_args toy_env (toy_ids toy_args)).
  assert (exists sk, state_after toy_args (toy_z0 toy_args) (toy_zN toy_args) s0 1 = Some sk)
    as (sk & Hk).
  { destruct (state_after toy_args (toy_z0 toy_args) (toy_zN toy_args) s0 1) eqn:E;
      [eauto|].
    exfalso.
    assert (succeeds (initial_state toy_args toy_env (toy_ids toy_args)
                      ≫= fun s => state_after toy_args (toy_z0 toy_args)
                                              (toy_zN toy_args) s 1) = true) as R
      by (vm_compute; reflexivity).
    rewrite H0 in R. cbn [mbind option_bind] in R. rewrite E in R. discriminate R. }
  assert (1 < Z.to_nat (niters toy_args))%nat as Hn by (vm_compute; lia).
  exists s0, sk.
  exact (conj H0 (conj Hk (conj Hn
           (loop_stops_only_on_pipeline_errors _ _ _ _ _ _ _ 1%nat H0 Hk Hn)))).
Defined.

Lemma run_completes_witness :
  @conforming toy_torch
  /\ env_cuda toy_env = false
  /\ (0 < tol toy_args)%Q
  /\ (0 <= lr toy_args)%Q
  /\ 1 <= niters toy_args
  /\ env_results toy_env = Some toy_results
  /\ exists o, run toy_args toy_env = Some o.
Proof.
  assert (0 < tol toy_args)%Q as Htol by (unfold Qlt; cbn; lia).
  assert (0 <= lr toy_args)%Q as Hlr by (unfold Qle; cbn; lia).
  assert (1 <= niters toy_args) as Hn by (cbn; lia).
  split_and!;
    [exact toy_conforming | reflexivity | exact Htol | exact Hlr | exact Hn | reflexivity |].
  apply (run_completes toy_args toy_env toy_results (1, 0, 0, 0)%nat (1, 1, 0, 0)%nat
                       toy_conforming eq_refl Htol Hlr Hn);
    [cbn; lia | cbn; lia | cbn; lia | cbn; lia | reflexivity
    | vm_compute; reflexivity | vm_compute; reflexivity].
Defined.

(** ** Where the parameters change *)

Section ParameterUpdates.
Context `{Torch}.

(** X13. One iteration makes its forward and backward pass on the
    parameters it started with, leaves the gradient of that backward pass
    alone in place (nothing is carried over from earlier iterations), and
    replaces the parameters by one optimiser step from them; the time points
    and the selector stay. *)
Theorem iteration_updates_parameters_once
    (args : Args) (z0 zN : Tensor Q) (s s' : TrainState) (i : Z) :
  train_iteration args z0 zN s i = Some s' ->
  exists pred b g0 f,
    ODEBlock_forward args (ODEBlock_set_nfe (model s) 0) z0 = Some (pred, b)
    /\ parameters (odefunc b) = parameters (odefunc (model s))
    /\ run_script (backward (adjoint args) (parameters (odefunc (model s))) z0
                            (integration_times (model s)) (tol args)
                            (indices (model s)) zN)
                  (odefunc b) = Some (g0, f)
    /\ grads s' = Some g0
    /\ (parameters (odefunc (model s')), optimizer s')
       = Adam_step (optimizer s) (parameters (odefunc (model s))) (Some g0)
    /\ integration_times (model s') = integration_times (model s)
    /\ indices (model s') = indices (model s).
Proof.
  intros Hs.
  apply train_iteration_inv in Hs
    as (pred & l & m & o & g & ji & jl & jn & jt & Hg & _ & _ & _ & _ & ->).
  apply gradient_step_inv in Hg as (b & g0 & f & Hfw & _ & Hbw & -> & -> & ->).
  apply ODEBlock_forward_inv in Hfw as Hfw'.
  destruct Hfw' as (traj & f1 & y & Hrun & _ & _ & ->).
  apply run_script_counts in Hrun as Hf1.
  apply run_script_counts in Hbw as Hf2.
  cbn [odefunc integration_times indices ODEBlock_set_nfe fc1 fc2 fc3] in *.
  assert (parameters f1 = parameters (odefunc (model s))) as Hp1 by (by rewrite Hf1).
  assert (parameters f = parameters (odefunc (model s))) as Hp2
    by (rewrite Hf2, Hf1; done).
  rewrite Hp1 in Hbw.
  eexists pred, _, g0, f. cbn [model grads optimizer odefunc integration_times indices accumulate].
  split_and!; try done.
  rewrite Hp2. by destruct (Adam_step _ _ _) as [[[p1 p2] p3] o].
Qed.

(** X14. The test prediction changes no parameter, time point or
    selector of the model; it adds its calls to the counter without
    resetting it; and it has the shape of the test selector. *)
Theorem test_phase_leaves_parameters_alone
    (args : Args) (m m' : ODEBlock) (z0 pred : Tensor Q) (ids : Tensor nat) :
  test_prediction args m z0 ids = Some (pred, m') ->
  parameters (odefunc m') = parameters (odefunc m)
  /\ integration_times m' = integration_times m
  /\ indices m' = indices m
  /\ ODEBlock_nfe m'
     = ODEBlock_nfe m
       + Z.of_nat (calls (odeint (adjoint args) z0 [inject_Z 0; inject_Z 1] None None)
                         (odefunc m))
  /\ ncols pred = ncols ids
  /\ nrows pred = nrows ids.
Proof.
  unfold test_prediction. intros Ht.
  destruct (run_script _ _) as [[traj f]|] eqn:Hrun; simplify_eq/=.
  destruct (traj !! 1%nat) as [y|] eqn:Hy; simplify_eq/=.
  destruct (gather1 y ids) as [out|] eqn:Hg; simplify_eq/=.
  apply run_script_counts in Hrun. apply gather1_shape in Hg as (Hc & Hr & _).
  unfold ODEBlock_nfe. cbn [odefunc]. rewrite Hrun. done.
Qed.

End ParameterUpdates.

Lemma iteration_updates_parameters_once_witness :
  exists s' pred b g0,
    train_iteration toy_args (toy_z0 toy_args) (toy_zN toy_args) (toy_state toy_args) 1
    = Some s'
    /\ ODEBlock_forward toy_args (ODEBlock_set_nfe (model (toy_state toy_args)) 0)
                        (toy_z0 toy_args) = Some (pred, b)
    /\ grads s' = Some g0
    /\ (parameters (odefunc (model s')), optimizer s')
       = Adam_step (optimizer (toy_state toy_args))
                   (parameters (odefunc (model (toy_state toy_args)))) (Some g0).
Proof.
  assert (exists s', train_iteration toy_args (toy_z0 toy_args) (toy_zN toy_args)
                                     (toy_state toy_args) 1 = Some s') as (s' & Hs)
    by by_running (train_iteration toy_args (toy_z0 toy_args) (toy_zN toy_args)
                                   (toy_state toy_args) 1).
  destruct (iteration_updates_parameters_once _ _ _ _ _ _ Hs)
    as (pred & b & g0 & f & Hfw & _ & _ & Hg & Ha & _).
  exists s', pred, b, g0.
  exact (conj Hs (conj Hfw (conj Hg Ha))).
Defined.

Lemma test_phase_leaves_parameters_alone_witness :
  exists pred m',
    test_prediction toy_args (toy_model toy_args) (toy_z0 toy_args) (toy_ids toy_args)
    = Some (pred, m')
    /\ parameters (odefunc m') = parameters (odefunc (toy_model toy_args))
    /\ ODEBlock_nfe m'
       = ODEBlock_nfe (toy_model toy_args)
         + Z.of_nat (calls (odeint (adjoint toy_args) (toy_z0 toy_args)
                                   [inject_Z 0; inject_Z 1] None None)
                           (odefunc (toy_model toy_args))).
Proof.
  assert (exists r, test_prediction toy_args (toy_model toy_args) (toy_z0 toy_args)
                                    (toy_ids toy_args) = Some r) as ([pred m'] & Ht)
    by by_running (test_prediction toy_args (toy_model toy_args) (toy_z0 toy_args)
                                   (toy_ids toy_args)).
  destruct (test_phase_leaves_parameters_alone _ _ _ _ _ _ Ht) as (Hp & _ & _ & Hn & _).
  exists pred, m'.
  exact (conj Ht (conj Hp Hn)).
Defined.
